(** * Reconciliation of three AWS resources: a shallow embedding

    The development follows three resource implementations of the provider:

    - [apigateway]: the API Gateway method response
      (create / read / update / delete and the importer's [StateContext]);
    - [ec2]: the VPC endpoint / security group association
      (create / read / delete with the optional replacement of the VPC's
      default security group);
    - [servicecatalog]: the Service Catalog provisioning artifact
      (create / read / update / delete with the retry-then-direct-call
      pattern).

    Remote calls are functions on an abstract remote world [W]; every
    resource function runs in a state monad over the world and the list of
    remote calls issued so far, so that the order of the calls can be stated.
    Functions of the provider that live outside the three files (finders,
    waiters, identifier helpers) and the retry helpers of the plugin SDK are
    fields of a per-package record the resource functions are parametrised
    by: nothing is assumed about them. *)

From Stdlib Require Import String Ascii List Bool Arith ZArith Lia.
Import ListNotations.
Local Open Scope string_scope.
Local Open Scope list_scope.

Set Implicit Arguments.

(* ===================================================================== *)
(** ** Go's [strings] package *)
(* ===================================================================== *)

Module strings.

(** [strings.HasPrefix(s, prefix)]. *)
Fixpoint HasPrefix (s prefix : string) {struct prefix} : bool :=
  match prefix with
  | EmptyString => true
  | String p ps =>
      match s with
      | EmptyString => false
      | String c cs => Ascii.eqb c p && HasPrefix cs ps
      end
  end.

(** [strings.Contains(s, substr)]. *)
Fixpoint Contains (s substr : string) : bool :=
  HasPrefix s substr ||
  match s with
  | EmptyString => false
  | String _ rest => Contains rest substr
  end.

(** The scan of [strings.Split] for a non-empty separator: [cur] is the
    component being read, [skip] the number of bytes of a separator match
    still to be dropped.  Matches are taken left to right and do not
    overlap. *)
Fixpoint splitFrom (sep : string) (skip : nat) (cur s : string) : list string :=
  match s with
  | EmptyString => [cur]
  | String c rest =>
      match skip with
      | S k => splitFrom sep k cur rest
      | O =>
          if HasPrefix s sep
          then cur :: splitFrom sep (String.length sep - 1) "" rest
          else splitFrom sep 0 (cur ++ String c "") rest
      end
  end.

(** With an empty separator [strings.Split] explodes the string (here into
    its bytes). *)
Fixpoint explode (s : string) : list string :=
  match s with
  | EmptyString => []
  | String c rest => String c "" :: explode rest
  end.

(** [strings.Split(s, sep)]. *)
Definition Split (s sep : string) : list string :=
  match sep with
  | EmptyString => explode s
  | String _ _ => splitFrom sep 0 "" s
  end.

(** [strings.Join(elems, sep)]. *)
Fixpoint Join (elems : list string) (sep : string) : string :=
  match elems with
  | [] => ""
  | [e] => e
  | e :: rest => e ++ sep ++ Join rest sep
  end.

End strings.

Module fmt.

(** [fmt.Sprintf(format, a...)] for formats whose only verb is [%s], with
    string arguments. *)
Fixpoint Sprintf (format : string) (a : list string) : string :=
  match format with
  | EmptyString => ""
  | String "%" (String "s" rest) =>
      match a with
      | x :: a' => x ++ Sprintf rest a'
      | [] => "%!s(MISSING)" ++ Sprintf rest []
      end
  | String c rest => String c (Sprintf rest a)
  end.

End fmt.

(* ===================================================================== *)
(** ** Errors *)
(* ===================================================================== *)

(** Go [error] values, as far as the resources distinguish them.  A Go
    [error] that may be [nil] is an [option error]. *)
#[warnings="-register-all"]
Inductive error : Type :=
| AWSError (code message : string)           (* awserr.Error *)
| TimeoutError (LastError : option error)    (* *resource.TimeoutError *)
| NotFoundError (LastError : option error)   (* *resource.NotFoundError *)
| FmtError (format : string) (args : list string) (wrapped : option error).
    (* fmt.Errorf(format, args...), the last verb being %w when an error is wrapped *)

Module tfawserr.

(** [errors.As(err, &awsErr)]: the first AWS error of the chain, with its
    code and message. *)
Fixpoint asAWSError (err : error) : option (string * string) :=
  match err with
  | AWSError code message => Some (code, message)
  | TimeoutError (Some e) => asAWSError e
  | NotFoundError (Some e) => asAWSError e
  | FmtError _ _ (Some e) => asAWSError e
  | _ => None
  end.

(** [tfawserr.ErrCodeEquals(err, codes...)]. *)
Definition ErrCodeEquals (err : option error) (codes : list string) : bool :=
  match err with
  | None => false
  | Some e =>
      match asAWSError e with
      | Some (code, _) => existsb (String.eqb code) codes
      | None => false
      end
  end.

(** [tfawserr.ErrMessageContains(err, code, message)]. *)
Definition ErrMessageContains (err : option error) (code message : string) : bool :=
  match err with
  | None => false
  | Some e =>
      match asAWSError e with
      | Some (c, m) => String.eqb c code && strings.Contains m message
      | None => false
      end
  end.

End tfawserr.

(* ===================================================================== *)
(** ** The monad of remote calls *)
(* ===================================================================== *)

(** A computation over a state [S] returning an [A]. *)
Definition M (S A : Type) : Type := S -> A * S.

Definition ret {S A} (a : A) : M S A := fun s => (a, s).

Definition bind {S A B} (m : M S A) (k : A -> M S B) : M S B :=
  fun s => let (a, s') := m s in k a s'.

Declare Scope remote_scope.
Delimit Scope remote_scope with remote.
Notation "x <- m ;; k" := (bind m (fun x => k))
  (at level 61, m at next level, right associativity) : remote_scope.
Notation "' pat <- m ;; k" := (bind m (fun x => match x with pat => k end))
  (at level 61, pat pattern, m at next level, right associativity) : remote_scope.
Local Open Scope remote_scope.

(** A variable captured by a closure: the closure runs over the variable
    and the state, [scoped] declares the variable with its initial value and
    returns its final value, [assign] writes it and [lift] runs a
    computation that does not touch it. *)
Definition scoped {S L A} (init : L) (m : M (L * S) A) : M S (A * L) :=
  fun s => let (a, ls) := m (init, s) in ((a, fst ls), snd ls).

Definition assign {S L} (v : L) : M (L * S) unit :=
  fun ls => (tt, (v, snd ls)).

Definition lift {S L A} (m : M S A) : M (L * S) A :=
  fun ls => let (a, s') := m (snd ls) in (a, (fst ls, s')).

(** The state of a resource function: the remote world and the remote calls
    issued so far, oldest first. *)
Definition Remote (W C : Type) : Type := (W * list C)%type.

(** Issue the remote call [c], whose effect on the world is [op]. *)
Definition call {W C A} (c : C) (op : W -> A * W) : M (Remote W C) A :=
  fun s => let (a, w') := op (fst s) in (a, (w', snd s ++ [c])).

Definition world {W C} (s : Remote W C) : W := fst s.
Definition calls {W C} (s : Remote W C) : list C := snd s.

(* ===================================================================== *)
(** ** The plugin SDK: resource data and diagnostics *)
(* ===================================================================== *)

(** [time.Duration], in nanoseconds. *)
Definition Duration : Type := Z.

Module time.

(** [time.Time]: an instant together with its rendering by
    [Format(time.RFC3339)]. *)
Record Time : Type := { UnixNano : Z; RFC3339 : string }.

Definition Millisecond : Duration := 1000000%Z.
Definition Second : Duration := (1000 * Millisecond)%Z.
Definition Minute : Duration := (60 * Second)%Z.
End time.

Module aws.

(** [aws.StringValue(p)]: the empty string for a nil pointer. *)
Definition StringValue (p : option string) : string :=
  match p with Some s => s | None => "" end.

(** [aws.String(v)], [aws.Bool(v)]: a pointer to the value. *)
Definition String (v : string) : option string := Some v.
Definition Bool (v : bool) : option bool := Some v.

(** [aws.StringSlice(vs)]. *)
Definition StringSlice (vs : list string) : list (option string) := map Some vs.

(** [aws.StringMap(m)], [aws.BoolMap(m)]. *)
Definition StringMap (m : list (string * string)) : list (string * option string) :=
  map (fun kv => (fst kv, Some (snd kv))) m.
Definition BoolMap (m : list (string * bool)) : list (string * option bool) :=
  map (fun kv => (fst kv, Some (snd kv))) m.

(** [aws.StringValueMap(m)], [aws.BoolValueMap(m)]: nil values are
    dropped. *)
Fixpoint StringValueMap (m : list (string * option string)) : list (string * string) :=
  match m with
  | [] => []
  | (k, Some v) :: rest => (k, v) :: StringValueMap rest
  | (_, None) :: rest => StringValueMap rest
  end.
Fixpoint BoolValueMap (m : list (string * option bool)) : list (string * bool) :=
  match m with
  | [] => []
  | (k, Some v) :: rest => (k, v) :: BoolValueMap rest
  | (_, None) :: rest => BoolValueMap rest
  end.

End aws.

Module strconv.

(** [strconv.ParseBool(str)]: the parsed value, or [None] for the syntax
    error. *)
Definition ParseBool (str : string) : option bool :=
  if existsb (String.eqb str) ["1"; "t"; "T"; "TRUE"; "true"; "True"] then Some true
  else if existsb (String.eqb str) ["0"; "f"; "F"; "FALSE"; "false"; "False"] then Some false
  else None.

End strconv.

Module schema.

(** An element of a map attribute: [interface{}] holding a string or a
    bool. *)
Inductive elem : Type :=
| EString (s : string)
| EBool (b : bool).

(** The value of an attribute: [interface{}] holding a string, a bool or a
    [map[string]interface{}] (keys in some fixed order). *)
Inductive value : Type :=
| VString (s : string)
| VBool (b : bool)
| VMap (m : list (string * elem)).

Definition elem_eqb (a b : elem) : bool :=
  match a, b with
  | EString x, EString y => String.eqb x y
  | EBool x, EBool y => Bool.eqb x y
  | _, _ => false
  end.

Fixpoint map_eqb (a b : list (string * elem)) : bool :=
  match a, b with
  | [], [] => true
  | (k, x) :: a', (l, y) :: b' => String.eqb k l && elem_eqb x y && map_eqb a' b'
  | _, _ => false
  end.

Definition value_eqb (a b : value) : bool :=
  match a, b with
  | VString x, VString y => String.eqb x y
  | VBool x, VBool y => Bool.eqb x y
  | VMap x, VMap y => map_eqb x y
  | _, _ => false
  end.

Definition option_value_eqb (a b : option value) : bool :=
  match a, b with
  | None, None => true
  | Some x, Some y => value_eqb x y
  | _, _ => false
  end.

(** [*schema.ResourceData]: the identifier, the attributes of the prior
    state ([old]), the attributes as planned and as written by [Set]
    ([new]), the new-resource mark and the configured timeouts. *)
Record ResourceData : Type := {
  id : string;
  old : string -> option value;
  new : string -> option value;
  newResource : bool;
  timeouts : string -> Duration
}.

Definition TimeoutCreate := "create".
Definition TimeoutRead := "read".
Definition TimeoutUpdate := "update".
Definition TimeoutDelete := "delete".

(** [d.Id()], [d.SetId(v)], [d.IsNewResource()], [d.Timeout(key)]. *)
Definition Id (d : ResourceData) : string := id d.

Definition SetId (d : ResourceData) (v : string) : ResourceData :=
  {| id := v; old := old d; new := new d;
     newResource := newResource d; timeouts := timeouts d |}.

Definition IsNewResource (d : ResourceData) : bool := newResource d.

Definition Timeout (d : ResourceData) (key : string) : Duration := timeouts d key.

(** [d.Set(key, v)]; a nil pointer clears the attribute. *)
Definition Set_ (d : ResourceData) (key : string) (v : option value) : ResourceData :=
  {| id := id d; old := old d;
     new := fun k => if String.eqb k key then v else new d k;
     newResource := newResource d; timeouts := timeouts d |}.

(** [d.Get(key)] as an [interface{}]. *)
Definition Get (d : ResourceData) (key : string) : option value := new d key.

(** [d.Get(key).(string)], [d.Get(key).(bool)],
    [d.Get(key).(map[string]interface{})]: the zero value when the
    attribute is unset. *)
Definition GetString (d : ResourceData) (key : string) : string :=
  match new d key with Some (VString s) => s | _ => "" end.

Definition GetBool (d : ResourceData) (key : string) : bool :=
  match new d key with Some (VBool b) => b | _ => false end.

Definition GetMap (d : ResourceData) (key : string) : list (string * elem) :=
  match new d key with Some (VMap m) => m | _ => [] end.

(** [v, ok := d.GetOk(key)] at a string or a map attribute: [ok] is false
    for the zero value. *)
Definition GetOkString (d : ResourceData) (key : string) : option string :=
  match GetString d key with
  | EmptyString => None
  | s => Some s
  end.

Definition GetOkMap (d : ResourceData) (key : string) : option (list (string * elem)) :=
  match GetMap d key with
  | [] => None
  | m => Some m
  end.

(** [d.HasChange(key)] and [d.HasChanges(keys...)]. *)
Definition HasChange (d : ResourceData) (key : string) : bool :=
  negb (option_value_eqb (old d key) (new d key)).

Definition HasChanges (d : ResourceData) (keys : list string) : bool :=
  existsb (HasChange d) keys.

End schema.

Module diag.

(** An argument of a format: a string, or an error printed with [%s]. *)
Inductive Arg : Type :=
| Str (s : string)
| Err (e : error).

(** A diagnostic of severity error: the one built by
    [sdkdiag.AppendErrorf] from a format and its arguments, or the one
    built by [sdkdiag.AppendFromErr] from an error. *)
Inductive Diagnostic : Type :=
| Errorf (format : string) (args : list Arg)
| FromErr (err : error).

Definition Diagnostics : Type := list Diagnostic.

(** [diags.HasError()]. *)
Definition HasError (diags : Diagnostics) : bool :=
  match diags with [] => false | _ => true end.

End diag.

Module sdkdiag.

(** [sdkdiag.AppendErrorf(diags, format, a...)]. *)
Definition AppendErrorf (diags : diag.Diagnostics) (format : string)
    (args : list diag.Arg) : diag.Diagnostics :=
  diags ++ [diag.Errorf format args].

(** [sdkdiag.AppendFromErr(diags, err)]. *)
Definition AppendFromErr (diags : diag.Diagnostics) (err : option error) : diag.Diagnostics :=
  match err with
  | None => diags
  | Some e => diags ++ [diag.FromErr e]
  end.

End sdkdiag.

(* ===================================================================== *)
(** ** API Gateway: the method response *)
(* ===================================================================== *)

Module apigateway.
Import schema.

(** *** The service's types *)

Definition ErrCodeConflictException := "ConflictException".
Definition ErrCodeNotFoundException := "NotFoundException".

Record PutMethodResponseInput : Type := {
  put_HttpMethod : option string;
  put_ResourceId : option string;
  put_RestApiId : option string;
  put_StatusCode : option string;
  put_ResponseModels : list (string * option string);
  put_ResponseParameters : list (string * option bool)
}.

(** [GetMethodResponseInput] and [DeleteMethodResponseInput] have the same
    four fields. *)
Record MethodResponseKey : Type := {
  HttpMethod : option string;
  ResourceId : option string;
  RestApiId : option string;
  StatusCode : option string
}.

Record PatchOperation : Type := {
  From : option string;
  Op : option string;
  Path : option string;
  Value : option string
}.

Record UpdateMethodResponseInput : Type := {
  upd_HttpMethod : option string;
  upd_ResourceId : option string;
  upd_RestApiId : option string;
  upd_StatusCode : option string;
  PatchOperations : list PatchOperation
}.

(** [*apigateway.MethodResponse]; the client returns it non-nil when the
    error is nil. *)
Record MethodResponse : Type := {
  ResponseModels : list (string * option string);
  ResponseParameters : list (string * option bool);
  out_StatusCode : option string
}.

(** The remote calls of the resource. *)
Inductive Call : Type :=
| PutMethodResponse (input : PutMethodResponseInput)
| GetMethodResponse (input : MethodResponseKey)
| UpdateMethodResponse (input : UpdateMethodResponseInput)
| DeleteMethodResponse (input : MethodResponseKey).

(** [*apigateway.APIGateway], over the remote world [W]. *)
Record APIGateway (W : Type) : Type := {
  PutMethodResponseWithContext :
    PutMethodResponseInput -> W -> (MethodResponse * option error) * W;
  GetMethodResponseWithContext :
    MethodResponseKey -> W -> (MethodResponse * option error) * W;
  UpdateMethodResponseWithContext :
    UpdateMethodResponseInput -> W -> (MethodResponse * option error) * W;
  DeleteMethodResponseWithContext :
    MethodResponseKey -> W -> option error * W
}.

(** What the resource uses of the provider outside its own file: the
    connection, [tfresource.RetryWhenAWSErrCodeEquals] and the two expanders
    of patch operations. *)
Record Provider (W : Type) : Type := {
  APIGatewayConn : APIGateway W;
  RetryWhenAWSErrCodeEquals :
    forall S A : Type,
      Duration -> M S (A * option error) -> list string -> M S (A * option error);
  expandRequestResponseModelOperations :
    ResourceData -> string -> string -> list PatchOperation;
  expandMethodParametersOperations :
    ResourceData -> string -> string -> list PatchOperation
}.

(** *** The importer *)

(** [idParts[i]], read only behind the length test. *)
Definition index (idParts : list string) (i : nat) : string := nth i idParts "".

(** The [StateContext] function of the importer: the imported resources, or
    the error. *)
Definition StateContext (d : ResourceData) : list ResourceData + error :=
  let idParts := strings.Split (Id d) "/" in
  if negb (Nat.eqb (length idParts) 4)
     || String.eqb (index idParts 0) ""
     || String.eqb (index idParts 1) ""
     || String.eqb (index idParts 2) ""
     || String.eqb (index idParts 3) ""
  then
    inr (FmtError
           "Unexpected format of ID (%q), expected REST-API-ID/RESOURCE-ID/HTTP-METHOD/STATUS-CODE"
           [Id d] None)
  else
    let restApiID := index idParts 0 in
    let resourceID := index idParts 1 in
    let httpMethod := index idParts 2 in
    let statusCode := index idParts 3 in
    let d := Set_ d "http_method" (Some (VString httpMethod)) in
    let d := Set_ d "status_code" (Some (VString statusCode)) in
    let d := Set_ d "resource_id" (Some (VString resourceID)) in
    let d := Set_ d "rest_api_id" (Some (VString restApiID)) in
    let d := SetId d (fmt.Sprintf "agmr-%s-%s-%s-%s"
                        [restApiID; resourceID; httpMethod; statusCode]) in
    inl [d].

(** *** Create, read, update, delete *)

(** The resource functions run one at a time here, so the package's
    [resourceMethodResponseMutex], which create locks around its remote
    call, has no counterpart.  [d.Set] is given values of the attribute's
    type, for which it returns no error: the two error returns of read after
    [d.Set] are not reachable and are left out. *)

Section Resource.
Context {W : Type} (meta : Provider W).

Let conn := APIGatewayConn meta.

(** [v.(string)] at an element of [response_models]. *)
Definition elemString (v : elem) : string :=
  match v with EString s => s | EBool _ => "" end.

(** The loop over [response_parameters]: a bool is taken as it is, a string
    goes through [strconv.ParseBool], whose error is dropped. *)
Definition elemBool (v : elem) : bool :=
  match v with
  | EBool b => b
  | EString s => match strconv.ParseBool s with Some b => b | None => false end
  end.

Definition resourceMethodResponseCreate (d : ResourceData)
  : M (Remote W Call) (ResourceData * diag.Diagnostics) :=
  let diags : diag.Diagnostics := [] in
  let models := map (fun kv => (fst kv, elemString (snd kv))) (GetMap d "response_models") in
  let parameters :=
    match GetOkMap d "response_parameters" with
    | Some kv => map (fun kv => (fst kv, elemBool (snd kv))) kv
    | None => []
    end in
  let input :=
    {| put_HttpMethod := aws.String (GetString d "http_method");
       put_ResourceId := aws.String (GetString d "resource_id");
       put_RestApiId := aws.String (GetString d "rest_api_id");
       put_StatusCode := aws.String (GetString d "status_code");
       put_ResponseModels := aws.StringMap models;
       put_ResponseParameters := aws.BoolMap parameters |} in
  r <- RetryWhenAWSErrCodeEquals meta (2 * time.Minute)%Z
         (call (PutMethodResponse input) (PutMethodResponseWithContext conn input))
         [ErrCodeConflictException] ;;
  match snd r with
  | Some err =>
      ret (d, sdkdiag.AppendErrorf diags "creating API Gateway Method Response: %s" [diag.Err err])
  | None =>
      let d := SetId d (fmt.Sprintf "agmr-%s-%s-%s-%s"
                          [GetString d "rest_api_id"; GetString d "resource_id";
                           GetString d "http_method"; GetString d "status_code"]) in
      ret (d, diags)
  end.

Definition methodResponseKey (d : ResourceData) : MethodResponseKey :=
  {| HttpMethod := aws.String (GetString d "http_method");
     ResourceId := aws.String (GetString d "resource_id");
     RestApiId := aws.String (GetString d "rest_api_id");
     StatusCode := aws.String (GetString d "status_code") |}.

Definition resourceMethodResponseRead (d : ResourceData)
  : M (Remote W Call) (ResourceData * diag.Diagnostics) :=
  let diags : diag.Diagnostics := [] in
  let input := methodResponseKey d in
  r <- call (GetMethodResponse input) (GetMethodResponseWithContext conn input) ;;
  let methodResponse := fst r in
  match snd r with
  | Some err =>
      if negb (IsNewResource d)
         && tfawserr.ErrCodeEquals (Some err) [ErrCodeNotFoundException]
      then ret (SetId d "", diags)
      else ret (d, sdkdiag.AppendErrorf diags "reading API Gateway Method Response (%s): %s"
                     [diag.Str (Id d); diag.Err err])
  | None =>
      let d := Set_ d "response_models"
                 (Some (VMap (map (fun kv => (fst kv, EString (snd kv)))
                                (aws.StringValueMap (ResponseModels methodResponse))))) in
      let d := Set_ d "response_parameters"
                 (Some (VMap (map (fun kv => (fst kv, EBool (snd kv)))
                                (aws.BoolValueMap (ResponseParameters methodResponse))))) in
      ret (d, diags)
  end.

Definition resourceMethodResponseUpdate (d : ResourceData)
  : M (Remote W Call) (ResourceData * diag.Diagnostics) :=
  let diags : diag.Diagnostics := [] in
  let operations : list PatchOperation := [] in
  let operations :=
    if HasChange d "response_models"
    then operations ++ expandRequestResponseModelOperations meta d "response_models" "responseModels"
    else operations in
  let operations :=
    if HasChange d "response_parameters"
    then operations ++ expandMethodParametersOperations meta d "response_parameters" "responseParameters"
    else operations in
  let input :=
    {| upd_HttpMethod := aws.String (GetString d "http_method");
       upd_ResourceId := aws.String (GetString d "resource_id");
       upd_RestApiId := aws.String (GetString d "rest_api_id");
       upd_StatusCode := aws.String (GetString d "status_code");
       PatchOperations := operations |} in
  r <- call (UpdateMethodResponse input) (UpdateMethodResponseWithContext conn input) ;;
  match snd r with
  | Some err =>
      ret (d, sdkdiag.AppendErrorf diags "updating API Gateway Method Response (%s): %s"
                [diag.Str (Id d); diag.Err err])
  | None =>
      r <- resourceMethodResponseRead d ;;
      ret (fst r, diags ++ snd r)
  end.

Definition resourceMethodResponseDelete (d : ResourceData)
  : M (Remote W Call) (ResourceData * diag.Diagnostics) :=
  let diags : diag.Diagnostics := [] in
  let input := methodResponseKey d in
  err <- call (DeleteMethodResponse input) (DeleteMethodResponseWithContext conn input) ;;
  if tfawserr.ErrCodeEquals err [ErrCodeNotFoundException] then ret (d, diags)
  else
    match err with
    | Some e =>
        ret (d, sdkdiag.AppendErrorf diags "deleting API Gateway Method Response (%s): %s"
                  [diag.Str (Id d); diag.Err e])
    | None => ret (d, diags)
    end.

End Resource.

End apigateway.

(* ===================================================================== *)
(** ** EC2: the VPC endpoint / security group association *)
(* ===================================================================== *)

Module ec2.
Import schema.

(** *** The service's types *)

Record ModifyVpcEndpointInput : Type := {
  VpcEndpointId : option string;
  AddSecurityGroupIds : list (option string);
  RemoveSecurityGroupIds : list (option string)
}.

Record SecurityGroupIdentifier : Type := {
  GroupId : option string;
  GroupName : option string
}.

Record VpcEndpoint : Type := {
  VpcId : option string;
  Groups : list SecurityGroupIdentifier
}.

Record SecurityGroup : Type := {
  sg_GroupId : option string;
  sg_VpcId : option string
}.

(** The remote calls of the resource: the three finders read, only
    [ModifyVpcEndpoint] mutates. *)
Inductive Call : Type :=
| FindVPCEndpoint (vpcEndpointID : string)
| FindDefaultSecurityGroup (vpcID : string)
| FindAssociationExists (vpcEndpointID securityGroupID : string)
| ModifyVpcEndpoint (input : ModifyVpcEndpointInput).

Definition isMutation (c : Call) : bool :=
  match c with
  | ModifyVpcEndpoint _ => true
  | _ => false
  end.

(** The mutations among the calls, in the order they were issued. *)
Definition mutations (cs : list Call) : list Call := filter isMutation cs.

(** What the resource uses outside its own file: the one method of the EC2
    connection, the finders (a finder returns the object or the error), the
    identifier helper, [tfresource.NotFound] and the three error codes. *)
Record Provider (W : Type) : Type := {
  ModifyVpcEndpointWithContext : ModifyVpcEndpointInput -> W -> option error * W;
  FindVPCEndpointByID : string -> W -> (VpcEndpoint + error) * W;
  FindVPCDefaultSecurityGroup : string -> W -> (SecurityGroup + error) * W;
  FindVPCEndpointSecurityGroupAssociationExists : string -> string -> W -> option error * W;
  VPCEndpointSecurityGroupAssociationCreateID : string -> string -> string;
  NotFound : option error -> bool;
  errCodeInvalidVPCEndpointIdNotFound : string;
  errCodeInvalidGroupNotFound : string;
  errCodeInvalidParameter : string
}.

Section Resource.
Context {W : Type} (meta : Provider W).

(** [createVPCEndpointSecurityGroupAssociation] creates the specified VPC
    endpoint/security group association. *)
Definition createVPCEndpointSecurityGroupAssociation (vpcEndpointID securityGroupID : string)
  : M (Remote W Call) (option error) :=
  let input :=
    {| VpcEndpointId := aws.String vpcEndpointID;
       AddSecurityGroupIds := aws.StringSlice [securityGroupID];
       RemoveSecurityGroupIds := [] |} in
  err <- call (ModifyVpcEndpoint input) (ModifyVpcEndpointWithContext meta input) ;;
  match err with
  | Some e =>
      ret (Some (FmtError "creating VPC Endpoint (%s) Security Group (%s) Association: %w"
                   [vpcEndpointID; securityGroupID] (Some e)))
  | None => ret None
  end.

(** The codes [deleteVPCEndpointSecurityGroupAssociation] takes for an
    association that is already gone. *)
Definition absentCodes : list string :=
  [errCodeInvalidVPCEndpointIdNotFound meta;
   errCodeInvalidGroupNotFound meta;
   errCodeInvalidParameter meta].

(** [deleteVPCEndpointSecurityGroupAssociation] deletes the specified VPC
    endpoint/security group association. *)
Definition deleteVPCEndpointSecurityGroupAssociation (vpcEndpointID securityGroupID : string)
  : M (Remote W Call) (option error) :=
  let input :=
    {| VpcEndpointId := aws.String vpcEndpointID;
       AddSecurityGroupIds := [];
       RemoveSecurityGroupIds := aws.StringSlice [securityGroupID] |} in
  err <- call (ModifyVpcEndpoint input) (ModifyVpcEndpointWithContext meta input) ;;
  if tfawserr.ErrCodeEquals err absentCodes then ret None
  else
    match err with
    | Some e =>
        ret (Some (FmtError "deleting VPC Endpoint (%s) Security Group (%s) Association: %w"
                     [vpcEndpointID; securityGroupID] (Some e)))
    | None => ret None
    end.

Definition resourceVPCEndpointSecurityGroupAssociationRead (d : ResourceData)
  : M (Remote W Call) (ResourceData * diag.Diagnostics) :=
  let diags : diag.Diagnostics := [] in
  let vpcEndpointID := GetString d "vpc_endpoint_id" in
  let securityGroupID := GetString d "security_group_id" in
  let id := fmt.Sprintf "%s/%s" [vpcEndpointID; securityGroupID] in
  err <- call (FindAssociationExists vpcEndpointID securityGroupID)
           (FindVPCEndpointSecurityGroupAssociationExists meta vpcEndpointID securityGroupID) ;;
  if negb (IsNewResource d) && NotFound meta err then ret (SetId d "", diags)
  else
    match err with
    | Some e =>
        ret (d, sdkdiag.AppendErrorf diags "reading VPC Security Group Association (%s): %s"
                  [diag.Str id; diag.Err e])
    | None => ret (d, diags)
    end.

(** The block of create guarded by [replaceDefaultAssociation]: the
    diagnostics of an early return, or the identifier of the VPC's default
    security group, which is associated with the endpoint. *)
Definition findDefaultAssociation (diags : diag.Diagnostics) (vpcEndpointID securityGroupID : string)
  : M (Remote W Call) (diag.Diagnostics + string) :=
  r <- call (FindVPCEndpoint vpcEndpointID) (FindVPCEndpointByID meta vpcEndpointID) ;;
  match r with
  | inr err =>
      ret (inl (sdkdiag.AppendErrorf diags "reading VPC Endpoint (%s): %s"
                  [diag.Str vpcEndpointID; diag.Err err]))
  | inl vpcEndpoint =>
      let vpcID := aws.StringValue (VpcId vpcEndpoint) in
      r <- call (FindDefaultSecurityGroup vpcID) (FindVPCDefaultSecurityGroup meta vpcID) ;;
      match r with
      | inr err =>
          ret (inl (sdkdiag.AppendErrorf diags "reading EC2 VPC (%s) default Security Group: %s"
                      [diag.Str vpcID; diag.Err err]))
      | inl defaultSecurityGroup =>
          let defaultSecurityGroupID := aws.StringValue (sg_GroupId defaultSecurityGroup) in
          if String.eqb defaultSecurityGroupID securityGroupID
          then
            ret (inl (sdkdiag.AppendErrorf diags "%s is the default Security Group for EC2 VPC (%s)"
                        [diag.Str securityGroupID; diag.Str vpcID]))
          else
            let foundDefaultAssociation :=
              existsb (fun group => String.eqb (aws.StringValue (GroupId group)) defaultSecurityGroupID)
                (Groups vpcEndpoint) in
            if negb foundDefaultAssociation
            then
              ret (inl (sdkdiag.AppendErrorf diags
                          "no association of default Security Group (%s) with VPC Endpoint (%s)"
                          [diag.Str defaultSecurityGroupID; diag.Str vpcEndpointID]))
            else ret (inr defaultSecurityGroupID)
      end
  end.

Definition resourceVPCEndpointSecurityGroupAssociationCreate (d : ResourceData)
  : M (Remote W Call) (ResourceData * diag.Diagnostics) :=
  let diags : diag.Diagnostics := [] in
  let vpcEndpointID := GetString d "vpc_endpoint_id" in
  let securityGroupID := GetString d "security_group_id" in
  let replaceDefaultAssociation := GetBool d "replace_default_association" in
  checked <-
    (if replaceDefaultAssociation
     then findDefaultAssociation diags vpcEndpointID securityGroupID
     else ret (inr "")) ;;
  match checked with
  | inl diags => ret (d, diags)
  | inr defaultSecurityGroupID =>
      err <- createVPCEndpointSecurityGroupAssociation vpcEndpointID securityGroupID ;;
      match err with
      | Some _ => ret (d, sdkdiag.AppendFromErr diags err)
      | None =>
          let d := SetId d (VPCEndpointSecurityGroupAssociationCreateID meta
                              vpcEndpointID securityGroupID) in
          err <-
            (if replaceDefaultAssociation
             then deleteVPCEndpointSecurityGroupAssociation vpcEndpointID defaultSecurityGroupID
             else ret None) ;;
          match err with
          | Some _ => ret (d, sdkdiag.AppendFromErr diags err)
          | None =>
              r <- resourceVPCEndpointSecurityGroupAssociationRead d ;;
              ret (fst r, diags ++ snd r)
          end
      end
  end.

(** The block of delete guarded by [replaceDefaultAssociation]: it adds back
    the VPC endpoint/default security group association and yields the
    diagnostics of an early return, if any. *)
Definition restoreDefaultAssociation (diags : diag.Diagnostics) (vpcEndpointID : string)
  : M (Remote W Call) (option diag.Diagnostics) :=
  r <- call (FindVPCEndpoint vpcEndpointID) (FindVPCEndpointByID meta vpcEndpointID) ;;
  match r with
  | inr err =>
      ret (Some (sdkdiag.AppendErrorf diags "reading VPC Endpoint (%s): %s"
                   [diag.Str vpcEndpointID; diag.Err err]))
  | inl vpcEndpoint =>
      let vpcID := aws.StringValue (VpcId vpcEndpoint) in
      r <- call (FindDefaultSecurityGroup vpcID) (FindVPCDefaultSecurityGroup meta vpcID) ;;
      match r with
      | inr err =>
          ret (Some (sdkdiag.AppendErrorf diags "reading EC2 VPC (%s) default Security Group: %s"
                       [diag.Str vpcID; diag.Err err]))
      | inl defaultSecurityGroup =>
          err <- createVPCEndpointSecurityGroupAssociation vpcEndpointID
                   (aws.StringValue (sg_GroupId defaultSecurityGroup)) ;;
          match err with
          | Some _ => ret (Some (sdkdiag.AppendFromErr diags err))
          | None => ret None
          end
      end
  end.

Definition resourceVPCEndpointSecurityGroupAssociationDelete (d : ResourceData)
  : M (Remote W Call) (ResourceData * diag.Diagnostics) :=
  let diags : diag.Diagnostics := [] in
  let vpcEndpointID := GetString d "vpc_endpoint_id" in
  let securityGroupID := GetString d "security_group_id" in
  let replaceDefaultAssociation := GetBool d "replace_default_association" in
  early <-
    (if replaceDefaultAssociation
     then restoreDefaultAssociation diags vpcEndpointID
     else ret None) ;;
  match early with
  | Some diags => ret (d, diags)
  | None =>
      err <- deleteVPCEndpointSecurityGroupAssociation vpcEndpointID securityGroupID ;;
      match err with
      | Some _ => ret (d, sdkdiag.AppendFromErr diags err)
      | None => ret (d, diags)
      end
  end.

End Resource.

End ec2.

(* ===================================================================== *)
(** ** Service Catalog: the provisioning artifact *)
(* ===================================================================== *)

Module resource.

(** [resource.RetryError], built by [resource.RetryableError] and
    [resource.NonRetryableError]. *)
Record RetryError : Type := { Err : option error; Retryable : bool }.

Definition RetryableError (err : option error) : RetryError :=
  {| Err := err; Retryable := true |}.

Definition NonRetryableError (err : option error) : RetryError :=
  {| Err := err; Retryable := false |}.

End resource.

Module servicecatalog.
Import schema.

(** *** The service's types *)

Definition ErrCodeInvalidParametersException := "InvalidParametersException".
Definition ErrCodeResourceNotFoundException := "ResourceNotFoundException".

Record ProvisioningArtifactProperties : Type := {
  prop_Description : option string;
  prop_DisableTemplateValidation : option bool;
  prop_Info : list (string * option string);
  prop_Name : option string;
  prop_Type : option string
}.

Record CreateProvisioningArtifactInput : Type := {
  create_AcceptLanguage : option string;
  IdempotencyToken : option string;
  Parameters : ProvisioningArtifactProperties;
  create_ProductId : option string
}.

Record ProvisioningArtifactDetail : Type := {
  detail_Active : option bool;
  CreatedTime : option time.Time;
  detail_Description : option string;
  detail_Guidance : option string;
  detail_Id : option string;
  detail_Name : option string;
  detail_Type : option string
}.

(** [CreateProvisioningArtifactOutput] and
    [DescribeProvisioningArtifactOutput] have the same fields. *)
Record ProvisioningArtifactOutput : Type := {
  Info : list (string * option string);
  Detail : option ProvisioningArtifactDetail;    (* ProvisioningArtifactDetail *)
  Status : option string
}.

Record UpdateProvisioningArtifactInput : Type := {
  AcceptLanguage : option string;
  Active : option bool;
  Description : option string;
  Guidance : option string;
  Name : option string;
  ProductId : option string;
  ProvisioningArtifactId : option string
}.

Record DeleteProvisioningArtifactInput : Type := {
  delete_AcceptLanguage : option string;
  delete_ProductId : option string;
  delete_ProvisioningArtifactId : option string
}.

(** The remote calls of the resource. *)
Inductive Call : Type :=
| CreateProvisioningArtifact (input : CreateProvisioningArtifactInput)
| UpdateProvisioningArtifact (input : UpdateProvisioningArtifactInput)
| DeleteProvisioningArtifact (input : DeleteProvisioningArtifactInput)
| WaitReady (artifactID productID : string) (timeout : Duration)
| WaitDeleted (artifactID productID : string) (timeout : Duration).

Definition isUpdate (c : Call) : bool :=
  match c with UpdateProvisioningArtifact _ => true | _ => false end.

Definition isCreate (c : Call) : bool :=
  match c with CreateProvisioningArtifact _ => true | _ => false end.

(** What the resource uses outside its own file: three methods of the
    Service Catalog connection (a method returns its output pointer and its
    error), the waiters, the identifier helpers, the expander of the create
    parameters, [resource.UniqueId], [resource.RetryContext] and
    [tfresource.TimedOut]. *)
Record Provider (W : Type) : Type := {
  CreateProvisioningArtifactWithContext :
    CreateProvisioningArtifactInput -> W -> (option ProvisioningArtifactOutput * option error) * W;
  UpdateProvisioningArtifactWithContext :
    UpdateProvisioningArtifactInput -> W -> option error * W;
  DeleteProvisioningArtifactWithContext :
    DeleteProvisioningArtifactInput -> W -> option error * W;
  WaitProvisioningArtifactReady :
    string -> string -> Duration -> W -> (option ProvisioningArtifactOutput * option error) * W;
  WaitProvisioningArtifactDeleted :
    string -> string -> Duration -> W -> option error * W;
  ProvisioningArtifactID : string -> string -> string;
  ProvisioningArtifactParseID : string -> string * string * option error;
  expandProvisioningArtifactParameters :
    list (string * option value) -> ProvisioningArtifactProperties;
  UniqueId : W -> string * W;
  RetryContext :
    forall S : Type, Duration -> M S (option resource.RetryError) -> M S (option error);
  TimedOut : option error -> bool
}.

(** [v, ok := m[key]] on a Go map. *)
Fixpoint lookup {A} (m : list (string * A)) (key : string) : option A :=
  match m with
  | [] => None
  | (k, v) :: rest => if String.eqb k key then Some v else lookup rest key
  end.

Section Resource.
Context {W : Type} (meta : Provider W).

(** The classification of an error by the retried function, in create and
    in update alike. *)
Definition classify (err : option error) : option resource.RetryError :=
  if tfawserr.ErrMessageContains err ErrCodeInvalidParametersException "profile does not exist"
  then Some (resource.RetryableError err)
  else
    match err with
    | Some _ => Some (resource.NonRetryableError err)
    | None => None
    end.

(** The output and its [ProvisioningArtifactDetail], when neither pointer is
    nil. *)
Definition outputDetail (output : option ProvisioningArtifactOutput)
  : option (ProvisioningArtifactOutput * ProvisioningArtifactDetail) :=
  match output with
  | None => None
  | Some o =>
      match Detail o with
      | None => None
      | Some pad => Some (o, pad)
      end
  end.

Definition resourceProvisioningArtifactRead (d : ResourceData)
  : M (Remote W Call) (ResourceData * diag.Diagnostics) :=
  let diags : diag.Diagnostics := [] in
  let '(artifactID, productID, err) := ProvisioningArtifactParseID meta (Id d) in
  match err with
  | Some e =>
      ret (d, sdkdiag.AppendErrorf diags
                "parsing Service Catalog Provisioning Artifact ID (%s): %s"
                [diag.Str (Id d); diag.Err e])
  | None =>
      r <- call (WaitReady artifactID productID (Timeout d TimeoutRead))
             (WaitProvisioningArtifactReady meta artifactID productID (Timeout d TimeoutRead)) ;;
      let output := fst r in
      let err := snd r in
      if negb (IsNewResource d)
         && tfawserr.ErrCodeEquals err [ErrCodeResourceNotFoundException]
      then ret (SetId d "", diags)
      else
        match err with
        | Some e =>
            ret (d, sdkdiag.AppendErrorf diags
                      "describing Service Catalog Provisioning Artifact (%s): %s"
                      [diag.Str (Id d); diag.Err e])
        | None =>
            match outputDetail output with
            | Some (output, pad) =>
                let d :=
                  match lookup (Info output) "ImportFromPhysicalId" with
                  | Some v => Set_ d "template_physical_id" (option_map VString v)
                  | None => d
                  end in
                let d :=
                  match lookup (Info output) "LoadTemplateFromURL" with
                  | Some v => Set_ d "template_url" (option_map VString v)
                  | None => d
                  end in
                let d := Set_ d "active" (option_map VBool (detail_Active pad)) in
                let d :=
                  match CreatedTime pad with
                  | Some t => Set_ d "created_time" (Some (VString (time.RFC3339 t)))
                  | None => d
                  end in
                let d := Set_ d "description" (option_map VString (detail_Description pad)) in
                let d := Set_ d "guidance" (option_map VString (detail_Guidance pad)) in
                let d := Set_ d "name" (option_map VString (detail_Name pad)) in
                let d := Set_ d "product_id" (Some (VString productID)) in
                let d := Set_ d "type" (option_map VString (detail_Type pad)) in
                ret (d, diags)
            | None =>
                ret (d, sdkdiag.AppendErrorf diags
                          "getting Service Catalog Provisioning Artifact (%s): empty response"
                          [diag.Str (Id d)])
            end
        end
  end.

(** The request of update: [Active] is always sent, the four strings when
    [GetOk] finds them set. *)
Definition updateInput (d : ResourceData) (artifactID productID : string)
  : UpdateProvisioningArtifactInput :=
  {| ProductId := aws.String productID;
     ProvisioningArtifactId := aws.String artifactID;
     Active := aws.Bool (GetBool d "active");
     AcceptLanguage := GetOkString d "accept_language";
     Description := GetOkString d "description";
     Guidance := GetOkString d "guidance";
     Name := GetOkString d "name" |}.

(** The function update hands to [resource.RetryContext]. *)
Definition updateAttempt (input : UpdateProvisioningArtifactInput)
  : M (Remote W Call) (option resource.RetryError) :=
  err <- call (UpdateProvisioningArtifact input)
           (UpdateProvisioningArtifactWithContext meta input) ;;
  ret (classify err).

(** The retried call of update followed by its direct call on a timeout. *)
Definition updateWithRetry (timeout : Duration) (input : UpdateProvisioningArtifactInput)
  : M (Remote W Call) (option error) :=
  err <- RetryContext meta timeout (updateAttempt input) ;;
  if TimedOut meta err
  then call (UpdateProvisioningArtifact input)
         (UpdateProvisioningArtifactWithContext meta input)
  else ret err.

Definition updatableFields : list string :=
  ["accept_language"; "active"; "description"; "guidance"; "name"; "product_id"].

Definition resourceProvisioningArtifactUpdate (d : ResourceData)
  : M (Remote W Call) (ResourceData * diag.Diagnostics) :=
  let diags : diag.Diagnostics := [] in
  if HasChanges d updatableFields
  then
    let '(artifactID, productID, err) := ProvisioningArtifactParseID meta (Id d) in
    match err with
    | Some e =>
        ret (d, sdkdiag.AppendErrorf diags
                  "parsing Service Catalog Provisioning Artifact ID (%s): %s"
                  [diag.Str (Id d); diag.Err e])
    | None =>
        let input := updateInput d artifactID productID in
        err <- updateWithRetry (Timeout d TimeoutUpdate) input ;;
        match err with
        | Some e =>
            ret (d, sdkdiag.AppendErrorf diags
                      "updating Service Catalog Provisioning Artifact (%s): %s"
                      [diag.Str (Id d); diag.Err e])
        | None =>
            r <- resourceProvisioningArtifactRead d ;;
            ret (fst r, diags ++ snd r)
        end
    end
  else
    r <- resourceProvisioningArtifactRead d ;;
    ret (fst r, diags ++ snd r).

(** The request of create, for the idempotency token drawn. *)
Definition createInput (d : ResourceData) (token : string) : CreateProvisioningArtifactInput :=
  let parameters :=
    [("description", Get d "description");
     ("disable_template_validation", Get d "disable_template_validation");
     ("name", Get d "name");
     ("template_physical_id", Get d "template_physical_id");
     ("template_url", Get d "template_url");
     ("type", Get d "type")] in
  {| IdempotencyToken := aws.String token;
     Parameters := expandProvisioningArtifactParameters meta parameters;
     create_ProductId := aws.String (GetString d "product_id");
     create_AcceptLanguage := GetOkString d "accept_language" |}.

(** The function create hands to [resource.RetryContext]; it assigns the
    captured variable [output]. *)
Definition createAttempt (input : CreateProvisioningArtifactInput)
  : M (option ProvisioningArtifactOutput * Remote W Call) (option resource.RetryError) :=
  r <- lift (call (CreateProvisioningArtifact input)
               (CreateProvisioningArtifactWithContext meta input)) ;;
  _ <- assign (fst r) ;;
  ret (classify (snd r)).

(** The retried call of create followed by its direct call on a timeout:
    the final [output] and [err]. *)
Definition createWithRetry (timeout : Duration) (input : CreateProvisioningArtifactInput)
  : M (Remote W Call) (option ProvisioningArtifactOutput * option error) :=
  r <- scoped None (RetryContext meta timeout (createAttempt input)) ;;
  let err := fst r in
  let output := snd r in
  if TimedOut meta err
  then call (CreateProvisioningArtifact input)
         (CreateProvisioningArtifactWithContext meta input)
  else ret (output, err).

(** [output.ProvisioningArtifactDetail.Id], when none of the three pointers
    is nil. *)
Definition outputId (output : option ProvisioningArtifactOutput) : option string :=
  match output with
  | None => None
  | Some o =>
      match Detail o with
      | None => None
      | Some pad => detail_Id pad
      end
  end.

Definition resourceProvisioningArtifactCreate (d : ResourceData)
  : M (Remote W Call) (ResourceData * diag.Diagnostics) :=
  let diags : diag.Diagnostics := [] in
  token <- (fun s : Remote W Call => let (t, w) := UniqueId meta (fst s) in (t, (w, snd s))) ;;
  let input := createInput d token in
  r <- createWithRetry (Timeout d TimeoutCreate) input ;;
  let output := fst r in
  match snd r with
  | Some e =>
      ret (d, sdkdiag.AppendErrorf diags
                "creating Service Catalog Provisioning Artifact: %s" [diag.Err e])
  | None =>
      match outputId output with
      | None =>
          ret (d, sdkdiag.AppendErrorf diags
                    "creating Service Catalog Provisioning Artifact: empty response" [])
      | Some artifactID =>
          let d := SetId d (ProvisioningArtifactID meta
                              (aws.StringValue (Some artifactID)) (GetString d "product_id")) in
          r <- resourceProvisioningArtifactUpdate d ;;
          ret (fst r, diags ++ snd r)
      end
  end.

Definition resourceProvisioningArtifactDelete (d : ResourceData)
  : M (Remote W Call) (ResourceData * diag.Diagnostics) :=
  let diags : diag.Diagnostics := [] in
  let '(artifactID, productID, err) := ProvisioningArtifactParseID meta (Id d) in
  match err with
  | Some e =>
      ret (d, sdkdiag.AppendErrorf diags
                "parsing Service Catalog Provisioning Artifact ID (%s): %s"
                [diag.Str (Id d); diag.Err e])
  | None =>
      let input :=
        {| delete_ProductId := aws.String productID;
           delete_ProvisioningArtifactId := aws.String artifactID;
           delete_AcceptLanguage := GetOkString d "accept_language" |} in
      err <- call (DeleteProvisioningArtifact input)
               (DeleteProvisioningArtifactWithContext meta input) ;;
      if tfawserr.ErrCodeEquals err [ErrCodeResourceNotFoundException] then ret (d, diags)
      else
        match err with
        | Some e =>
            ret (d, sdkdiag.AppendErrorf diags
                      "deleting Service Catalog Provisioning Artifact (%s): %s"
                      [diag.Str (Id d); diag.Err e])
        | None =>
            err <- call (WaitDeleted artifactID productID (Timeout d TimeoutDelete))
                     (WaitProvisioningArtifactDeleted meta artifactID productID
                        (Timeout d TimeoutDelete)) ;;
            match err with
            | Some e =>
                ret (d, sdkdiag.AppendErrorf diags
                          "waiting for Service Catalog Provisioning Artifact (%s) to be deleted: %s"
                          [diag.Str (Id d); diag.Err e])
            | None => ret (d, diags)
            end
        end
  end.

End Resource.

End servicecatalog.

(* ===================================================================== *)
(** ** Test doubles *)
(* ===================================================================== *)

(** Small remote systems to run the resources against. *)
Module Stub.
Import schema.

(** Attributes from an association list. *)
Fixpoint attrs (l : list (string * value)) (key : string) : option value :=
  match l with
  | [] => None
  | (k, v) :: rest => if String.eqb k key then Some v else attrs rest key
  end.

Fixpoint attrs_opt (l : list (string * option value)) (key : string) : option value :=
  match l with
  | [] => None
  | (k, v) :: rest => if String.eqb k key then v else attrs_opt rest key
  end.

(** Resource data with the given identifier, prior state and plan; every
    timeout is [minutes] minutes. *)
Definition data (ident : string) (prior planned : list (string * value))
    (isNew : bool) (minutes : Z) : ResourceData :=
  {| id := ident; old := attrs prior; new := attrs planned;
     newResource := isNew; timeouts := fun _ => (minutes * time.Minute)%Z |}.

(** *** API Gateway *)

(** The remote method responses are not inspected: every call succeeds. *)
Definition noResponse : apigateway.MethodResponse :=
  {| apigateway.ResponseModels := [];
     apigateway.ResponseParameters := [];
     apigateway.out_StatusCode := None |}.

Definition apigatewayConn : apigateway.APIGateway unit :=
  {| apigateway.PutMethodResponseWithContext := fun _ w => ((noResponse, None), w);
     apigateway.GetMethodResponseWithContext := fun _ w => ((noResponse, None), w);
     apigateway.UpdateMethodResponseWithContext := fun _ w => ((noResponse, None), w);
     apigateway.DeleteMethodResponseWithContext := fun _ w => (None, w) |}.

(** One [replace] operation per element of the planned map. *)
Definition replaceOperations (d : ResourceData) (key prefix : string)
  : list apigateway.PatchOperation :=
  map (fun kv =>
         {| apigateway.From := None;
            apigateway.Op := Some "replace";
            apigateway.Path := Some ("/" ++ prefix ++ "/" ++ fst kv)%string;
            apigateway.Value :=
              Some (match snd kv with
                    | EString v => v
                    | EBool true => "true"
                    | EBool false => "false"
                    end) |})
      (GetMap d key).

(** The retry helper runs its function once. *)
Definition apigatewayMeta : apigateway.Provider unit :=
  {| apigateway.APIGatewayConn := apigatewayConn;
     apigateway.RetryWhenAWSErrCodeEquals := fun _ _ _ f _ => f;
     apigateway.expandRequestResponseModelOperations := replaceOperations;
     apigateway.expandMethodParametersOperations := replaceOperations |}.

(** *** EC2 *)

(** One VPC endpoint [vpce-1] in the VPC [vpc-1], whose default security
    group is [sg-default]: the groups associated with the endpoint, and the
    error the remote answers a removal with, if any. *)
Record Endpoint : Type := {
  associated : list string;
  removalError : option error;
  additionError : option error
}.

Definition without (g : string) (l : list string) : list string :=
  filter (fun x => negb (String.eqb x g)) l.

Definition modifyVpcEndpoint (input : ec2.ModifyVpcEndpointInput) (w : Endpoint)
  : option error * Endpoint :=
  if negb (String.eqb (aws.StringValue (ec2.VpcEndpointId input)) "vpce-1")
  then (Some (AWSError "InvalidVpcEndpointId.NotFound" "The Vpc Endpoint Id does not exist"), w)
  else
    match ec2.AddSecurityGroupIds input, ec2.RemoveSecurityGroupIds input with
    | [], [] => (None, w)
    | _ :: _, _ =>
        match additionError w with
        | Some e => (Some e, w)
        | None =>
            (None,
             {| associated := associated w ++ map aws.StringValue (ec2.AddSecurityGroupIds input);
                removalError := removalError w;
                additionError := additionError w |})
        end
    | [], g :: _ =>
        match removalError w with
        | Some e => (Some e, w)
        | None =>
            if existsb (String.eqb (aws.StringValue g)) (associated w)
            then (None,
                  {| associated := without (aws.StringValue g) (associated w);
                     removalError := removalError w;
                     additionError := additionError w |})
            else (Some (AWSError "InvalidParameter" "The security group is not associated"), w)
        end
    end.

Definition findVPCEndpointByID (vpcEndpointID : string) (w : Endpoint)
  : (ec2.VpcEndpoint + error) * Endpoint :=
  if String.eqb vpcEndpointID "vpce-1"
  then (inl {| ec2.VpcId := Some "vpc-1";
               ec2.Groups := map (fun g => {| ec2.GroupId := Some g; ec2.GroupName := None |})
                               (associated w) |}, w)
  else (inr (NotFoundError None), w).

Definition findVPCDefaultSecurityGroup (vpcID : string) (w : Endpoint)
  : (ec2.SecurityGroup + error) * Endpoint :=
  if String.eqb vpcID "vpc-1"
  then (inl {| ec2.sg_GroupId := Some "sg-default"; ec2.sg_VpcId := Some "vpc-1" |}, w)
  else (inr (NotFoundError None), w).

Definition findAssociationExists (vpcEndpointID securityGroupID : string) (w : Endpoint)
  : option error * Endpoint :=
  if String.eqb vpcEndpointID "vpce-1" && existsb (String.eqb securityGroupID) (associated w)
  then (None, w)
  else (Some (NotFoundError None), w).

Definition isNotFound (err : option error) : bool :=
  match err with
  | Some (NotFoundError _) => true
  | _ => false
  end.

Definition ec2Meta : ec2.Provider Endpoint :=
  {| ec2.ModifyVpcEndpointWithContext := modifyVpcEndpoint;
     ec2.FindVPCEndpointByID := findVPCEndpointByID;
     ec2.FindVPCDefaultSecurityGroup := findVPCDefaultSecurityGroup;
     ec2.FindVPCEndpointSecurityGroupAssociationExists := findAssociationExists;
     ec2.VPCEndpointSecurityGroupAssociationCreateID :=
       fun vpcEndpointID securityGroupID => fmt.Sprintf "%s/%s" [vpcEndpointID; securityGroupID];
     ec2.NotFound := isNotFound;
     ec2.errCodeInvalidVPCEndpointIdNotFound := "InvalidVpcEndpointId.NotFound";
     ec2.errCodeInvalidGroupNotFound := "InvalidGroup.NotFound";
     ec2.errCodeInvalidParameter := "InvalidParameter" |}.

(** The association of a security group with [vpce-1], as planned. *)
Definition association (securityGroupID : string) (replaceDefault : bool) : ResourceData :=
  data "" []
    [("vpc_endpoint_id", VString "vpce-1");
     ("security_group_id", VString securityGroupID);
     ("replace_default_association", VBool replaceDefault)]
    true 0.

(** The endpoint with its default group associated, and a remote that
    refuses removals. *)
Definition fresh : Endpoint :=
  {| associated := ["sg-default"]; removalError := None; additionError := None |}.

Definition unauthorized : error :=
  AWSError "UnauthorizedOperation" "You are not authorized to perform this operation".



Definition replaced : Endpoint :=
  {| associated := ["sg-2"]; removalError := None; additionError := None |}.

Definition additionRefused : Endpoint :=
  {| associated := ["sg-2"]; removalError := None; additionError := Some unauthorized |}.

Definition defaultDetached : Endpoint :=
  {| associated := ["sg-1"]; removalError := None; additionError := None |}.

(** *** Service Catalog *)

(** One product [prod-1]: the artifacts present, how many more create or
    update calls the remote answers with the missing-profile error, and
    whether create answers without a detail. *)
Record Catalog : Type := {
  artifacts : list string;
  pendingProfile : nat;
  withoutDetail : bool
}.

Definition profileMissing : error :=
  AWSError "InvalidParametersException" "the launch profile does not exist yet".

Definition settle (w : Catalog) : Catalog :=
  {| artifacts := artifacts w;
     pendingProfile := pred (pendingProfile w);
     withoutDetail := withoutDetail w |}.

Definition detailOf (artifactID : string) : servicecatalog.ProvisioningArtifactDetail :=
  {| servicecatalog.detail_Active := Some true;
     servicecatalog.CreatedTime := None;
     servicecatalog.detail_Description := Some "first version";
     servicecatalog.detail_Guidance := Some "DEFAULT";
     servicecatalog.detail_Id := Some artifactID;
     servicecatalog.detail_Name := Some "v1";
     servicecatalog.detail_Type := Some "CLOUD_FORMATION_TEMPLATE" |}.

Definition createProvisioningArtifact (input : servicecatalog.CreateProvisioningArtifactInput)
    (w : Catalog)
  : (option servicecatalog.ProvisioningArtifactOutput * option error) * Catalog :=
  match pendingProfile w with
  | S _ => ((None, Some profileMissing), settle w)
  | O =>
      if withoutDetail w
      then ((Some {| servicecatalog.Info := [];
                     servicecatalog.Detail := None;
                     servicecatalog.Status := None |}, None), w)
      else ((Some {| servicecatalog.Info := [];
                     servicecatalog.Detail := Some (detailOf "pa-1");
                     servicecatalog.Status := Some "AVAILABLE" |}, None),
            {| artifacts := "pa-1" :: artifacts w;
               pendingProfile := 0;
               withoutDetail := withoutDetail w |})
  end.

Definition updateProvisioningArtifact (input : servicecatalog.UpdateProvisioningArtifactInput)
    (w : Catalog) : option error * Catalog :=
  match pendingProfile w with
  | S _ => (Some profileMissing, settle w)
  | O =>
      if existsb (String.eqb (aws.StringValue (servicecatalog.ProvisioningArtifactId input)))
           (artifacts w)
      then (None, w)
      else (Some (AWSError "ResourceNotFoundException" "no such provisioning artifact"), w)
  end.

Definition deleteProvisioningArtifact (input : servicecatalog.DeleteProvisioningArtifactInput)
    (w : Catalog) : option error * Catalog :=
  let artifactID := aws.StringValue (servicecatalog.delete_ProvisioningArtifactId input) in
  if existsb (String.eqb artifactID) (artifacts w)
  then (None,
        {| artifacts := without artifactID (artifacts w);
           pendingProfile := pendingProfile w;
           withoutDetail := withoutDetail w |})
  else (Some (AWSError "ResourceNotFoundException" "no such provisioning artifact"), w).

Definition waitReady (artifactID productID : string) (timeout : Duration) (w : Catalog)
  : (option servicecatalog.ProvisioningArtifactOutput * option error) * Catalog :=
  if existsb (String.eqb artifactID) (artifacts w)
  then ((Some {| servicecatalog.Info := [];
                 servicecatalog.Detail := Some (detailOf artifactID);
                 servicecatalog.Status := Some "AVAILABLE" |}, None), w)
  else ((None, Some (AWSError "ResourceNotFoundException" "no such provisioning artifact")), w).

Definition waitDeleted (artifactID productID : string) (timeout : Duration) (w : Catalog)
  : option error * Catalog :=
  (None, w).

(** Identifiers of the form [artifactID:productID]. *)
Definition parseID (ident : string) : string * string * option error :=
  match strings.Split ident ":" with
  | [artifactID; productID] =>
      if String.eqb artifactID "" || String.eqb productID ""
      then ("", "", Some (FmtError "unexpected format of ID (%s), expected artifactID:productID"
                            [ident] None))
      else (artifactID, productID, None)
  | _ => ("", "", Some (FmtError "unexpected format of ID (%s), expected artifactID:productID"
                          [ident] None))
  end.

Definition expandParameters (parameters : list (string * option value))
  : servicecatalog.ProvisioningArtifactProperties :=
  let str key := match attrs_opt parameters key with Some (VString v) => Some v | _ => None end in
  {| servicecatalog.prop_Description := str "description";
     servicecatalog.prop_DisableTemplateValidation :=
       match attrs_opt parameters "disable_template_validation" with
       | Some (VBool b) => Some b
       | _ => None
       end;
     servicecatalog.prop_Info := [("LoadTemplateFromURL", str "template_url")];
     servicecatalog.prop_Name := str "name";
     servicecatalog.prop_Type := str "type" |}.

(** The retry loop with a budget of attempts: a success or an error that
    is not retryable ends it; when the budget is used up it returns the last
    retryable error, and a bare timeout if there is none. *)
Fixpoint retry {S : Type} (attempts : nat) (f : M S (option resource.RetryError))
    (resultErr : option error) : M S (option error) :=
  match attempts with
  | O =>
      ret (match resultErr with
           | Some e => Some e
           | None => Some (TimeoutError None)
           end)
  | S n =>
      bind f (fun rerr =>
        match rerr with
        | None => ret None
        | Some r =>
            if resource.Retryable r
            then retry n f (resource.Err r)
            else ret (resource.Err r)
        end)
  end.

(** One attempt per minute of the timeout. *)
Definition retryContext (S : Type) (timeout : Duration) (f : M S (option resource.RetryError))
  : M S (option error) :=
  retry (Z.to_nat (timeout / time.Minute)) f None.

Definition timedOut (err : option error) : bool :=
  match err with
  | Some (TimeoutError None) => true
  | _ => false
  end.

Definition catalogMeta : servicecatalog.Provider Catalog :=
  {| servicecatalog.CreateProvisioningArtifactWithContext := createProvisioningArtifact;
     servicecatalog.UpdateProvisioningArtifactWithContext := updateProvisioningArtifact;
     servicecatalog.DeleteProvisioningArtifactWithContext := deleteProvisioningArtifact;
     servicecatalog.WaitProvisioningArtifactReady := waitReady;
     servicecatalog.WaitProvisioningArtifactDeleted := waitDeleted;
     servicecatalog.ProvisioningArtifactID :=
       fun artifactID productID => fmt.Sprintf "%s:%s" [artifactID; productID];
     servicecatalog.ProvisioningArtifactParseID := parseID;
     servicecatalog.expandProvisioningArtifactParameters := expandParameters;
     servicecatalog.UniqueId := fun w => ("terraform-20230101000000000000000001", w);
     servicecatalog.RetryContext := retryContext;
     servicecatalog.TimedOut := timedOut |}.

(** The artifact [v1] of [prod-1], as planned and as stored. *)
Definition artifactAttrs (description : string) : list (string * value) :=
  [("accept_language", VString "en");
   ("active", VBool true);
   ("description", VString description);
   ("guidance", VString "DEFAULT");
   ("name", VString "v1");
   ("product_id", VString "prod-1");
   ("template_url", VString "https://example.com/template.json")].

Definition emptyCatalog : Catalog :=
  {| artifacts := []; pendingProfile := 0; withoutDetail := false |}.

Definition oneArtifact : Catalog :=
  {| artifacts := ["pa-1"]; pendingProfile := 0; withoutDetail := false |}.

Definition answersWithoutDetail : Catalog :=
  {| artifacts := []; pendingProfile := 0; withoutDetail := true |}.

End Stub.

(* ===================================================================== *)
(** * Properties *)
(* ===================================================================== *)

Unset Implicit Arguments.

(** ** Splitting and joining *)

Lemma append_empty (s : string) : (s ++ "")%string = s.
Proof. induction s as [|c s IH]; simpl; [reflexivity | now rewrite IH]. Qed.

Lemma append_assoc (a b c : string) : ((a ++ b) ++ c)%string = (a ++ (b ++ c))%string.
Proof. induction a as [|x a IH]; simpl; [reflexivity | now rewrite IH]. Qed.

(** A string that does not contain ["/"] has no slash at its head nor in its
    tail. *)
Lemma Contains_slash_cons (c : ascii) (p : string) :
  strings.Contains (String c p) "/" = false ->
  Ascii.eqb c "/" = false /\ strings.Contains p "/" = false.
Proof.
  cbn [strings.Contains strings.HasPrefix]. intros H.
  destruct (Ascii.eqb c "/"); [discriminate H | split; [reflexivity | exact H]].
Qed.

(** The scan reads a slash-free component through. *)
Lemma splitFrom_component (p cur rest : string) :
  strings.Contains p "/" = false ->
  strings.splitFrom "/" 0 cur (p ++ rest) = strings.splitFrom "/" 0 (cur ++ p) rest.
Proof.
  revert cur. induction p as [|c p IH]; intros cur H.
  - simpl. now rewrite append_empty.
  - apply Contains_slash_cons in H. destruct H as [Hc Hp].
    cbn [append strings.splitFrom strings.HasPrefix]. rewrite Hc. cbn [andb].
    rewrite IH by assumption. rewrite append_assoc. reflexivity.
Qed.

(** At a slash the scan closes the component. *)
Lemma splitFrom_slash (cur rest : string) :
  strings.splitFrom "/" 0 cur (String "/" rest) = cur :: strings.splitFrom "/" 0 "" rest.
Proof. reflexivity. Qed.

Lemma splitFrom_Join (parts : list string) (p cur : string) :
  Forall (fun x => strings.Contains x "/" = false) (p :: parts) ->
  strings.splitFrom "/" 0 cur (strings.Join (p :: parts) "/") = (cur ++ p)%string :: parts.
Proof.
  revert p cur. induction parts as [|q parts IH]; intros p cur H.
  - inversion H; subst. cbn [strings.Join].
    rewrite <- (append_empty p) at 1. rewrite splitFrom_component by assumption.
    reflexivity.
  - inversion H; subst.
    change (strings.Join (p :: q :: parts) "/")
      with (p ++ String "/" (strings.Join (q :: parts) "/"))%string.
    rewrite splitFrom_component by assumption.
    rewrite splitFrom_slash. rewrite IH by assumption. reflexivity.
Qed.

(** Splitting a join of slash-free components gives the components back. *)
Lemma Split_Join (parts : list string) :
  parts <> [] ->
  Forall (fun x => strings.Contains x "/" = false) parts ->
  strings.Split (strings.Join parts "/") "/" = parts.
Proof.
  intros Hne H. destruct parts as [|p parts]; [congruence|].
  unfold strings.Split. now rewrite splitFrom_Join.
Qed.

Example Split_examples :
  strings.Split "a/b//c" "/" = ["a"; "b"; ""; "c"]
  /\ strings.Split "" "/" = [""]
  /\ strings.Split "a/" "/" = ["a"; ""]
  /\ strings.Split "a--b-" "--" = ["a"; "b-"]
  /\ strings.Split "abc" "" = ["a"; "b"; "c"]
  /\ strings.Join ["a"; "b"; "c"] "/" = "a/b/c".
Proof. repeat split; reflexivity. Qed.

(** ** The importer of the method response *)

(** The error of the importer for the identifier [ident]. *)
Definition malformedIdentifier (ident : string) : error :=
  FmtError
    "Unexpected format of ID (%q), expected REST-API-ID/RESOURCE-ID/HTTP-METHOD/STATUS-CODE"
    [ident] None.

(** The identifier create and the importer store. *)
Definition methodResponseID (restApiID resourceID httpMethod statusCode : string) : string :=
  fmt.Sprintf "agmr-%s-%s-%s-%s" [restApiID; resourceID; httpMethod; statusCode].

(** The resource data the importer returns for the four components. *)
Definition importedData (d : schema.ResourceData)
    (restApiID resourceID httpMethod statusCode : string) : schema.ResourceData :=
  schema.SetId
    (schema.Set_
       (schema.Set_
          (schema.Set_
             (schema.Set_ d "http_method" (Some (schema.VString httpMethod)))
             "status_code" (Some (schema.VString statusCode)))
          "resource_id" (Some (schema.VString resourceID)))
       "rest_api_id" (Some (schema.VString restApiID)))
    (methodResponseID restApiID resourceID httpMethod statusCode).

(** A method response [a]/[b]/GET/200 that is not created yet. *)
Definition plannedMethodResponse : schema.ResourceData :=
  Stub.data ""
    []
    [("rest_api_id", schema.VString "a");
     ("resource_id", schema.VString "b");
     ("http_method", schema.VString "GET");
     ("status_code", schema.VString "200")]
    true 2.

Lemma eqb_empty (s : string) : String.eqb s "" = true <-> s = "".
Proof. apply String.eqb_eq. Qed.

Lemma eqb_nonempty (s : string) : String.eqb s "" = false <-> s <> "".
Proof. apply String.eqb_neq. Qed.

(** With another number of components than four the importer fails. *)
Lemma StateContext_count (d : schema.ResourceData) :
  length (strings.Split (schema.Id d) "/") <> 4 ->
  apigateway.StateContext d = inr (malformedIdentifier (schema.Id d)).
Proof.
  intros H. unfold apigateway.StateContext.
  apply Nat.eqb_neq in H. rewrite H. reflexivity.
Qed.

(** With four components the importer fails exactly when one is empty. *)
Lemma StateContext_four (d : schema.ResourceData) (a b c e : string) :
  strings.Split (schema.Id d) "/" = [a; b; c; e] ->
  apigateway.StateContext d =
    if String.eqb a "" || String.eqb b "" || String.eqb c "" || String.eqb e ""
    then inr (malformedIdentifier (schema.Id d))
    else inl [importedData d a b c e].
Proof.
  intros H. unfold apigateway.StateContext. rewrite H.
  cbn [length Nat.eqb negb orb apigateway.index nth].
  destruct (String.eqb a ""), (String.eqb b ""), (String.eqb c ""), (String.eqb e "");
    reflexivity.
Qed.

(** C7: the importer splits the identifier by ["/"]; it fails with the
    malformed-identifier error exactly when the number of components is not
    four or a component is empty, and otherwise it succeeds and returns the
    resource with the four components as its attributes. *)
Theorem StateContext_decodes_four_components (d : schema.ResourceData) :
  (length (strings.Split (schema.Id d) "/") <> 4 \/ In "" (strings.Split (schema.Id d) "/")
   <-> apigateway.StateContext d = inr (malformedIdentifier (schema.Id d)))
  /\
  (length (strings.Split (schema.Id d) "/") = 4 /\ ~ In "" (strings.Split (schema.Id d) "/")
   <-> exists a b c e,
         strings.Split (schema.Id d) "/" = [a; b; c; e]
         /\ apigateway.StateContext d = inl [importedData d a b c e]).
Proof.
  destruct (strings.Split (schema.Id d) "/") as [|a [|b [|c [|e [|f l]]]]] eqn:Hsplit;
    try (split;
         [ split; [ intros _; apply StateContext_count; rewrite Hsplit; simpl; lia
                  | intros _; left; simpl; lia ]
         | split; [ intros [Hlen _]; simpl in Hlen; lia
                  | intros (a' & b' & c' & e' & Heq & _); discriminate Heq ] ]).
  pose proof (StateContext_four d a b c e Hsplit) as Hfour.
  destruct (String.eqb a "") eqn:Ha; [apply eqb_empty in Ha|apply eqb_nonempty in Ha].
  { cbn [orb] in Hfour. split; split.
    - intros _. exact Hfour.
    - intros _. right. left. exact Ha.
    - intros [_ Hin]. exfalso. apply Hin. left. exact Ha.
    - intros (a' & b' & c' & e' & _ & Hok). rewrite Hfour in Hok. discriminate Hok. }
  destruct (String.eqb b "") eqn:Hb; [apply eqb_empty in Hb|apply eqb_nonempty in Hb].
  { cbn [orb] in Hfour. split; split.
    - intros _. exact Hfour.
    - intros _. right. right. left. exact Hb.
    - intros [_ Hin]. exfalso. apply Hin. right. left. exact Hb.
    - intros (a' & b' & c' & e' & _ & Hok). rewrite Hfour in Hok. discriminate Hok. }
  destruct (String.eqb c "") eqn:Hc; [apply eqb_empty in Hc|apply eqb_nonempty in Hc].
  { cbn [orb] in Hfour. split; split.
    - intros _. exact Hfour.
    - intros _. right. right. right. left. exact Hc.
    - intros [_ Hin]. exfalso. apply Hin. right. right. left. exact Hc.
    - intros (a' & b' & c' & e' & _ & Hok). rewrite Hfour in Hok. discriminate Hok. }
  destruct (String.eqb e "") eqn:He; [apply eqb_empty in He|apply eqb_nonempty in He].
  { cbn [orb] in Hfour. split; split.
    - intros _. exact Hfour.
    - intros _. right. right. right. right. left. exact He.
    - intros [_ Hin]. exfalso. apply Hin. right. right. right. left. exact He.
    - intros (a' & b' & c' & e' & _ & Hok). rewrite Hfour in Hok. discriminate Hok. }
  cbn [orb] in Hfour.
  assert (Hnot : ~ In "" [a; b; c; e]).
  { simpl. intros [H|[H|[H|[H|[]]]]]; contradiction. }
  split; split.
  - intros [Hlen | Hin]; [simpl in Hlen; lia | contradiction].
  - intros Herr. rewrite Hfour in Herr. discriminate Herr.
  - intros _. exists a, b, c, e. split; [reflexivity | exact Hfour].
  - intros _. split; [reflexivity | exact Hnot].
Qed.

(** A concatenation contains ["/"] exactly when one of its parts does. *)
Lemma Contains_slash_app (x y : string) :
  strings.Contains (x ++ y) "/" = strings.Contains x "/" || strings.Contains y "/".
Proof.
  induction x as [|c x IH].
  - cbn [append]. destruct (strings.Contains y "/"); reflexivity.
  - cbn [append strings.Contains strings.HasPrefix]. rewrite IH.
    destruct (Ascii.eqb c "/"); reflexivity.
Qed.

(** A string without ["/"] is its own single component. *)
Lemma Split_slash_free (s : string) :
  strings.Contains s "/" = false -> strings.Split s "/" = [s].
Proof.
  intros H. apply (Split_Join [s]); [discriminate | constructor; [exact H | constructor]].
Qed.

(** The [agmr-] identifier of slash-free components is slash-free. *)
Lemma methodResponseID_slash_free (a b c e : string) :
  Forall (fun x => strings.Contains x "/" = false) [a; b; c; e] ->
  strings.Contains (methodResponseID a b c e) "/" = false.
Proof.
  intros H.
  inversion H as [|? ? Ha H1]; subst.
  inversion H1 as [|? ? Hb H2]; subst.
  inversion H2 as [|? ? Hc H3]; subst.
  inversion H3 as [|? ? He _]; subst.
  change (methodResponseID a b c e)
    with ("agmr-" ++ (a ++ ("-" ++ (b ++ ("-" ++ (c ++ ("-" ++ (e ++ ""))))))))%string.
  rewrite !Contains_slash_app, Ha, Hb, Hc, He. reflexivity.
Qed.

(** The importer rejects every identifier without ["/"]. *)
Lemma StateContext_slash_free (d : schema.ResourceData) :
  strings.Contains (schema.Id d) "/" = false ->
  apigateway.StateContext d = inr (malformedIdentifier (schema.Id d)).
Proof.
  intros H. apply StateContext_count. rewrite (Split_slash_free _ H). discriminate.
Qed.

(** When create reports no error, the identifier it stores is the [agmr-]
    form of the four attributes. *)
Lemma create_stores_methodResponseID (W : Type) (gateway : apigateway.Provider W)
    (p : schema.ResourceData) (s : Remote W apigateway.Call) :
  snd (fst (apigateway.resourceMethodResponseCreate gateway p s)) = [] ->
  schema.Id (fst (fst (apigateway.resourceMethodResponseCreate gateway p s)))
  = methodResponseID (schema.GetString p "rest_api_id") (schema.GetString p "resource_id")
      (schema.GetString p "http_method") (schema.GetString p "status_code").
Proof.
  unfold apigateway.resourceMethodResponseCreate. cbv zeta. unfold bind at 1 2.
  destruct (apigateway.RetryWhenAWSErrCodeEquals gateway _ _ _ s) as [[out [err|]] s1];
    cbn [snd fst ret].
  - intros H. discriminate H.
  - intros _. reflexivity.
Qed.

(** C6, as the code has it: for four non-empty components free of ["/"],
    the importer decodes their ["/"]-join into exactly these components and
    stores the identifier in the form create stores.  The stored identifier
    of such components does not decode back: the importer rejects every
    resource data that carries it, in particular the one a successful create
    returns for these components. *)
Theorem import_identifier_roundtrip (d : schema.ResourceData) (a b c e : string) :
  Forall (fun x => x <> "" /\ strings.Contains x "/" = false) [a; b; c; e] ->
  schema.Id d = strings.Join [a; b; c; e] "/" ->
  strings.Split (schema.Id d) "/" = [a; b; c; e]
  /\ apigateway.StateContext d = inl [importedData d a b c e]
  /\ [schema.GetString (importedData d a b c e) "rest_api_id";
      schema.GetString (importedData d a b c e) "resource_id";
      schema.GetString (importedData d a b c e) "http_method";
      schema.GetString (importedData d a b c e) "status_code"] = [a; b; c; e]
  /\ schema.Id (importedData d a b c e) = fmt.Sprintf "agmr-%s-%s-%s-%s" [a; b; c; e]
  /\ (forall d' : schema.ResourceData,
        schema.Id d' = fmt.Sprintf "agmr-%s-%s-%s-%s" [a; b; c; e] ->
        apigateway.StateContext d' = inr (malformedIdentifier (schema.Id d')))
  /\ (forall (W : Type) (gateway : apigateway.Provider W) (p : schema.ResourceData)
             (s : Remote W apigateway.Call),
        [schema.GetString p "rest_api_id"; schema.GetString p "resource_id";
         schema.GetString p "http_method"; schema.GetString p "status_code"] = [a; b; c; e] ->
        snd (fst (apigateway.resourceMethodResponseCreate gateway p s)) = [] ->
        schema.Id (fst (fst (apigateway.resourceMethodResponseCreate gateway p s)))
        = fmt.Sprintf "agmr-%s-%s-%s-%s" [a; b; c; e]
        /\ apigateway.StateContext
             (fst (fst (apigateway.resourceMethodResponseCreate gateway p s)))
           = inr (malformedIdentifier (fmt.Sprintf "agmr-%s-%s-%s-%s" [a; b; c; e]))).
Proof.
  intros Hparts Hid.
  assert (Hfree : Forall (fun x => strings.Contains x "/" = false) [a; b; c; e]).
  { eapply Forall_impl; [|exact Hparts]. intros x [_ Hx]. exact Hx. }
  assert (Hsplit : strings.Split (schema.Id d) "/" = [a; b; c; e]).
  { rewrite Hid. apply Split_Join; [discriminate | exact Hfree]. }
  assert (Hrejected : forall d' : schema.ResourceData,
             schema.Id d' = methodResponseID a b c e ->
             apigateway.StateContext d' = inr (malformedIdentifier (schema.Id d'))).
  { intros d' Hd'. apply StateContext_slash_free. rewrite Hd'.
    apply methodResponseID_slash_free. exact Hfree. }
  split; [exact Hsplit|]. split; [|split; [reflexivity|split; [reflexivity|split]]].
  - rewrite (StateContext_four d a b c e Hsplit).
    inversion Hparts as [|? ? [Ha _] H1]; subst.
    inversion H1 as [|? ? [Hb _] H2]; subst.
    inversion H2 as [|? ? [Hc _] H3]; subst.
    inversion H3 as [|? ? [He _] _]; subst.
    apply eqb_nonempty in Ha, Hb, Hc, He. rewrite Ha, Hb, Hc, He. reflexivity.
  - exact Hrejected.
  - intros W gateway p s Hattrs Hok.
    pose proof (create_stores_methodResponseID W gateway p s Hok) as Hstored.
    injection Hattrs as Ha Hb Hc He. rewrite Ha, Hb, Hc, He in Hstored.
    split; [exact Hstored|].
    rewrite (Hrejected _ Hstored), Hstored. reflexivity.
Qed.

Lemma import_identifier_roundtrip_witness :
  apigateway.StateContext (Stub.data "a/b/GET/200" [] [] false 2)
  = inl [importedData (Stub.data "a/b/GET/200" [] [] false 2) "a" "b" "GET" "200"].
Proof.
  refine (proj1 (proj2 (import_identifier_roundtrip
                          (Stub.data "a/b/GET/200" [] [] false 2) "a" "b" "GET" "200" _ _))).
  - repeat constructor; discriminate.
  - reflexivity.
Defined.

(** C6, as stated, fails: the identifier create stores for the components
    [a], [b], [GET], [200], none of which contains ["-"] or ["/"], is
    [agmr-a-b-GET-200], and the importer rejects it instead of returning the
    components. *)
Lemma stored_identifier_is_not_decoded :
  schema.Id (fst (fst (apigateway.resourceMethodResponseCreate Stub.apigatewayMeta
                         plannedMethodResponse (tt, []))))
  = "agmr-a-b-GET-200"
  /\ strings.Split "agmr-a-b-GET-200" "/" = ["agmr-a-b-GET-200"]
  /\ apigateway.StateContext
       (fst (fst (apigateway.resourceMethodResponseCreate Stub.apigatewayMeta
                    plannedMethodResponse (tt, []))))
     = inr (malformedIdentifier "agmr-a-b-GET-200").
Proof. repeat split; vm_compute; reflexivity. Qed.

(** The restriction to components free of ["/"] matters for the stored
    identifier too: with the REST API identifier [x/y/z/w] the importer
    accepts the stored identifier and returns other components than the ones
    it was built from. *)
Example stored_identifier_with_slashes :
  methodResponseID "x/y/z/w" "b" "GET" "200" = "agmr-x/y/z/w-b-GET-200"
  /\ apigateway.StateContext (Stub.data "agmr-x/y/z/w-b-GET-200" [] [] false 2)
     = inl [importedData (Stub.data "agmr-x/y/z/w-b-GET-200" [] [] false 2)
              "agmr-x" "y" "z" "w-b-GET-200"].
Proof. split; vm_compute; reflexivity. Qed.

(** ** Running the monad *)

Lemma bind_run {S A B : Type} (m : M S A) (k : A -> M S B) (s s' : S) (a : A) :
  m s = (a, s') -> bind m k s = k a s'.
Proof. intros H. unfold bind. rewrite H. reflexivity. Qed.

Lemma call_run {W C A : Type} (c : C) (op : W -> A * W) (w w' : W) (tr : list C) (a : A) :
  op w = (a, w') -> call c op (w, tr) = (a, (w', tr ++ [c])).
Proof. intros H. unfold call. cbn [fst snd]. rewrite H. reflexivity. Qed.

Arguments bind_run {S A B m} k {s s' a} _.
Arguments call_run {W C A} c {op w w'} tr {a} _.

(** Run the remote call at the head of the goal's computation, given the
    remote's answer [H]. *)
Ltac run_call H := rewrite (bind_run _ (call_run _ _ H)).

Lemma ret_run {S A : Type} (a : A) (s : S) : ret a s = (a, s).
Proof. reflexivity. Qed.

(** ** The VPC endpoint / security group association *)

Section Association.
Context {W : Type} (meta : ec2.Provider W).

(** The two requests the resource sends. *)
Definition addRequest (vpcEndpointID securityGroupID : string) : ec2.ModifyVpcEndpointInput :=
  {| ec2.VpcEndpointId := Some vpcEndpointID;
     ec2.AddSecurityGroupIds := [Some securityGroupID];
     ec2.RemoveSecurityGroupIds := [] |}.

Definition removeRequest (vpcEndpointID securityGroupID : string) : ec2.ModifyVpcEndpointInput :=
  {| ec2.VpcEndpointId := Some vpcEndpointID;
     ec2.AddSecurityGroupIds := [];
     ec2.RemoveSecurityGroupIds := [Some securityGroupID] |}.

(** The errors the two helpers wrap a remote error into. *)
Definition creatingError (vpcEndpointID securityGroupID : string) (e : error) : error :=
  FmtError "creating VPC Endpoint (%s) Security Group (%s) Association: %w"
    [vpcEndpointID; securityGroupID] (Some e).

Definition deletingError (vpcEndpointID securityGroupID : string) (e : error) : error :=
  FmtError "deleting VPC Endpoint (%s) Security Group (%s) Association: %w"
    [vpcEndpointID; securityGroupID] (Some e).

(** The default security group of the endpoint's VPC is not among the
    endpoint's associations in the world [w], or one of the two lookups
    fails. *)
Definition defaultNotAssociated (d : schema.ResourceData) (w : W) : Prop :=
  match ec2.FindVPCEndpointByID meta (schema.GetString d "vpc_endpoint_id") w with
  | (inr _, _) => True
  | (inl vpcEndpoint, w1) =>
      match ec2.FindVPCDefaultSecurityGroup meta (aws.StringValue (ec2.VpcId vpcEndpoint)) w1 with
      | (inr _, _) => True
      | (inl defaultSecurityGroup, _) =>
          existsb (fun group =>
                     String.eqb (aws.StringValue (ec2.GroupId group))
                       (aws.StringValue (ec2.sg_GroupId defaultSecurityGroup)))
            (ec2.Groups vpcEndpoint) = false
      end
  end.

(** The association is gone in the worlds that satisfy [gone]: there the
    remote answers the removal of the group from the endpoint with one of
    the codes of an association that is gone, and the world stays one of
    them. *)
Definition associationAbsent (gone : W -> Prop) (vpcEndpointID securityGroupID : string) : Prop :=
  forall w : W,
    gone w ->
    tfawserr.ErrCodeEquals
      (fst (ec2.ModifyVpcEndpointWithContext meta (removeRequest vpcEndpointID securityGroupID) w))
      (ec2.absentCodes meta) = true
    /\ gone (snd (ec2.ModifyVpcEndpointWithContext meta
                    (removeRequest vpcEndpointID securityGroupID) w)).

Lemma mutations_app (a b : list ec2.Call) :
  ec2.mutations (a ++ b) = ec2.mutations a ++ ec2.mutations b.
Proof. apply filter_app. Qed.

Lemma create_association_run (vpcEndpointID securityGroupID : string)
    (w w' : W) (tr : list ec2.Call) (err : option error) :
  ec2.ModifyVpcEndpointWithContext meta (addRequest vpcEndpointID securityGroupID) w = (err, w') ->
  ec2.createVPCEndpointSecurityGroupAssociation meta vpcEndpointID securityGroupID (w, tr)
  = (option_map (creatingError vpcEndpointID securityGroupID) err,
     (w', tr ++ [ec2.ModifyVpcEndpoint (addRequest vpcEndpointID securityGroupID)])).
Proof.
  intros H. unfold ec2.createVPCEndpointSecurityGroupAssociation.
  run_call H.
  destruct err; reflexivity.
Qed.

Lemma delete_association_run (vpcEndpointID securityGroupID : string)
    (w w' : W) (tr : list ec2.Call) (err : option error) :
  ec2.ModifyVpcEndpointWithContext meta (removeRequest vpcEndpointID securityGroupID) w = (err, w') ->
  ec2.deleteVPCEndpointSecurityGroupAssociation meta vpcEndpointID securityGroupID (w, tr)
  = ((if tfawserr.ErrCodeEquals err (ec2.absentCodes meta) then None
      else option_map (deletingError vpcEndpointID securityGroupID) err),
     (w', tr ++ [ec2.ModifyVpcEndpoint (removeRequest vpcEndpointID securityGroupID)])).
Proof.
  intros H. unfold ec2.deleteVPCEndpointSecurityGroupAssociation.
  run_call H.
  destruct (tfawserr.ErrCodeEquals err (ec2.absentCodes meta)); [reflexivity|].
  destruct err; reflexivity.
Qed.

(** The guarded block of create never mutates: it issues one or two finder
    calls and ends in diagnostics or in the default group's identifier. *)
Lemma findDefaultAssociation_reads (diags : diag.Diagnostics)
    (vpcEndpointID securityGroupID : string) (w : W) (tr : list ec2.Call) :
  exists finders,
    calls (snd (ec2.findDefaultAssociation meta diags vpcEndpointID securityGroupID (w, tr)))
    = tr ++ finders
    /\ ec2.mutations finders = [].
Proof.
  unfold ec2.findDefaultAssociation.
  destruct (ec2.FindVPCEndpointByID meta vpcEndpointID w) as [[vpcEndpoint | err] w1] eqn:H1;
    run_call H1.
  2:{ exists [ec2.FindVPCEndpoint vpcEndpointID]. split; reflexivity. }
  destruct (ec2.FindVPCDefaultSecurityGroup meta (aws.StringValue (ec2.VpcId vpcEndpoint)) w1)
    as [[defaultSecurityGroup | err] w2] eqn:H2;
    run_call H2.
  2:{ exists [ec2.FindVPCEndpoint vpcEndpointID;
              ec2.FindDefaultSecurityGroup (aws.StringValue (ec2.VpcId vpcEndpoint))].
      split; [cbn [snd calls ret]; now rewrite <- app_assoc | reflexivity]. }
  exists [ec2.FindVPCEndpoint vpcEndpointID;
          ec2.FindDefaultSecurityGroup (aws.StringValue (ec2.VpcId vpcEndpoint))].
  split; [|reflexivity].
  destruct (String.eqb _ securityGroupID); [cbn [snd calls ret]; now rewrite <- app_assoc|].
  destruct (negb _); cbn [snd calls ret]; now rewrite <- app_assoc.
Qed.

End Association.

Section AssociationLifecycle.
Context {W : Type} (meta : ec2.Provider W).

Abbreviation vpcEndpointID_of d := (schema.GetString d "vpc_endpoint_id").
Abbreviation securityGroupID_of d := (schema.GetString d "security_group_id").
Abbreviation replaceDefault_of d := (schema.GetBool d "replace_default_association").

(** The guarded block of create when both lookups succeed. *)
Lemma findDefaultAssociation_found (vpcEndpointID securityGroupID : string)
    (w w1 w2 : W) (tr : list ec2.Call)
    (vpcEndpoint : ec2.VpcEndpoint) (defaultSecurityGroup : ec2.SecurityGroup) :
  ec2.FindVPCEndpointByID meta vpcEndpointID w = (inl vpcEndpoint, w1) ->
  ec2.FindVPCDefaultSecurityGroup meta (aws.StringValue (ec2.VpcId vpcEndpoint)) w1
  = (inl defaultSecurityGroup, w2) ->
  ec2.findDefaultAssociation meta [] vpcEndpointID securityGroupID (w, tr)
  = ((if String.eqb (aws.StringValue (ec2.sg_GroupId defaultSecurityGroup)) securityGroupID
      then inl [diag.Errorf "%s is the default Security Group for EC2 VPC (%s)"
                  [diag.Str securityGroupID;
                   diag.Str (aws.StringValue (ec2.VpcId vpcEndpoint))]]
      else if existsb (fun group =>
                         String.eqb (aws.StringValue (ec2.GroupId group))
                           (aws.StringValue (ec2.sg_GroupId defaultSecurityGroup)))
                (ec2.Groups vpcEndpoint)
      then inr (aws.StringValue (ec2.sg_GroupId defaultSecurityGroup))
      else inl [diag.Errorf
                  "no association of default Security Group (%s) with VPC Endpoint (%s)"
                  [diag.Str (aws.StringValue (ec2.sg_GroupId defaultSecurityGroup));
                   diag.Str vpcEndpointID]]),
     (w2, tr ++ [ec2.FindVPCEndpoint vpcEndpointID;
                 ec2.FindDefaultSecurityGroup (aws.StringValue (ec2.VpcId vpcEndpoint))])).
Proof.
  intros H1 H2. unfold ec2.findDefaultAssociation.
  run_call H1.
  run_call H2.
  rewrite <- app_assoc. cbn [app].
  destruct (String.eqb _ securityGroupID); [reflexivity|].
  destruct (existsb _ _); reflexivity.
Qed.

(** Create returns the diagnostics of the guarded block at once. *)
Lemma create_stops_at_check (d : schema.ResourceData) (s s' : Remote W ec2.Call)
    (diags : diag.Diagnostics) :
  replaceDefault_of d = true ->
  ec2.findDefaultAssociation meta [] (vpcEndpointID_of d) (securityGroupID_of d) s
  = (inl diags, s') ->
  ec2.resourceVPCEndpointSecurityGroupAssociationCreate meta d s = ((d, diags), s').
Proof.
  intros Hreplace Hcheck. unfold ec2.resourceVPCEndpointSecurityGroupAssociationCreate.
  rewrite Hreplace. rewrite (bind_run _ Hcheck). reflexivity.
Qed.

(** C9: when the replacement is requested and the requested security group
    is the default security group of the endpoint's VPC, create fails with
    the error that says so, after the two lookups and without any mutation;
    the identifier is not set. *)
Theorem create_rejects_default_group (d : schema.ResourceData) (w w1 w2 : W)
    (tr : list ec2.Call)
    (vpcEndpoint : ec2.VpcEndpoint) (defaultSecurityGroup : ec2.SecurityGroup) :
  replaceDefault_of d = true ->
  ec2.FindVPCEndpointByID meta (vpcEndpointID_of d) w = (inl vpcEndpoint, w1) ->
  ec2.FindVPCDefaultSecurityGroup meta (aws.StringValue (ec2.VpcId vpcEndpoint)) w1
  = (inl defaultSecurityGroup, w2) ->
  aws.StringValue (ec2.sg_GroupId defaultSecurityGroup) = securityGroupID_of d ->
  ec2.resourceVPCEndpointSecurityGroupAssociationCreate meta d (w, tr)
  = ((d, [diag.Errorf "%s is the default Security Group for EC2 VPC (%s)"
            [diag.Str (securityGroupID_of d);
             diag.Str (aws.StringValue (ec2.VpcId vpcEndpoint))]]),
     (w2, tr ++ [ec2.FindVPCEndpoint (vpcEndpointID_of d);
                 ec2.FindDefaultSecurityGroup (aws.StringValue (ec2.VpcId vpcEndpoint))]))
  /\ ec2.mutations
       (calls (snd (ec2.resourceVPCEndpointSecurityGroupAssociationCreate meta d (w, tr))))
     = ec2.mutations tr.
Proof.
  intros Hreplace H1 H2 Hsame.
  pose proof (findDefaultAssociation_found _ (securityGroupID_of d) _ _ _ tr _ _ H1 H2) as Hcheck.
  rewrite Hsame, String.eqb_refl in Hcheck.
  rewrite (create_stops_at_check d _ _ _ Hreplace Hcheck).
  split; [reflexivity|].
  cbn [snd calls]. rewrite mutations_app. cbn. apply app_nil_r.
Qed.

(** C2: when the replacement is requested and the VPC's default security
    group is not among the endpoint's associations, or a lookup fails,
    create returns one error diagnostic, leaves the identifier alone and
    issues finder calls only: no mutation. *)
Theorem create_validates_before_any_mutation (d : schema.ResourceData) (w : W)
    (tr : list ec2.Call) :
  replaceDefault_of d = true ->
  defaultNotAssociated meta d w ->
  exists format args s' finders,
    ec2.resourceVPCEndpointSecurityGroupAssociationCreate meta d (w, tr)
    = ((d, [diag.Errorf format args]), s')
    /\ calls s' = tr ++ finders
    /\ ec2.mutations finders = []
    /\ ec2.mutations (calls s') = ec2.mutations tr.
Proof.
  intros Hreplace Hnot. unfold defaultNotAssociated in Hnot.
  assert (Hframe : forall finders,
             ec2.mutations finders = [] ->
             ec2.mutations (tr ++ finders) = ec2.mutations tr).
  { intros finders Hf. rewrite mutations_app, Hf. apply app_nil_r. }
  destruct (ec2.FindVPCEndpointByID meta (vpcEndpointID_of d) w)
    as [[vpcEndpoint | err] w1] eqn:H1.
  - destruct (ec2.FindVPCDefaultSecurityGroup meta (aws.StringValue (ec2.VpcId vpcEndpoint)) w1)
      as [[defaultSecurityGroup | err] w2] eqn:H2.
    + pose proof (findDefaultAssociation_found _ (securityGroupID_of d) _ _ _ tr _ _ H1 H2) as Hcheck.
      rewrite Hnot in Hcheck.
      destruct (String.eqb _ (securityGroupID_of d));
        rewrite (create_stops_at_check d _ _ _ Hreplace Hcheck);
        do 4 eexists; (split; [reflexivity|]);
        (split; [reflexivity|]); (split; [reflexivity|]);
        apply Hframe; reflexivity.
    + assert (Hcheck :
          ec2.findDefaultAssociation meta [] (vpcEndpointID_of d) (securityGroupID_of d) (w, tr)
          = (inl [diag.Errorf "reading EC2 VPC (%s) default Security Group: %s"
                    [diag.Str (aws.StringValue (ec2.VpcId vpcEndpoint)); diag.Err err]],
             (w2, tr ++ [ec2.FindVPCEndpoint (vpcEndpointID_of d);
                         ec2.FindDefaultSecurityGroup
                           (aws.StringValue (ec2.VpcId vpcEndpoint))]))).
      { unfold ec2.findDefaultAssociation.
        run_call H1. run_call H2.
        rewrite <- app_assoc. reflexivity. }
      rewrite (create_stops_at_check d _ _ _ Hreplace Hcheck).
      do 4 eexists. split; [reflexivity|]. split; [reflexivity|]. split; [reflexivity|].
      apply Hframe. reflexivity.
  - assert (Hcheck :
        ec2.findDefaultAssociation meta [] (vpcEndpointID_of d) (securityGroupID_of d) (w, tr)
        = (inl [diag.Errorf "reading VPC Endpoint (%s): %s"
                  [diag.Str (vpcEndpointID_of d); diag.Err err]],
           (w1, tr ++ [ec2.FindVPCEndpoint (vpcEndpointID_of d)]))).
    { unfold ec2.findDefaultAssociation.
      run_call H1. reflexivity. }
    rewrite (create_stops_at_check d _ _ _ Hreplace Hcheck).
    do 4 eexists. split; [reflexivity|]. split; [reflexivity|]. split; [reflexivity|].
    apply Hframe. reflexivity.
Qed.

End AssociationLifecycle.

Section Replacement.
Context {W : Type} (meta : ec2.Provider W).

Abbreviation vpcEndpointID_of d := (schema.GetString d "vpc_endpoint_id").
Abbreviation securityGroupID_of d := (schema.GetString d "security_group_id").
Abbreviation replaceDefault_of d := (schema.GetBool d "replace_default_association").


(** Read issues the one finder call. *)
Lemma read_calls (d : schema.ResourceData) (w : W) (tr : list ec2.Call) :
  calls (snd (ec2.resourceVPCEndpointSecurityGroupAssociationRead meta d (w, tr)))
  = tr ++ [ec2.FindAssociationExists (vpcEndpointID_of d) (securityGroupID_of d)].
Proof.
  unfold ec2.resourceVPCEndpointSecurityGroupAssociationRead.
  destruct (ec2.FindVPCEndpointSecurityGroupAssociationExists meta
              (vpcEndpointID_of d) (securityGroupID_of d) w) as [err w'] eqn:H.
  run_call H.
  destruct (negb (schema.IsNewResource d) && ec2.NotFound meta err); [reflexivity|].
  destruct err; reflexivity.
Qed.


(** The guarded block of delete when both lookups succeed. *)
Lemma restoreDefaultAssociation_found (vpcEndpointID : string) (w w1 w2 w3 : W)
    (tr : list ec2.Call)
    (vpcEndpoint : ec2.VpcEndpoint) (defaultSecurityGroup : ec2.SecurityGroup)
    (restore : option error) :
  ec2.FindVPCEndpointByID meta vpcEndpointID w = (inl vpcEndpoint, w1) ->
  ec2.FindVPCDefaultSecurityGroup meta (aws.StringValue (ec2.VpcId vpcEndpoint)) w1
  = (inl defaultSecurityGroup, w2) ->
  ec2.ModifyVpcEndpointWithContext meta
    (addRequest vpcEndpointID (aws.StringValue (ec2.sg_GroupId defaultSecurityGroup))) w2
  = (restore, w3) ->
  ec2.restoreDefaultAssociation meta [] vpcEndpointID (w, tr)
  = (option_map
       (fun e => [diag.FromErr
                    (creatingError vpcEndpointID
                       (aws.StringValue (ec2.sg_GroupId defaultSecurityGroup)) e)])
       restore,
     (w3, tr ++ [ec2.FindVPCEndpoint vpcEndpointID;
                 ec2.FindDefaultSecurityGroup (aws.StringValue (ec2.VpcId vpcEndpoint));
                 ec2.ModifyVpcEndpoint
                   (addRequest vpcEndpointID
                      (aws.StringValue (ec2.sg_GroupId defaultSecurityGroup)))])).
Proof.
  intros H1 H2 H3. unfold ec2.restoreDefaultAssociation.
  run_call H1.
  run_call H2.
  rewrite (bind_run _ (create_association_run meta _ _ _ _ _ _ H3)).
  repeat rewrite <- app_assoc. cbn [app].
  destruct restore; reflexivity.
Qed.

(** C3: when the replacement was requested, delete first adds the default
    security group back and only then removes the managed group, the
    reverse of create; when adding the default group back fails, delete
    returns that error and has not issued the removal. *)
Theorem delete_restores_default_then_removes (d : schema.ResourceData) (w w1 w2 w3 : W)
    (tr : list ec2.Call)
    (vpcEndpoint : ec2.VpcEndpoint) (defaultSecurityGroup : ec2.SecurityGroup)
    (restore : option error) :
  replaceDefault_of d = true ->
  ec2.FindVPCEndpointByID meta (vpcEndpointID_of d) w = (inl vpcEndpoint, w1) ->
  ec2.FindVPCDefaultSecurityGroup meta (aws.StringValue (ec2.VpcId vpcEndpoint)) w1
  = (inl defaultSecurityGroup, w2) ->
  ec2.ModifyVpcEndpointWithContext meta
    (addRequest (vpcEndpointID_of d) (aws.StringValue (ec2.sg_GroupId defaultSecurityGroup))) w2
  = (restore, w3) ->
  match restore with
  | Some e =>
      ec2.resourceVPCEndpointSecurityGroupAssociationDelete meta d (w, tr)
      = ((d, [diag.FromErr
                (creatingError (vpcEndpointID_of d)
                   (aws.StringValue (ec2.sg_GroupId defaultSecurityGroup)) e)]),
         (w3, tr ++ [ec2.FindVPCEndpoint (vpcEndpointID_of d);
                     ec2.FindDefaultSecurityGroup (aws.StringValue (ec2.VpcId vpcEndpoint));
                     ec2.ModifyVpcEndpoint
                       (addRequest (vpcEndpointID_of d)
                          (aws.StringValue (ec2.sg_GroupId defaultSecurityGroup)))]))
  | None =>
      ec2.mutations
        (calls (snd (ec2.resourceVPCEndpointSecurityGroupAssociationDelete meta d (w, tr))))
      = ec2.mutations tr
        ++ [ec2.ModifyVpcEndpoint
              (addRequest (vpcEndpointID_of d)
                 (aws.StringValue (ec2.sg_GroupId defaultSecurityGroup)));
            ec2.ModifyVpcEndpoint
              (removeRequest (vpcEndpointID_of d) (securityGroupID_of d))]
  end.
Proof.
  intros Hreplace H1 H2 H3.
  pose proof (restoreDefaultAssociation_found _ _ _ _ _ tr _ _ _ H1 H2 H3) as Hrestore.
  unfold ec2.resourceVPCEndpointSecurityGroupAssociationDelete.
  rewrite Hreplace. rewrite (bind_run _ Hrestore).
  destruct restore as [e|]; cbn [option_map]; [reflexivity|].
  destruct (ec2.ModifyVpcEndpointWithContext meta
              (removeRequest (vpcEndpointID_of d) (securityGroupID_of d)) w3)
    as [removal w4] eqn:H4.
  rewrite (bind_run _ (delete_association_run meta _ _ _ _ _ _ H4)).
  assert (Hcalls : forall r : schema.ResourceData * diag.Diagnostics,
             ec2.mutations
               (calls (snd (r, (w4, (tr ++ [ec2.FindVPCEndpoint (vpcEndpointID_of d);
                                            ec2.FindDefaultSecurityGroup
                                              (aws.StringValue (ec2.VpcId vpcEndpoint));
                                            ec2.ModifyVpcEndpoint
                                              (addRequest (vpcEndpointID_of d)
                                                 (aws.StringValue
                                                    (ec2.sg_GroupId defaultSecurityGroup)))])
                                      ++ [ec2.ModifyVpcEndpoint
                                            (removeRequest (vpcEndpointID_of d)
                                               (securityGroupID_of d))]))))
             = ec2.mutations tr
               ++ [ec2.ModifyVpcEndpoint
                     (addRequest (vpcEndpointID_of d)
                        (aws.StringValue (ec2.sg_GroupId defaultSecurityGroup)));
                   ec2.ModifyVpcEndpoint
                     (removeRequest (vpcEndpointID_of d) (securityGroupID_of d))]).
  { intros r. cbn [snd calls]. rewrite !mutations_app. cbn. now rewrite <- app_assoc. }
  destruct (tfawserr.ErrCodeEquals removal (ec2.absentCodes meta)); [apply Hcalls|].
  destruct removal; apply Hcalls.
Qed.

End Replacement.


Lemma create_validates_before_any_mutation_witness :
  exists format args s' finders,
    ec2.resourceVPCEndpointSecurityGroupAssociationCreate Stub.ec2Meta
      (Stub.association "sg-2" true) (Stub.defaultDetached, [])
    = ((Stub.association "sg-2" true, [diag.Errorf format args]), s')
    /\ calls s' = [] ++ finders
    /\ ec2.mutations finders = []
    /\ ec2.mutations (calls s') = ec2.mutations [].
Proof.
  apply (create_validates_before_any_mutation Stub.ec2Meta
           (Stub.association "sg-2" true) Stub.defaultDetached []).
  - reflexivity.
  - reflexivity.
Defined.

Lemma create_rejects_default_group_witness :
  ec2.mutations
    (calls (snd (ec2.resourceVPCEndpointSecurityGroupAssociationCreate Stub.ec2Meta
                   (Stub.association "sg-default" true) (Stub.fresh, []))))
  = ec2.mutations [].
Proof.
  refine (proj2 (create_rejects_default_group Stub.ec2Meta
                   (Stub.association "sg-default" true) Stub.fresh Stub.fresh Stub.fresh []
                   {| ec2.VpcId := Some "vpc-1";
                      ec2.Groups := [{| ec2.GroupId := Some "sg-default";
                                        ec2.GroupName := None |}] |}
                   {| ec2.sg_GroupId := Some "sg-default"; ec2.sg_VpcId := Some "vpc-1" |}
                   eq_refl eq_refl eq_refl eq_refl)).
Defined.

(** Deleting the association of [sg-2] made with the replacement while the
    remote refuses additions: the default group is not restored and [sg-2]
    stays. *)
Lemma delete_restores_default_then_removes_witness :
  ec2.resourceVPCEndpointSecurityGroupAssociationDelete Stub.ec2Meta
    (Stub.association "sg-2" true) (Stub.additionRefused, [])
  = ((Stub.association "sg-2" true,
      [diag.FromErr (creatingError "vpce-1" "sg-default" Stub.unauthorized)]),
     (Stub.additionRefused,
      [ec2.FindVPCEndpoint "vpce-1";
       ec2.FindDefaultSecurityGroup "vpc-1";
       ec2.ModifyVpcEndpoint (addRequest "vpce-1" "sg-default")])).
Proof.
  exact (delete_restores_default_then_removes Stub.ec2Meta
           (Stub.association "sg-2" true)
           Stub.additionRefused Stub.additionRefused Stub.additionRefused Stub.additionRefused
           []
           {| ec2.VpcId := Some "vpc-1";
              ec2.Groups := [{| ec2.GroupId := Some "sg-2"; ec2.GroupName := None |}] |}
           {| ec2.sg_GroupId := Some "sg-default"; ec2.sg_VpcId := Some "vpc-1" |}
           (Some Stub.unauthorized)
           eq_refl eq_refl eq_refl eq_refl).
Defined.

(** The replacement scenario with a remote that accepts both calls: [sg-2]
    is added, [sg-default] removed, and read finds the new association. *)
Example replacement_scenario :
  ec2.resourceVPCEndpointSecurityGroupAssociationCreate Stub.ec2Meta
    (Stub.association "sg-2" true) (Stub.fresh, [])
  = ((schema.SetId (Stub.association "sg-2" true) "vpce-1/sg-2", []),
     (Stub.replaced,
      [ec2.FindVPCEndpoint "vpce-1";
       ec2.FindDefaultSecurityGroup "vpc-1";
       ec2.ModifyVpcEndpoint (addRequest "vpce-1" "sg-2");
       ec2.ModifyVpcEndpoint (removeRequest "vpce-1" "sg-default");
       ec2.FindAssociationExists "vpce-1" "sg-2"])).
Proof. vm_compute. reflexivity. Qed.

(** Without the replacement create only adds. *)
Example plain_association :
  ec2.mutations
    (calls (snd (ec2.resourceVPCEndpointSecurityGroupAssociationCreate Stub.ec2Meta
                   (Stub.association "sg-2" false) (Stub.fresh, []))))
  = [ec2.ModifyVpcEndpoint (addRequest "vpce-1" "sg-2")].
Proof. vm_compute. reflexivity. Qed.

(** Delete with the replacement looks the endpoint up first: for an
    endpoint the remote does not know, it reports the lookup's error and
    issues no mutation. *)
Example delete_with_replacement_reads_endpoint_first :
  ec2.resourceVPCEndpointSecurityGroupAssociationDelete Stub.ec2Meta
    (Stub.data "" []
       [("vpc_endpoint_id", schema.VString "vpce-9");
        ("security_group_id", schema.VString "sg-2");
        ("replace_default_association", schema.VBool true)] false 0)
    (Stub.fresh, [])
  = ((Stub.data "" []
        [("vpc_endpoint_id", schema.VString "vpce-9");
         ("security_group_id", schema.VString "sg-2");
         ("replace_default_association", schema.VBool true)] false 0,
      [diag.Errorf "reading VPC Endpoint (%s): %s"
         [diag.Str "vpce-9"; diag.Err (NotFoundError None)]]),
     (Stub.fresh, [ec2.FindVPCEndpoint "vpce-9"])).
Proof. vm_compute. reflexivity. Qed.

(** ** The provisioning artifact *)

Section Artifact.
Context {W : Type} (meta : servicecatalog.Provider W).

(** The direct calls that follow a timeout. *)
Definition directCreate (input : servicecatalog.CreateProvisioningArtifactInput)
  : M (Remote W servicecatalog.Call)
      (option servicecatalog.ProvisioningArtifactOutput * option error) :=
  call (servicecatalog.CreateProvisioningArtifact input)
    (servicecatalog.CreateProvisioningArtifactWithContext meta input).

Definition directUpdate (input : servicecatalog.UpdateProvisioningArtifactInput)
  : M (Remote W servicecatalog.Call) (option error) :=
  call (servicecatalog.UpdateProvisioningArtifact input)
    (servicecatalog.UpdateProvisioningArtifactWithContext meta input).

(** The bounded-retry phases: the error (and for create the output) the
    retried function left, and the state after the phase. *)
Definition createRetryPhase (timeout : Duration)
    (input : servicecatalog.CreateProvisioningArtifactInput)
  : M (Remote W servicecatalog.Call)
      (option error * option servicecatalog.ProvisioningArtifactOutput) :=
  scoped None
    (servicecatalog.RetryContext meta timeout (servicecatalog.createAttempt meta input)).

Definition updateRetryPhase (timeout : Duration)
    (input : servicecatalog.UpdateProvisioningArtifactInput)
  : M (Remote W servicecatalog.Call) (option error) :=
  servicecatalog.RetryContext meta timeout (servicecatalog.updateAttempt meta input).

Lemma direct_call_appends {A : Type} (c : servicecatalog.Call) (op : W -> A * W)
    (s : Remote W servicecatalog.Call) :
  calls (snd (call c op s)) = calls s ++ [c].
Proof. unfold call. destruct (op (fst s)). reflexivity. Qed.

(** Without a timeout the retried operation returns what the phase left,
    and no further call is issued. *)
Lemma no_timeout_no_direct_call (timeout : Duration)
    (creation : servicecatalog.CreateProvisioningArtifactInput)
    (change : servicecatalog.UpdateProvisioningArtifactInput)
    (s : Remote W servicecatalog.Call) :
  (servicecatalog.TimedOut meta (fst (fst (createRetryPhase timeout creation s))) = false ->
   servicecatalog.createWithRetry meta timeout creation s
   = ((snd (fst (createRetryPhase timeout creation s)),
       fst (fst (createRetryPhase timeout creation s))),
      snd (createRetryPhase timeout creation s)))
  /\
  (servicecatalog.TimedOut meta (fst (updateRetryPhase timeout change s)) = false ->
   servicecatalog.updateWithRetry meta timeout change s = updateRetryPhase timeout change s).
Proof.
  split; intros Htimeout.
  - unfold servicecatalog.createWithRetry. fold (createRetryPhase timeout creation).
    unfold bind at 1.
    destruct (createRetryPhase timeout creation s) as [[err output] s1].
    cbn [fst snd] in Htimeout |- *. rewrite Htimeout. reflexivity.
  - unfold servicecatalog.updateWithRetry. fold (updateRetryPhase timeout change).
    unfold bind at 1.
    destruct (updateRetryPhase timeout change s) as [err s1].
    cbn [fst snd] in Htimeout |- *. rewrite Htimeout. reflexivity.
Qed.

(** After a timeout the retried operation is the direct call, run in the
    state the phase left. *)
Lemma timeout_direct_call (timeout : Duration)
    (creation : servicecatalog.CreateProvisioningArtifactInput)
    (change : servicecatalog.UpdateProvisioningArtifactInput)
    (s : Remote W servicecatalog.Call) :
  (servicecatalog.TimedOut meta (fst (fst (createRetryPhase timeout creation s))) = true ->
   servicecatalog.createWithRetry meta timeout creation s
   = directCreate creation (snd (createRetryPhase timeout creation s)))
  /\
  (servicecatalog.TimedOut meta (fst (updateRetryPhase timeout change s)) = true ->
   servicecatalog.updateWithRetry meta timeout change s
   = directUpdate change (snd (updateRetryPhase timeout change s))).
Proof.
  split; intros Htimeout.
  - unfold servicecatalog.createWithRetry. fold (createRetryPhase timeout creation).
    unfold bind at 1.
    destruct (createRetryPhase timeout creation s) as [[err output] s1].
    cbn [fst snd] in Htimeout |- *. rewrite Htimeout. reflexivity.
  - unfold servicecatalog.updateWithRetry. fold (updateRetryPhase timeout change).
    unfold bind at 1.
    destruct (updateRetryPhase timeout change s) as [err s1].
    cbn [fst snd] in Htimeout |- *. rewrite Htimeout. reflexivity.
Qed.

(** Create after its retried call, by the output and the error the call
    left. *)
Definition afterCreateCall (d : schema.ResourceData)
    (r : (option servicecatalog.ProvisioningArtifactOutput * option error)
         * Remote W servicecatalog.Call)
  : (schema.ResourceData * diag.Diagnostics) * Remote W servicecatalog.Call :=
  match snd (fst r) with
  | Some e =>
      ((d, [diag.Errorf "creating Service Catalog Provisioning Artifact: %s" [diag.Err e]]),
       snd r)
  | None =>
      match servicecatalog.outputId (fst (fst r)) with
      | None =>
          ((d, [diag.Errorf "creating Service Catalog Provisioning Artifact: empty response"
                  []]),
           snd r)
      | Some artifactID =>
          let (u, s2) :=
            servicecatalog.resourceProvisioningArtifactUpdate meta
              (schema.SetId d (servicecatalog.ProvisioningArtifactID meta artifactID
                                 (schema.GetString d "product_id"))) (snd r) in
          ((fst u, snd u), s2)
      end
  end.

(** Create draws its token, runs the retried call and goes on with what the
    call left. *)
Lemma create_run (d : schema.ResourceData) (w w1 : W) (tr : list servicecatalog.Call)
    (token : string) :
  servicecatalog.UniqueId meta w = (token, w1) ->
  servicecatalog.resourceProvisioningArtifactCreate meta d (w, tr)
  = afterCreateCall d
      (servicecatalog.createWithRetry meta (schema.Timeout d schema.TimeoutCreate)
         (servicecatalog.createInput meta d token) (w1, tr)).
Proof.
  intros Htoken. unfold servicecatalog.resourceProvisioningArtifactCreate, afterCreateCall.
  unfold bind at 1. cbn [fst snd]. rewrite Htoken. unfold bind at 1.
  destruct (servicecatalog.createWithRetry meta _ _ (w1, tr)) as [[output [e|]] s1];
    cbn [fst snd]; [reflexivity|].
  destruct (servicecatalog.outputId output) as [artifactID|]; [|reflexivity].
  unfold bind.
  destruct (servicecatalog.resourceProvisioningArtifactUpdate meta _ s1) as [u s2].
  reflexivity.
Qed.

(** The artifact's update after a change, by the error the retried call
    left. *)
Definition afterUpdateCall (d : schema.ResourceData)
    (r : option error * Remote W servicecatalog.Call)
  : (schema.ResourceData * diag.Diagnostics) * Remote W servicecatalog.Call :=
  match fst r with
  | Some e =>
      ((d, [diag.Errorf "updating Service Catalog Provisioning Artifact (%s): %s"
              [diag.Str (schema.Id d); diag.Err e]]), snd r)
  | None =>
      let (read, t2) := servicecatalog.resourceProvisioningArtifactRead meta d (snd r) in
      ((fst read, snd read), t2)
  end.

(** With a changed attribute and an identifier that parses, update runs
    the retried call on the request of the planned values and then reports
    its error or reads. *)
Lemma update_changed_run (d : schema.ResourceData) (artifactID productID : string)
    (t : Remote W servicecatalog.Call) :
  schema.HasChanges d servicecatalog.updatableFields = true ->
  servicecatalog.ProvisioningArtifactParseID meta (schema.Id d)
  = (artifactID, productID, None) ->
  servicecatalog.resourceProvisioningArtifactUpdate meta d t
  = afterUpdateCall d
      (servicecatalog.updateWithRetry meta (schema.Timeout d schema.TimeoutUpdate)
         (servicecatalog.updateInput d artifactID productID) t).
Proof.
  intros Hchanged Hparse. unfold servicecatalog.resourceProvisioningArtifactUpdate.
  rewrite Hchanged, Hparse. unfold afterUpdateCall, bind at 1.
  destruct (servicecatalog.updateWithRetry meta _ _ t) as [[e|] t1]; cbn [fst snd].
  - reflexivity.
  - unfold bind.
    destruct (servicecatalog.resourceProvisioningArtifactRead meta d t1) as [read t2].
    reflexivity.
Qed.

(** C5, as the code has it: in create and in update alike, the direct call
    follows the error of the bounded-retry phase that [tfresource.TimedOut]
    recognises, and no other.  After such a timeout the remote call is
    issued directly exactly once more, with the request of the attempts, and
    the operation goes on with the result of that call, not with the
    timeout; after anything else the phase left (a success, or an error that
    is no such timeout) no further call is issued and the operation goes on
    with what the phase left. *)
Theorem timeout_then_one_direct_call (timeout : Duration)
    (creation : servicecatalog.CreateProvisioningArtifactInput)
    (change : servicecatalog.UpdateProvisioningArtifactInput)
    (s : Remote W servicecatalog.Call)
    (d : schema.ResourceData) (w w1 : W) (tr : list servicecatalog.Call)
    (token artifactID productID : string) :
  (servicecatalog.TimedOut meta (fst (fst (createRetryPhase timeout creation s))) = true ->
   servicecatalog.createWithRetry meta timeout creation s
   = directCreate creation (snd (createRetryPhase timeout creation s))
   /\ calls (snd (servicecatalog.createWithRetry meta timeout creation s))
      = calls (snd (createRetryPhase timeout creation s))
        ++ [servicecatalog.CreateProvisioningArtifact creation])
  /\
  (servicecatalog.TimedOut meta (fst (updateRetryPhase timeout change s)) = true ->
   servicecatalog.updateWithRetry meta timeout change s
   = directUpdate change (snd (updateRetryPhase timeout change s))
   /\ calls (snd (servicecatalog.updateWithRetry meta timeout change s))
      = calls (snd (updateRetryPhase timeout change s))
        ++ [servicecatalog.UpdateProvisioningArtifact change])
  /\
  (servicecatalog.TimedOut meta (fst (fst (createRetryPhase timeout creation s))) = false ->
   servicecatalog.createWithRetry meta timeout creation s
   = ((snd (fst (createRetryPhase timeout creation s)),
       fst (fst (createRetryPhase timeout creation s))),
      snd (createRetryPhase timeout creation s)))
  /\
  (servicecatalog.TimedOut meta (fst (updateRetryPhase timeout change s)) = false ->
   servicecatalog.updateWithRetry meta timeout change s = updateRetryPhase timeout change s)
  /\
  (servicecatalog.UniqueId meta w = (token, w1) ->
   servicecatalog.resourceProvisioningArtifactCreate meta d (w, tr)
   = afterCreateCall d
       (if servicecatalog.TimedOut meta
             (fst (fst (createRetryPhase (schema.Timeout d schema.TimeoutCreate)
                          (servicecatalog.createInput meta d token) (w1, tr))))
        then directCreate (servicecatalog.createInput meta d token)
               (snd (createRetryPhase (schema.Timeout d schema.TimeoutCreate)
                       (servicecatalog.createInput meta d token) (w1, tr)))
        else ((snd (fst (createRetryPhase (schema.Timeout d schema.TimeoutCreate)
                           (servicecatalog.createInput meta d token) (w1, tr))),
               fst (fst (createRetryPhase (schema.Timeout d schema.TimeoutCreate)
                           (servicecatalog.createInput meta d token) (w1, tr)))),
              snd (createRetryPhase (schema.Timeout d schema.TimeoutCreate)
                     (servicecatalog.createInput meta d token) (w1, tr)))))
  /\
  (schema.HasChanges d servicecatalog.updatableFields = true ->
   servicecatalog.ProvisioningArtifactParseID meta (schema.Id d)
   = (artifactID, productID, None) ->
   servicecatalog.resourceProvisioningArtifactUpdate meta d s
   = afterUpdateCall d
       (if servicecatalog.TimedOut meta
             (fst (updateRetryPhase (schema.Timeout d schema.TimeoutUpdate)
                     (servicecatalog.updateInput d artifactID productID) s))
        then directUpdate (servicecatalog.updateInput d artifactID productID)
               (snd (updateRetryPhase (schema.Timeout d schema.TimeoutUpdate)
                       (servicecatalog.updateInput d artifactID productID) s))
        else updateRetryPhase (schema.Timeout d schema.TimeoutUpdate)
               (servicecatalog.updateInput d artifactID productID) s)).
Proof.
  split; [|split; [|split; [|split; [|split]]]].
  - intros Htimeout.
    rewrite (proj1 (timeout_direct_call timeout creation change s) Htimeout).
    split; [reflexivity | apply direct_call_appends].
  - intros Htimeout.
    rewrite (proj2 (timeout_direct_call timeout creation change s) Htimeout).
    split; [reflexivity | apply direct_call_appends].
  - exact (proj1 (no_timeout_no_direct_call timeout creation change s)).
  - exact (proj2 (no_timeout_no_direct_call timeout creation change s)).
  - intros Htoken. rewrite (create_run d w w1 tr token Htoken). f_equal.
    destruct (servicecatalog.TimedOut meta _) eqn:Htimeout.
    + apply (proj1 (timeout_direct_call _ _ change _) Htimeout).
    + apply (proj1 (no_timeout_no_direct_call _ _ change _) Htimeout).
  - intros Hchanged Hparse.
    rewrite (update_changed_run d artifactID productID s Hchanged Hparse). f_equal.
    destruct (servicecatalog.TimedOut meta _) eqn:Htimeout.
    + apply (proj2 (timeout_direct_call _ creation _ _) Htimeout).
    + apply (proj2 (no_timeout_no_direct_call _ creation _ _) Htimeout).
Qed.

(** The output of create is empty: it is nil, or its detail is nil, or the
    detail's identifier is nil. *)
Definition emptyResponse (output : option servicecatalog.ProvisioningArtifactOutput) : Prop :=
  output = None
  \/ (exists o, output = Some o /\ servicecatalog.Detail o = None)
  \/ (exists o pad,
         output = Some o /\ servicecatalog.Detail o = Some pad
         /\ servicecatalog.detail_Id pad = None).

Lemma emptyResponse_outputId (output : option servicecatalog.ProvisioningArtifactOutput) :
  emptyResponse output <-> servicecatalog.outputId output = None.
Proof.
  unfold emptyResponse, servicecatalog.outputId. split.
  - intros [H | [(o & H & Hd) | (o & pad & H & Hd & Hi)]]; subst; try reflexivity.
    + now rewrite Hd.
    + now rewrite Hd.
  - destruct output as [o|]; [|now left].
    destruct (servicecatalog.Detail o) as [pad|] eqn:Hd.
    + intros Hi. right. right. now exists o, pad.
    + intros _. right. left. now exists o.
Qed.

(** C10: when the remote create call ends without an error and its output
    is nil or lacks the detail or the detail's identifier, create returns
    the empty-response error, leaves the resource data and its identifier as
    they were, and issues no further call. *)
Theorem create_empty_response (d : schema.ResourceData) (w w1 : W)
    (tr : list servicecatalog.Call) (token : string)
    (output : option servicecatalog.ProvisioningArtifactOutput)
    (s' : Remote W servicecatalog.Call) :
  servicecatalog.UniqueId meta w = (token, w1) ->
  servicecatalog.createWithRetry meta
    (schema.Timeout d schema.TimeoutCreate) (servicecatalog.createInput meta d token) (w1, tr)
  = ((output, None), s') ->
  emptyResponse output ->
  servicecatalog.resourceProvisioningArtifactCreate meta d (w, tr)
  = ((d, [diag.Errorf "creating Service Catalog Provisioning Artifact: empty response" []]),
     s').
Proof.
  intros Htoken Hcreate Hempty. apply emptyResponse_outputId in Hempty.
  unfold servicecatalog.resourceProvisioningArtifactCreate.
  unfold bind at 1. cbn [fst snd]. rewrite Htoken.
  rewrite (bind_run _ Hcreate). cbn [fst snd]. rewrite Hempty. reflexivity.
Qed.

End Artifact.

(** An artifact to be created and one to be updated, each with a timeout
    that leaves no attempt to the retry phase. *)
Definition hurriedCreation : schema.ResourceData :=
  Stub.data "" [] (Stub.artifactAttrs "first version") true 0.

Definition hurriedChange : schema.ResourceData :=
  Stub.data "pa-1:prod-1"
    (Stub.artifactAttrs "first version") (Stub.artifactAttrs "second version") false 0.

Lemma timeout_then_one_direct_call_witness :
  calls (snd (servicecatalog.createWithRetry Stub.catalogMeta 0%Z
                (servicecatalog.createInput Stub.catalogMeta hurriedCreation "token")
                (Stub.emptyCatalog, [])))
  = [servicecatalog.CreateProvisioningArtifact
       (servicecatalog.createInput Stub.catalogMeta hurriedCreation "token")]
  /\ servicecatalog.updateWithRetry Stub.catalogMeta 0%Z
       (servicecatalog.updateInput hurriedChange "pa-1" "prod-1")
       (Stub.emptyCatalog, [])
     = (Some (AWSError "ResourceNotFoundException" "no such provisioning artifact"),
        (Stub.emptyCatalog,
         [servicecatalog.UpdateProvisioningArtifact
            (servicecatalog.updateInput hurriedChange "pa-1" "prod-1")]))
  /\ servicecatalog.resourceProvisioningArtifactCreate Stub.catalogMeta hurriedCreation
       (Stub.emptyCatalog, [])
     = afterCreateCall Stub.catalogMeta hurriedCreation
         (directCreate Stub.catalogMeta
            (servicecatalog.createInput Stub.catalogMeta hurriedCreation
               "terraform-20230101000000000000000001")
            (Stub.emptyCatalog, []))
  /\ servicecatalog.resourceProvisioningArtifactUpdate Stub.catalogMeta hurriedChange
       (Stub.emptyCatalog, [])
     = afterUpdateCall Stub.catalogMeta hurriedChange
         (directUpdate Stub.catalogMeta
            (servicecatalog.updateInput hurriedChange "pa-1" "prod-1")
            (Stub.emptyCatalog, [])).
Proof.
  pose proof (timeout_then_one_direct_call Stub.catalogMeta 0%Z
                (servicecatalog.createInput Stub.catalogMeta hurriedCreation "token")
                (servicecatalog.updateInput hurriedChange "pa-1" "prod-1")
                (Stub.emptyCatalog, [])
                hurriedCreation Stub.emptyCatalog Stub.emptyCatalog []
                "terraform-20230101000000000000000001" "pa-1" "prod-1")
    as (Hcreate & Hupdate & _ & _ & Hcreation & _).
  pose proof (timeout_then_one_direct_call Stub.catalogMeta 0%Z
                (servicecatalog.createInput Stub.catalogMeta hurriedCreation "token")
                (servicecatalog.updateInput hurriedChange "pa-1" "prod-1")
                (Stub.emptyCatalog, [])
                hurriedChange Stub.emptyCatalog Stub.emptyCatalog []
                "terraform-20230101000000000000000001" "pa-1" "prod-1")
    as (_ & _ & _ & _ & _ & Hchange).
  split; [|split; [|split]].
  - exact (proj2 (Hcreate eq_refl)).
  - exact (proj1 (Hupdate eq_refl)).
  - exact (Hcreation eq_refl).
  - exact (Hchange eq_refl eq_refl).
Defined.

(** A catalog that answers the next five create or update calls with the
    missing-profile error, and the artifacts created and updated there with
    a timeout that leaves the retry phase two attempts. *)
Definition profilePending : Stub.Catalog :=
  {| Stub.artifacts := ["pa-1"]; Stub.pendingProfile := 5; Stub.withoutDetail := false |}.

Definition patientCreation : schema.ResourceData :=
  Stub.data "" [] (Stub.artifactAttrs "first version") true 2.

Definition patientChange : schema.ResourceData :=
  Stub.data "pa-1:prod-1"
    (Stub.artifactAttrs "first version") (Stub.artifactAttrs "second version") false 2.

(** C5, as stated, fails.  The retry phase that uses up its budget on
    retryable errors (here two attempts, both answered with the
    missing-profile error) returns the last of these errors, which is no
    timeout for [tfresource.TimedOut]: no direct call follows, in create
    and in update alike, and the operation reports the retryable error. *)
Lemma budget_exhausted_on_retryable_errors :
  (createRetryPhase Stub.catalogMeta (schema.Timeout patientCreation schema.TimeoutCreate)
     (servicecatalog.createInput Stub.catalogMeta patientCreation
        "terraform-20230101000000000000000001")
     (profilePending, [])
   = ((Some Stub.profileMissing, None),
      (Stub.settle (Stub.settle profilePending),
       repeat (servicecatalog.CreateProvisioningArtifact
                 (servicecatalog.createInput Stub.catalogMeta patientCreation
                    "terraform-20230101000000000000000001")) 2))
   /\ servicecatalog.TimedOut Stub.catalogMeta (Some Stub.profileMissing) = false
   /\ servicecatalog.resourceProvisioningArtifactCreate Stub.catalogMeta patientCreation
        (profilePending, [])
      = ((patientCreation,
          [diag.Errorf "creating Service Catalog Provisioning Artifact: %s"
             [diag.Err Stub.profileMissing]]),
         (Stub.settle (Stub.settle profilePending),
          repeat (servicecatalog.CreateProvisioningArtifact
                    (servicecatalog.createInput Stub.catalogMeta patientCreation
                       "terraform-20230101000000000000000001")) 2)))
  /\
  (updateRetryPhase Stub.catalogMeta (schema.Timeout patientChange schema.TimeoutUpdate)
     (servicecatalog.updateInput patientChange "pa-1" "prod-1") (profilePending, [])
   = (Some Stub.profileMissing,
      (Stub.settle (Stub.settle profilePending),
       repeat (servicecatalog.UpdateProvisioningArtifact
                 (servicecatalog.updateInput patientChange "pa-1" "prod-1")) 2))
   /\ servicecatalog.resourceProvisioningArtifactUpdate Stub.catalogMeta patientChange
        (profilePending, [])
      = ((patientChange,
          [diag.Errorf "updating Service Catalog Provisioning Artifact (%s): %s"
             [diag.Str "pa-1:prod-1"; diag.Err Stub.profileMissing]]),
         (Stub.settle (Stub.settle profilePending),
          repeat (servicecatalog.UpdateProvisioningArtifact
                    (servicecatalog.updateInput patientChange "pa-1" "prod-1")) 2))).
Proof. repeat split; vm_compute; reflexivity. Qed.

Lemma create_empty_response_witness :
  servicecatalog.resourceProvisioningArtifactCreate Stub.catalogMeta
    (Stub.data "" [] (Stub.artifactAttrs "first version") true 1)
    (Stub.answersWithoutDetail, [])
  = ((Stub.data "" [] (Stub.artifactAttrs "first version") true 1,
      [diag.Errorf "creating Service Catalog Provisioning Artifact: empty response" []]),
     (Stub.answersWithoutDetail,
      [servicecatalog.CreateProvisioningArtifact
         (servicecatalog.createInput Stub.catalogMeta
            (Stub.data "" [] (Stub.artifactAttrs "first version") true 1)
            "terraform-20230101000000000000000001")])).
Proof.
  apply (create_empty_response Stub.catalogMeta
           (Stub.data "" [] (Stub.artifactAttrs "first version") true 1)
           Stub.answersWithoutDetail Stub.answersWithoutDetail []
           "terraform-20230101000000000000000001"
           (Some {| servicecatalog.Info := [];
                    servicecatalog.Detail := None;
                    servicecatalog.Status := None |})).
  - reflexivity.
  - reflexivity.
  - right. left. eexists. split; reflexivity.
Defined.

(** The profile is missing for the first two create calls: with three
    attempts in the budget create retries twice, succeeds, and goes on to
    update and read. *)
Example create_retries_until_profile_exists :
  let r := servicecatalog.resourceProvisioningArtifactCreate Stub.catalogMeta
             (Stub.data "" [] (Stub.artifactAttrs "first version") true 3)
             ({| Stub.artifacts := []; Stub.pendingProfile := 2; Stub.withoutDetail := false |},
              []) in
  schema.Id (fst (fst r)) = "pa-1:prod-1"
  /\ snd (fst r) = []
  /\ map servicecatalog.isCreate (calls (snd r)) = [true; true; true; false; false]
  /\ map servicecatalog.isUpdate (calls (snd r)) = [false; false; false; true; false].
Proof. vm_compute. repeat split; reflexivity. Qed.

(** With one attempt in the budget the retry phase ends with the retryable
    error itself, which is no timeout: no direct call follows and create
    reports the error. *)
Example create_reports_last_retryable_error :
  servicecatalog.resourceProvisioningArtifactCreate Stub.catalogMeta
    (Stub.data "" [] (Stub.artifactAttrs "first version") true 1)
    ({| Stub.artifacts := []; Stub.pendingProfile := 2; Stub.withoutDetail := false |}, [])
  = ((Stub.data "" [] (Stub.artifactAttrs "first version") true 1,
      [diag.Errorf "creating Service Catalog Provisioning Artifact: %s"
         [diag.Err Stub.profileMissing]]),
     ({| Stub.artifacts := []; Stub.pendingProfile := 1; Stub.withoutDetail := false |},
      [servicecatalog.CreateProvisioningArtifact
         (servicecatalog.createInput Stub.catalogMeta
            (Stub.data "" [] (Stub.artifactAttrs "first version") true 1)
            "terraform-20230101000000000000000001")])).
Proof. vm_compute. reflexivity. Qed.

(** ** Deleting what is already gone *)

(** Run a computation twice in a row. *)
Definition twice {S A : Type} (m : M S A) : M S (A * A) :=
  bind m (fun first => bind m (fun second => ret (first, second))).

Lemma twice_both {S A : Type} (m : M S A) (a : A) (inv : S -> Prop) (s : S) :
  (forall s0, inv s0 -> fst (m s0) = a /\ inv (snd (m s0))) ->
  inv s ->
  fst (twice m s) = (a, a).
Proof.
  intros H Hs. unfold twice, bind.
  destruct (H s Hs) as [H1 Hs1]. destruct (m s) as [x s1]. cbn [fst snd] in H1, Hs1. subst x.
  destruct (H s1 Hs1) as [H2 _]. destruct (m s1) as [y s2]. cbn [fst] in H2. subst y.
  reflexivity.
Qed.

Section Idempotence.
Context {W : Type} (meta : ec2.Provider W).
Context {V : Type} (catalog : servicecatalog.Provider V).

(** The request delete sends for the artifact. *)
Definition deleteRequest (d : schema.ResourceData) (artifactID productID : string)
  : servicecatalog.DeleteProvisioningArtifactInput :=
  {| servicecatalog.delete_AcceptLanguage := schema.GetOkString d "accept_language";
     servicecatalog.delete_ProductId := Some productID;
     servicecatalog.delete_ProvisioningArtifactId := Some artifactID |}.

(** The artifact is gone in the worlds that satisfy [gone]: there the remote
    answers its deletion with the not-found code, and the world stays one
    of them. *)
Definition artifactAbsent (gone : V -> Prop) (d : schema.ResourceData)
    (artifactID productID : string) : Prop :=
  forall v : V,
    gone v ->
    tfawserr.ErrCodeEquals
      (fst (servicecatalog.DeleteProvisioningArtifactWithContext catalog
              (deleteRequest d artifactID productID) v))
      [servicecatalog.ErrCodeResourceNotFoundException] = true
    /\ gone (snd (servicecatalog.DeleteProvisioningArtifactWithContext catalog
                    (deleteRequest d artifactID productID) v)).

Lemma delete_association_absent (gone : W -> Prop) (vpcEndpointID securityGroupID : string)
    (s : Remote W ec2.Call) :
  associationAbsent meta gone vpcEndpointID securityGroupID ->
  gone (world s) ->
  fst (ec2.deleteVPCEndpointSecurityGroupAssociation meta vpcEndpointID securityGroupID s) = None
  /\ gone (world (snd (ec2.deleteVPCEndpointSecurityGroupAssociation meta
                         vpcEndpointID securityGroupID s))).
Proof.
  intros Habsent Hgone. destruct s as [w tr]. cbn [world fst] in Hgone.
  specialize (Habsent w Hgone).
  destruct (ec2.ModifyVpcEndpointWithContext meta
              (removeRequest vpcEndpointID securityGroupID) w) as [err w'] eqn:H.
  rewrite (delete_association_run meta _ _ _ _ _ _ H).
  cbn [fst snd world] in Habsent |- *. destruct Habsent as [Hcode Hgone'].
  rewrite Hcode. split; [reflexivity | exact Hgone'].
Qed.

Lemma delete_resource_absent (gone : W -> Prop) (d : schema.ResourceData)
    (s : Remote W ec2.Call) :
  schema.GetBool d "replace_default_association" = false ->
  associationAbsent meta gone (schema.GetString d "vpc_endpoint_id")
    (schema.GetString d "security_group_id") ->
  gone (world s) ->
  fst (ec2.resourceVPCEndpointSecurityGroupAssociationDelete meta d s) = (d, [])
  /\ gone (world (snd (ec2.resourceVPCEndpointSecurityGroupAssociationDelete meta d s))).
Proof.
  intros Hreplace Habsent Hgone.
  unfold ec2.resourceVPCEndpointSecurityGroupAssociationDelete.
  rewrite Hreplace. cbv beta iota delta [bind ret].
  destruct (delete_association_absent gone _ _ s Habsent Hgone) as [Hnone Hgone'].
  destruct (ec2.deleteVPCEndpointSecurityGroupAssociation meta _ _ s) as [err s'].
  cbn [fst snd] in Hnone, Hgone'. subst err. split; [reflexivity | exact Hgone'].
Qed.

(** With the replacement, once the default group is restored, a removal
    answered with one of the codes is a success as well. *)
Lemma delete_after_restore_absent (d : schema.ResourceData) (s s1 : Remote W ec2.Call) :
  schema.GetBool d "replace_default_association" = true ->
  ec2.restoreDefaultAssociation meta [] (schema.GetString d "vpc_endpoint_id") s = (None, s1) ->
  tfawserr.ErrCodeEquals
    (fst (ec2.ModifyVpcEndpointWithContext meta
            (removeRequest (schema.GetString d "vpc_endpoint_id")
               (schema.GetString d "security_group_id")) (world s1)))
    (ec2.absentCodes meta) = true ->
  fst (ec2.resourceVPCEndpointSecurityGroupAssociationDelete meta d s) = (d, []).
Proof.
  intros Hreplace Hrestore Hcode.
  unfold ec2.resourceVPCEndpointSecurityGroupAssociationDelete.
  rewrite Hreplace. rewrite (bind_run _ Hrestore).
  destruct s1 as [w1 tr1]. cbn [world fst] in Hcode.
  destruct (ec2.ModifyVpcEndpointWithContext meta
              (removeRequest (schema.GetString d "vpc_endpoint_id")
                 (schema.GetString d "security_group_id")) w1) as [err w2] eqn:H.
  rewrite (bind_run _ (delete_association_run meta _ _ _ _ _ _ H)).
  cbn [fst] in Hcode. rewrite Hcode. reflexivity.
Qed.

Lemma delete_artifact_absent (gone : V -> Prop) (d : schema.ResourceData)
    (artifactID productID : string) (s : Remote V servicecatalog.Call) :
  servicecatalog.ProvisioningArtifactParseID catalog (schema.Id d)
  = (artifactID, productID, None) ->
  artifactAbsent gone d artifactID productID ->
  gone (world s) ->
  fst (servicecatalog.resourceProvisioningArtifactDelete catalog d s) = (d, [])
  /\ gone (world (snd (servicecatalog.resourceProvisioningArtifactDelete catalog d s))).
Proof.
  intros Hparse Habsent Hgone. destruct s as [v tr]. cbn [world fst] in Hgone.
  specialize (Habsent v Hgone).
  unfold servicecatalog.resourceProvisioningArtifactDelete. rewrite Hparse.
  fold (deleteRequest d artifactID productID).
  destruct (servicecatalog.DeleteProvisioningArtifactWithContext catalog
              (deleteRequest d artifactID productID) v) as [err v'] eqn:H.
  run_call H.
  cbn [fst snd] in Habsent. destruct Habsent as [Hcode Hgone'].
  rewrite Hcode. split; [reflexivity | exact Hgone'].
Qed.

(** The endpoint is gone in the worlds that satisfy [gone]: there its
    lookup fails with [err], and the world stays one of them. *)
Definition endpointAbsent (gone : W -> Prop) (vpcEndpointID : string) (err : error) : Prop :=
  forall w : W,
    gone w ->
    fst (ec2.FindVPCEndpointByID meta vpcEndpointID w) = inr err
    /\ gone (snd (ec2.FindVPCEndpointByID meta vpcEndpointID w)).

(** In the worlds that satisfy [gone] the default group can be added back
    to the endpoint: there the restore step of delete passes, and the world
    stays one of them. *)
Definition defaultRestorable (gone : W -> Prop) (vpcEndpointID : string) : Prop :=
  forall s0 : Remote W ec2.Call,
    gone (world s0) ->
    fst (ec2.restoreDefaultAssociation meta [] vpcEndpointID s0) = None
    /\ gone (world (snd (ec2.restoreDefaultAssociation meta [] vpcEndpointID s0))).

(** The error of delete when the lookup of the endpoint fails. *)
Definition readingEndpointError (vpcEndpointID : string) (err : error) : diag.Diagnostic :=
  diag.Errorf "reading VPC Endpoint (%s): %s" [diag.Str vpcEndpointID; diag.Err err].

(** With the replacement, delete returns the error of a failed restore
    step, in the state that step left: the removal is not issued. *)
Lemma delete_restore_fails (d : schema.ResourceData) (diags : diag.Diagnostics)
    (s s1 : Remote W ec2.Call) :
  schema.GetBool d "replace_default_association" = true ->
  ec2.restoreDefaultAssociation meta [] (schema.GetString d "vpc_endpoint_id") s
  = (Some diags, s1) ->
  ec2.resourceVPCEndpointSecurityGroupAssociationDelete meta d s = ((d, diags), s1).
Proof.
  intros Hreplace Hrestore.
  unfold ec2.resourceVPCEndpointSecurityGroupAssociationDelete.
  rewrite Hreplace. rewrite (bind_run _ Hrestore). reflexivity.
Qed.

(** The restore step stops at the failed lookup of the endpoint. *)
Lemma restore_endpoint_absent (gone : W -> Prop) (vpcEndpointID : string) (err : error)
    (s : Remote W ec2.Call) :
  endpointAbsent gone vpcEndpointID err ->
  gone (world s) ->
  ec2.restoreDefaultAssociation meta [] vpcEndpointID s
  = (Some [readingEndpointError vpcEndpointID err],
     (snd (ec2.FindVPCEndpointByID meta vpcEndpointID (world s)),
      calls s ++ [ec2.FindVPCEndpoint vpcEndpointID])).
Proof.
  intros Habsent Hgone. destruct s as [w tr]. cbn [world calls fst snd] in Hgone |- *.
  destruct (Habsent w Hgone) as [Herr _].
  unfold ec2.restoreDefaultAssociation.
  destruct (ec2.FindVPCEndpointByID meta vpcEndpointID w) as [r w'] eqn:H.
  run_call H. cbn [fst snd] in Herr |- *. subst r. reflexivity.
Qed.

(** With the replacement and the endpoint gone, delete fails at the lookup
    and issues nothing else. *)
Lemma delete_replacement_endpoint_absent (gone : W -> Prop) (d : schema.ResourceData)
    (err : error) (s : Remote W ec2.Call) :
  schema.GetBool d "replace_default_association" = true ->
  endpointAbsent gone (schema.GetString d "vpc_endpoint_id") err ->
  gone (world s) ->
  ec2.resourceVPCEndpointSecurityGroupAssociationDelete meta d s
  = ((d, [readingEndpointError (schema.GetString d "vpc_endpoint_id") err]),
     (snd (ec2.FindVPCEndpointByID meta (schema.GetString d "vpc_endpoint_id") (world s)),
      calls s ++ [ec2.FindVPCEndpoint (schema.GetString d "vpc_endpoint_id")])).
Proof.
  intros Hreplace Habsent Hgone.
  apply delete_restore_fails; [exact Hreplace|].
  apply restore_endpoint_absent with (gone := gone); assumption.
Qed.

(** With the replacement, where the default group can be added back and the
    managed association is gone, delete succeeds and the world stays such. *)
Lemma delete_replacement_absent (gone : W -> Prop) (d : schema.ResourceData)
    (s : Remote W ec2.Call) :
  schema.GetBool d "replace_default_association" = true ->
  defaultRestorable gone (schema.GetString d "vpc_endpoint_id") ->
  associationAbsent meta gone (schema.GetString d "vpc_endpoint_id")
    (schema.GetString d "security_group_id") ->
  gone (world s) ->
  fst (ec2.resourceVPCEndpointSecurityGroupAssociationDelete meta d s) = (d, [])
  /\ gone (world (snd (ec2.resourceVPCEndpointSecurityGroupAssociationDelete meta d s))).
Proof.
  intros Hreplace Hrestorable Habsent Hgone.
  destruct (Hrestorable s Hgone) as [Hnone Hgone1].
  unfold ec2.resourceVPCEndpointSecurityGroupAssociationDelete.
  rewrite Hreplace.
  destruct (ec2.restoreDefaultAssociation meta [] (schema.GetString d "vpc_endpoint_id") s)
    as [early s1] eqn:Hrestore.
  cbn [fst snd] in Hnone, Hgone1. subst early.
  rewrite (bind_run _ Hrestore). cbv beta iota delta [bind ret].
  destruct (delete_association_absent gone _ _ s1 Habsent Hgone1) as [Hdone Hgone2].
  destruct (ec2.deleteVPCEndpointSecurityGroupAssociation meta _ _ s1) as [err s2].
  cbn [fst snd] in Hdone, Hgone2. subst err. split; [reflexivity | exact Hgone2].
Qed.

(** C4, as the code has it.  When the remote answers the removal with one
    of the codes delete takes for a resource that is gone, and keeps doing
    so, two deletes in a row both succeed: for the association's delete
    helper, for the association's delete without the replacement of the
    default group, for the association's delete with the replacement where
    the restore step passes, and for the provisioning artifact's delete
    (identifier well formed).  With the replacement the restore step runs
    before the removal: when it fails, delete returns its error and the
    removal is not issued; so when the endpoint itself is gone, two deletes
    in a row both fail with the error of the endpoint's lookup, and the
    lookups are all they issue. *)
Theorem delete_of_absent_succeeds_twice (d : schema.ResourceData)
    (vpcEndpointID securityGroupID artifactID productID : string)
    (gone : W -> Prop) (lost : V -> Prop)
    (s : Remote W ec2.Call) (t : Remote V servicecatalog.Call) :
  (associationAbsent meta gone vpcEndpointID securityGroupID ->
   gone (world s) ->
   fst (twice (ec2.deleteVPCEndpointSecurityGroupAssociation meta
                 vpcEndpointID securityGroupID) s)
   = (None, None))
  /\
  (schema.GetBool d "replace_default_association" = false ->
   associationAbsent meta gone (schema.GetString d "vpc_endpoint_id")
     (schema.GetString d "security_group_id") ->
   gone (world s) ->
   fst (twice (ec2.resourceVPCEndpointSecurityGroupAssociationDelete meta d) s)
   = ((d, []), (d, [])))
  /\
  (servicecatalog.ProvisioningArtifactParseID catalog (schema.Id d)
   = (artifactID, productID, None) ->
   artifactAbsent lost d artifactID productID ->
   lost (world t) ->
   fst (twice (servicecatalog.resourceProvisioningArtifactDelete catalog d) t)
   = ((d, []), (d, [])))
  /\
  (schema.GetBool d "replace_default_association" = true ->
   defaultRestorable gone (schema.GetString d "vpc_endpoint_id") ->
   associationAbsent meta gone (schema.GetString d "vpc_endpoint_id")
     (schema.GetString d "security_group_id") ->
   gone (world s) ->
   fst (twice (ec2.resourceVPCEndpointSecurityGroupAssociationDelete meta d) s)
   = ((d, []), (d, [])))
  /\
  (schema.GetBool d "replace_default_association" = true ->
   forall (diags : diag.Diagnostics) (s1 : Remote W ec2.Call),
     ec2.restoreDefaultAssociation meta [] (schema.GetString d "vpc_endpoint_id") s
     = (Some diags, s1) ->
     ec2.resourceVPCEndpointSecurityGroupAssociationDelete meta d s = ((d, diags), s1))
  /\
  (schema.GetBool d "replace_default_association" = true ->
   forall err : error,
     endpointAbsent gone (schema.GetString d "vpc_endpoint_id") err ->
     gone (world s) ->
     fst (twice (ec2.resourceVPCEndpointSecurityGroupAssociationDelete meta d) s)
     = ((d, [readingEndpointError (schema.GetString d "vpc_endpoint_id") err]),
        (d, [readingEndpointError (schema.GetString d "vpc_endpoint_id") err]))
     /\ calls (snd (twice (ec2.resourceVPCEndpointSecurityGroupAssociationDelete meta d) s))
        = calls s ++ [ec2.FindVPCEndpoint (schema.GetString d "vpc_endpoint_id");
                      ec2.FindVPCEndpoint (schema.GetString d "vpc_endpoint_id")]).
Proof.
  split; [|split; [|split; [|split; [|split]]]].
  - intros Habsent Hgone.
    apply twice_both with (inv := fun s0 => gone (world s0)); [|exact Hgone].
    intros s0 H0. now apply delete_association_absent.
  - intros Hreplace Habsent Hgone.
    apply twice_both with (inv := fun s0 => gone (world s0)); [|exact Hgone].
    intros s0 H0. now apply delete_resource_absent.
  - intros Hparse Habsent Hlost.
    apply twice_both with (inv := fun t0 => lost (world t0)); [|exact Hlost].
    intros t0 H0.
    now apply delete_artifact_absent with (artifactID := artifactID) (productID := productID).
  - intros Hreplace Hrestorable Habsent Hgone.
    apply twice_both with (inv := fun s0 => gone (world s0)); [|exact Hgone].
    intros s0 H0. now apply delete_replacement_absent.
  - intros Hreplace diags s1 Hrestore. now apply delete_restore_fails.
  - intros Hreplace err Habsent Hgone.
    destruct s as [w tr]. cbn [world calls] in Hgone |- *.
    destruct (Habsent w Hgone) as [_ Hgone1].
    unfold twice. cbv beta iota delta [bind ret].
    rewrite (delete_replacement_endpoint_absent gone d err (w, tr) Hreplace Habsent Hgone).
    cbn [world calls fst snd].
    rewrite (delete_replacement_endpoint_absent gone d err
               (snd (ec2.FindVPCEndpointByID meta (schema.GetString d "vpc_endpoint_id") w),
                tr ++ [ec2.FindVPCEndpoint (schema.GetString d "vpc_endpoint_id")])
               Hreplace Habsent Hgone1).
    cbn [ret fst snd calls world]. split; [reflexivity|].
    rewrite <- app_assoc. reflexivity.
Qed.

End Idempotence.

(** The association of [sg-2] with [vpce-1], stored, with and without the
    replacement of the default group, and the one with the endpoint
    [vpce-9], which does not exist. *)
Definition goneAssociation (replaceDefault : bool) : schema.ResourceData :=
  Stub.data "vpce-1/sg-2" []
    [("vpc_endpoint_id", schema.VString "vpce-1");
     ("security_group_id", schema.VString "sg-2");
     ("replace_default_association", schema.VBool replaceDefault)] false 0.

Definition goneEndpointAssociation : schema.ResourceData :=
  Stub.data "vpce-9/sg-2" []
    [("vpc_endpoint_id", schema.VString "vpce-9");
     ("security_group_id", schema.VString "sg-2");
     ("replace_default_association", schema.VBool true)] false 0.

(** The endpoints [sg-2] is not associated with, of a remote that refuses
    nothing. *)
Definition withoutManagedGroup (w : Stub.Endpoint) : Prop :=
  existsb (String.eqb "sg-2") (Stub.associated w) = false
  /\ Stub.removalError w = None /\ Stub.additionError w = None.

Lemma withoutManagedGroup_absent :
  associationAbsent Stub.ec2Meta withoutManagedGroup "vpce-1" "sg-2".
Proof.
  intros [groups removal addition] (Hgroups & Hremoval & Haddition).
  cbn in Hgroups, Hremoval, Haddition. subst removal addition.
  cbn. rewrite Hgroups. cbn. split; [reflexivity|].
  split; [exact Hgroups | split; reflexivity].
Qed.

Lemma withoutManagedGroup_restorable : defaultRestorable Stub.ec2Meta withoutManagedGroup "vpce-1".
Proof.
  intros [[groups removal addition] tr] (Hgroups & Hremoval & Haddition).
  cbn in Hgroups, Hremoval, Haddition. subst removal addition.
  cbn. split; [reflexivity|].
  split; [|split; reflexivity].
  cbn. rewrite existsb_app, Hgroups. reflexivity.
Qed.

(** The association of [sg-2] is gone from the endpoint that has its
    default group only, and the artifact [pa-1] from the empty catalog; the
    endpoint [vpce-9] is gone altogether. *)
Lemma delete_of_absent_succeeds_twice_witness :
  fst (twice (ec2.resourceVPCEndpointSecurityGroupAssociationDelete Stub.ec2Meta
                (Stub.association "sg-2" false)) (Stub.fresh, []))
  = ((Stub.association "sg-2" false, []), (Stub.association "sg-2" false, []))
  /\ fst (twice (servicecatalog.resourceProvisioningArtifactDelete Stub.catalogMeta
                   (Stub.data "pa-1:prod-1" (Stub.artifactAttrs "first version")
                      (Stub.artifactAttrs "first version") false 1))
            (Stub.emptyCatalog, []))
     = ((Stub.data "pa-1:prod-1" (Stub.artifactAttrs "first version")
           (Stub.artifactAttrs "first version") false 1, []),
        (Stub.data "pa-1:prod-1" (Stub.artifactAttrs "first version")
           (Stub.artifactAttrs "first version") false 1, []))
  /\ fst (twice (ec2.resourceVPCEndpointSecurityGroupAssociationDelete Stub.ec2Meta
                   (goneAssociation true)) (Stub.fresh, []))
     = ((goneAssociation true, []), (goneAssociation true, []))
  /\ fst (twice (ec2.resourceVPCEndpointSecurityGroupAssociationDelete Stub.ec2Meta
                   goneEndpointAssociation) (Stub.fresh, []))
     = ((goneEndpointAssociation,
         [readingEndpointError "vpce-9" (NotFoundError None)]),
        (goneEndpointAssociation,
         [readingEndpointError "vpce-9" (NotFoundError None)])).
Proof.
  split; [|split; [|split]].
  - refine (proj1 (proj2 (delete_of_absent_succeeds_twice Stub.ec2Meta Stub.catalogMeta
                            (Stub.association "sg-2" false)
                            "vpce-1" "sg-2" "pa-1" "prod-1"
                            (fun w => w = Stub.fresh) (fun v => v = Stub.emptyCatalog)
                            (Stub.fresh, []) (Stub.emptyCatalog, []))) eq_refl _ eq_refl).
    intros w Hw. rewrite Hw. split; reflexivity.
  - refine (proj1 (proj2 (proj2
              (delete_of_absent_succeeds_twice Stub.ec2Meta Stub.catalogMeta
                 (Stub.data "pa-1:prod-1" (Stub.artifactAttrs "first version")
                    (Stub.artifactAttrs "first version") false 1)
                 "vpce-1" "sg-2" "pa-1" "prod-1"
                 (fun w => w = Stub.fresh) (fun v => v = Stub.emptyCatalog)
                 (Stub.fresh, []) (Stub.emptyCatalog, [])))) eq_refl _ eq_refl).
    intros v Hv. rewrite Hv. split; reflexivity.
  - refine (proj1 (proj2 (proj2 (proj2
              (delete_of_absent_succeeds_twice Stub.ec2Meta Stub.catalogMeta
                 (goneAssociation true)
                 "vpce-1" "sg-2" "pa-1" "prod-1"
                 withoutManagedGroup (fun v => v = Stub.emptyCatalog)
                 (Stub.fresh, []) (Stub.emptyCatalog, [])))))
              eq_refl withoutManagedGroup_restorable withoutManagedGroup_absent _).
    repeat split; reflexivity.
  - refine (proj1 (proj2 (proj2 (proj2 (proj2 (proj2
              (delete_of_absent_succeeds_twice Stub.ec2Meta Stub.catalogMeta
                 goneEndpointAssociation
                 "vpce-9" "sg-2" "pa-1" "prod-1"
                 (fun w => w = Stub.fresh) (fun v => v = Stub.emptyCatalog)
                 (Stub.fresh, []) (Stub.emptyCatalog, []))))))
              eq_refl (NotFoundError None) _ eq_refl)).
    intros w Hw. rewrite Hw. split; reflexivity.
Defined.

(** C4, as stated, fails.  The association of [sg-2] with the endpoint
    [vpce-9] is gone, the endpoint with it: the remote answers the removal
    with a code delete takes for a resource that is gone, and the delete
    helper succeeds twice in a row.  The association's delete with the
    replacement of the default group fails all the same, twice in a row, at
    the lookup of the endpoint, before the removal is ever issued. *)
Lemma delete_with_replacement_of_absent_fails :
  tfawserr.ErrCodeEquals
    (fst (ec2.ModifyVpcEndpointWithContext Stub.ec2Meta (removeRequest "vpce-9" "sg-2")
            Stub.fresh))
    (ec2.absentCodes Stub.ec2Meta) = true
  /\ twice (ec2.deleteVPCEndpointSecurityGroupAssociation Stub.ec2Meta "vpce-9" "sg-2")
       (Stub.fresh, [])
     = ((None, None),
        (Stub.fresh,
         [ec2.ModifyVpcEndpoint (removeRequest "vpce-9" "sg-2");
          ec2.ModifyVpcEndpoint (removeRequest "vpce-9" "sg-2")]))
  /\ schema.GetBool goneEndpointAssociation "replace_default_association" = true
  /\ twice (ec2.resourceVPCEndpointSecurityGroupAssociationDelete Stub.ec2Meta
              goneEndpointAssociation) (Stub.fresh, [])
     = (((goneEndpointAssociation,
          [diag.Errorf "reading VPC Endpoint (%s): %s"
             [diag.Str "vpce-9"; diag.Err (NotFoundError None)]]),
         (goneEndpointAssociation,
          [diag.Errorf "reading VPC Endpoint (%s): %s"
             [diag.Str "vpce-9"; diag.Err (NotFoundError None)]])),
        (Stub.fresh, [ec2.FindVPCEndpoint "vpce-9"; ec2.FindVPCEndpoint "vpce-9"])).
Proof. repeat split; vm_compute; reflexivity. Qed.

(** ** What update sends *)

Section Updates.
Context {W : Type} (gateway : apigateway.Provider W).
Context {V : Type} (catalog : servicecatalog.Provider V).

(** The patch operations of the method response's update: those of
    [response_models] and of [response_parameters], each only when the
    attribute changed. *)
Definition patchOperations (d : schema.ResourceData) : list apigateway.PatchOperation :=
  (if schema.HasChange d "response_models"
   then apigateway.expandRequestResponseModelOperations gateway d
          "response_models" "responseModels"
   else [])
  ++ (if schema.HasChange d "response_parameters"
      then apigateway.expandMethodParametersOperations gateway d
             "response_parameters" "responseParameters"
      else []).

Definition methodResponseUpdate (d : schema.ResourceData) : apigateway.UpdateMethodResponseInput :=
  {| apigateway.upd_HttpMethod := Some (schema.GetString d "http_method");
     apigateway.upd_ResourceId := Some (schema.GetString d "resource_id");
     apigateway.upd_RestApiId := Some (schema.GetString d "rest_api_id");
     apigateway.upd_StatusCode := Some (schema.GetString d "status_code");
     apigateway.PatchOperations := patchOperations d |}.

Definition isMethodResponseUpdate (c : apigateway.Call) : bool :=
  match c with apigateway.UpdateMethodResponse _ => true | _ => false end.

(** Read of the method response issues the one get call. *)
Lemma method_response_read_calls (d : schema.ResourceData) (s : Remote W apigateway.Call) :
  calls (snd (apigateway.resourceMethodResponseRead gateway d s))
  = calls s ++ [apigateway.GetMethodResponse (apigateway.methodResponseKey d)].
Proof.
  destruct s as [w tr]. unfold apigateway.resourceMethodResponseRead.
  destruct (apigateway.GetMethodResponseWithContext (apigateway.APIGatewayConn gateway)
              (apigateway.methodResponseKey d) w) as [r w'] eqn:H.
  run_call H.
  destruct (snd r) as [err|]; [|reflexivity].
  destruct (negb (schema.IsNewResource d) && _); reflexivity.
Qed.

(** Update of the method response issues its update call first, whatever
    changed. *)
Lemma method_response_update_calls (d : schema.ResourceData) (s : Remote W apigateway.Call) :
  exists rest,
    calls (snd (apigateway.resourceMethodResponseUpdate gateway d s))
    = calls s ++ [apigateway.UpdateMethodResponse (methodResponseUpdate d)] ++ rest
    /\ filter isMethodResponseUpdate rest = [].
Proof.
  destruct s as [w tr]. unfold apigateway.resourceMethodResponseUpdate.
  assert (Hops :
      (if schema.HasChange d "response_parameters"
       then (if schema.HasChange d "response_models"
             then [] ++ apigateway.expandRequestResponseModelOperations gateway d
                          "response_models" "responseModels"
             else [])
            ++ apigateway.expandMethodParametersOperations gateway d
                 "response_parameters" "responseParameters"
       else (if schema.HasChange d "response_models"
             then [] ++ apigateway.expandRequestResponseModelOperations gateway d
                          "response_models" "responseModels"
             else []))
      = patchOperations d).
  { unfold patchOperations.
    destruct (schema.HasChange d "response_parameters"),
             (schema.HasChange d "response_models");
      cbn [app]; try reflexivity; now rewrite app_nil_r. }
  cbv zeta. rewrite Hops. fold (methodResponseUpdate d).
  destruct (apigateway.UpdateMethodResponseWithContext (apigateway.APIGatewayConn gateway)
              (methodResponseUpdate d) w) as [r w'] eqn:H.
  run_call H.
  destruct (snd r) as [err|].
  - exists []. split; [reflexivity|reflexivity].
  - exists [apigateway.GetMethodResponse (apigateway.methodResponseKey d)].
    split; [|reflexivity].
    unfold bind.
    pose proof (method_response_read_calls d
                  (w', tr ++ [apigateway.UpdateMethodResponse (methodResponseUpdate d)]))
      as Hread.
    destruct (apigateway.resourceMethodResponseRead gateway d _) as [r' s'].
    cbn [snd calls ret] in Hread |- *. rewrite Hread. now rewrite <- app_assoc.
Qed.

(** Read of the provisioning artifact issues no update call. *)
Lemma artifact_read_calls (d : schema.ResourceData) (t : Remote V servicecatalog.Call) :
  exists rest,
    calls (snd (servicecatalog.resourceProvisioningArtifactRead catalog d t)) = calls t ++ rest
    /\ filter servicecatalog.isUpdate rest = [].
Proof.
  destruct t as [v tr]. unfold servicecatalog.resourceProvisioningArtifactRead.
  destruct (servicecatalog.ProvisioningArtifactParseID catalog (schema.Id d))
    as [[artifactID productID] [e|]].
  { exists []. split; [cbn; now rewrite app_nil_r | reflexivity]. }
  destruct (servicecatalog.WaitProvisioningArtifactReady catalog artifactID productID
              (schema.Timeout d schema.TimeoutRead) v) as [r v'] eqn:H.
  run_call H.
  exists [servicecatalog.WaitReady artifactID productID (schema.Timeout d schema.TimeoutRead)].
  split; [|reflexivity].
  destruct (negb (schema.IsNewResource d) && _); [reflexivity|].
  destruct (snd r); [reflexivity|].
  destruct (servicecatalog.outputDetail (fst r)) as [[o pad]|]; reflexivity.
Qed.

(** The request of the artifact's update is read off the planned values
    alone. *)
Lemma updateInput_planned (d d' : schema.ResourceData) (artifactID productID : string) :
  (forall key, schema.new d key = schema.new d' key) ->
  servicecatalog.updateInput d artifactID productID
  = servicecatalog.updateInput d' artifactID productID.
Proof.
  intros Hnew. unfold servicecatalog.updateInput, schema.GetOkString, schema.GetString,
    schema.GetBool.
  now rewrite !Hnew.
Qed.

(** [resource.RetryContext] reaches the remote service only through the
    function it is handed: what every run of that function preserves of the
    remote state still holds after the retry phase. *)
Definition retryRunsOnlyAttempt : Prop :=
  forall (P : Remote V servicecatalog.Call -> Prop) (timeout : Duration)
         (f : M (Remote V servicecatalog.Call) (option resource.RetryError)),
    (forall s, P s -> P (snd (f s))) ->
    forall s, P s -> P (snd (servicecatalog.RetryContext catalog timeout f s)).

(** One attempt of update issues the update call with the request it was
    handed. *)
Lemma updateAttempt_calls (input : servicecatalog.UpdateProvisioningArtifactInput)
    (t : Remote V servicecatalog.Call) :
  calls (snd (servicecatalog.updateAttempt catalog input t))
  = calls t ++ [servicecatalog.UpdateProvisioningArtifact input].
Proof.
  unfold servicecatalog.updateAttempt, bind.
  pose proof (direct_call_appends (servicecatalog.UpdateProvisioningArtifact input)
                (servicecatalog.UpdateProvisioningArtifactWithContext catalog input) t)
    as Hcall.
  destruct (call _ _ t) as [err t']. exact Hcall.
Qed.

(** The retried update and its direct call issue update calls with the one
    request only. *)
Lemma updateWithRetry_calls (timeout : Duration)
    (input : servicecatalog.UpdateProvisioningArtifactInput)
    (t : Remote V servicecatalog.Call) :
  retryRunsOnlyAttempt ->
  exists n,
    calls (snd (servicecatalog.updateWithRetry catalog timeout input t))
    = calls t ++ repeat (servicecatalog.UpdateProvisioningArtifact input) n.
Proof.
  intros Hretry.
  assert (Hphase : exists n,
             calls (snd (servicecatalog.RetryContext catalog timeout
                           (servicecatalog.updateAttempt catalog input) t))
             = calls t ++ repeat (servicecatalog.UpdateProvisioningArtifact input) n).
  { apply (Hretry (fun s' => exists n,
                     calls s' = calls t
                                ++ repeat (servicecatalog.UpdateProvisioningArtifact input) n)).
    - intros s' [n Hn]. exists (S n).
      rewrite updateAttempt_calls, Hn, <- app_assoc, <- repeat_cons. reflexivity.
    - exists 0. cbn [repeat]. now rewrite app_nil_r. }
  destruct Hphase as [n Hn].
  unfold servicecatalog.updateWithRetry, bind.
  destruct (servicecatalog.RetryContext catalog timeout
              (servicecatalog.updateAttempt catalog input) t) as [err t1].
  cbn [snd] in Hn.
  destruct (servicecatalog.TimedOut catalog err).
  - exists (S n).
    rewrite (direct_call_appends (servicecatalog.UpdateProvisioningArtifact input)
               (servicecatalog.UpdateProvisioningArtifactWithContext catalog input) t1).
    rewrite Hn, <- app_assoc, <- repeat_cons. reflexivity.
  - exists n. exact Hn.
Qed.

(** C8, as the code has it.  The provisioning artifact's update issues no
    update call when none of its six updatable attributes changed.  When one
    changed and the identifier does not parse, it issues no call at all.
    When one changed and the identifier parses, update is the retried call
    (the retry phase on the attempt, then the direct call on a timeout) on
    one request, followed by the report of its error or by read; the request
    is read off the planned values alone, with the two identifiers, [Active]
    always and the four strings whenever they are set, changed or not; and
    when the retry phase reaches the remote service only through the attempt,
    every update call issued carries that request.  The method response's
    update issues its update call in every case, with the patch operations
    of the attributes that changed. *)
Theorem update_sends (d : schema.ResourceData) (artifactID productID : string)
    (s : Remote W apigateway.Call) (t : Remote V servicecatalog.Call) :
  (schema.HasChanges d servicecatalog.updatableFields = false ->
   filter servicecatalog.isUpdate
     (calls (snd (servicecatalog.resourceProvisioningArtifactUpdate catalog d t)))
   = filter servicecatalog.isUpdate (calls t))
  /\ (forall d' : schema.ResourceData,
         (forall key, schema.new d key = schema.new d' key) ->
         servicecatalog.updateInput d artifactID productID
         = servicecatalog.updateInput d' artifactID productID)
  /\ servicecatalog.Active (servicecatalog.updateInput d artifactID productID)
     = Some (schema.GetBool d "active")
  /\ [servicecatalog.AcceptLanguage (servicecatalog.updateInput d artifactID productID);
      servicecatalog.Description (servicecatalog.updateInput d artifactID productID);
      servicecatalog.Guidance (servicecatalog.updateInput d artifactID productID);
      servicecatalog.Name (servicecatalog.updateInput d artifactID productID)]
     = map (schema.GetOkString d) ["accept_language"; "description"; "guidance"; "name"]
  /\ calls (snd (servicecatalog.updateAttempt catalog
                   (servicecatalog.updateInput d artifactID productID) t))
     = calls t ++ [servicecatalog.UpdateProvisioningArtifact
                     (servicecatalog.updateInput d artifactID productID)]
  /\ (exists rest,
       calls (snd (apigateway.resourceMethodResponseUpdate gateway d s))
       = calls s ++ [apigateway.UpdateMethodResponse (methodResponseUpdate d)] ++ rest
       /\ filter isMethodResponseUpdate rest = [])
  /\ (schema.HasChanges d servicecatalog.updatableFields = true ->
      forall e : error,
        servicecatalog.ProvisioningArtifactParseID catalog (schema.Id d)
        = (artifactID, productID, Some e) ->
        servicecatalog.resourceProvisioningArtifactUpdate catalog d t
        = ((d, [diag.Errorf "parsing Service Catalog Provisioning Artifact ID (%s): %s"
                  [diag.Str (schema.Id d); diag.Err e]]), t))
  /\ (schema.HasChanges d servicecatalog.updatableFields = true ->
      servicecatalog.ProvisioningArtifactParseID catalog (schema.Id d)
      = (artifactID, productID, None) ->
      servicecatalog.resourceProvisioningArtifactUpdate catalog d t
      = afterUpdateCall catalog d
          (servicecatalog.updateWithRetry catalog (schema.Timeout d schema.TimeoutUpdate)
             (servicecatalog.updateInput d artifactID productID) t)
      /\ servicecatalog.updateWithRetry catalog (schema.Timeout d schema.TimeoutUpdate)
           (servicecatalog.updateInput d artifactID productID) t
         = (let (err, t1) :=
              servicecatalog.RetryContext catalog (schema.Timeout d schema.TimeoutUpdate)
                (servicecatalog.updateAttempt catalog
                   (servicecatalog.updateInput d artifactID productID)) t in
            if servicecatalog.TimedOut catalog err
            then call (servicecatalog.UpdateProvisioningArtifact
                         (servicecatalog.updateInput d artifactID productID))
                   (servicecatalog.UpdateProvisioningArtifactWithContext catalog
                      (servicecatalog.updateInput d artifactID productID)) t1
            else (err, t1))
      /\ (retryRunsOnlyAttempt ->
          exists n rest,
            calls (snd (servicecatalog.resourceProvisioningArtifactUpdate catalog d t))
            = calls t
              ++ repeat (servicecatalog.UpdateProvisioningArtifact
                           (servicecatalog.updateInput d artifactID productID)) n
              ++ rest
            /\ filter servicecatalog.isUpdate rest = [])).
Proof.
  split; [|split; [|split; [|split; [|split; [|split; [|split]]]]]].
  - intros Hsame. unfold servicecatalog.resourceProvisioningArtifactUpdate.
    rewrite Hsame. unfold bind.
    destruct (artifact_read_calls d t) as (rest & Hcalls & Hrest).
    destruct (servicecatalog.resourceProvisioningArtifactRead catalog d t) as [r t'].
    cbn [snd ret] in Hcalls |- *. rewrite Hcalls, filter_app, Hrest. apply app_nil_r.
  - intros d' Hnew. now apply updateInput_planned.
  - reflexivity.
  - reflexivity.
  - apply updateAttempt_calls.
  - apply method_response_update_calls.
  - intros Hchanged e Hparse. unfold servicecatalog.resourceProvisioningArtifactUpdate.
    rewrite Hchanged, Hparse. reflexivity.
  - intros Hchanged Hparse. split; [|split].
    + apply (update_changed_run catalog); assumption.
    + unfold servicecatalog.updateWithRetry, bind.
      destruct (servicecatalog.RetryContext catalog _ _ t) as [err t1].
      destruct (servicecatalog.TimedOut catalog err); reflexivity.
    + intros Hretry. rewrite (update_changed_run catalog d artifactID productID t Hchanged Hparse).
      destruct (updateWithRetry_calls (schema.Timeout d schema.TimeoutUpdate)
                  (servicecatalog.updateInput d artifactID productID) t Hretry)
        as [n Hn].
      unfold afterUpdateCall.
      destruct (servicecatalog.updateWithRetry catalog _ _ t) as [[e|] t1];
        cbn [fst snd] in Hn |- *.
      * exists n, []. split; [now rewrite app_nil_r | reflexivity].
      * destruct (artifact_read_calls d t1) as (rest & Hcalls & Hrest).
        destruct (servicecatalog.resourceProvisioningArtifactRead catalog d t1)
          as [read t2].
        cbn [snd] in Hcalls |- *. exists n, rest.
        split; [|exact Hrest]. rewrite Hcalls, Hn, <- app_assoc. reflexivity.
Qed.

End Updates.

(** A method response none of whose attributes changed, and the artifact
    [pa-1] of which only the description changed. *)
Definition unchangedMethodResponse : schema.ResourceData :=
  Stub.data "agmr-a-b-GET-200"
    [("rest_api_id", schema.VString "a"); ("resource_id", schema.VString "b");
     ("http_method", schema.VString "GET"); ("status_code", schema.VString "200")]
    [("rest_api_id", schema.VString "a"); ("resource_id", schema.VString "b");
     ("http_method", schema.VString "GET"); ("status_code", schema.VString "200")]
    false 2.

Definition redescribedArtifact : schema.ResourceData :=
  Stub.data "pa-1:prod-1"
    (Stub.artifactAttrs "first version") (Stub.artifactAttrs "second version") false 1.

(** C8, as stated, fails.  The method response's update issues its remote
    update call although no attribute changed; and the provisioning
    artifact's update, of which only the description changed, sends the
    unchanged language, activity, guidance and name along with it. *)
Lemma update_sends_unchanged_fields :
  (forallb (fun key => negb (schema.HasChange unchangedMethodResponse key))
     ["rest_api_id"; "resource_id"; "http_method"; "status_code";
      "response_models"; "response_parameters"] = true
   /\ calls (snd (apigateway.resourceMethodResponseUpdate Stub.apigatewayMeta
                    unchangedMethodResponse (tt, [])))
      = [apigateway.UpdateMethodResponse
           {| apigateway.upd_HttpMethod := Some "GET";
              apigateway.upd_ResourceId := Some "b";
              apigateway.upd_RestApiId := Some "a";
              apigateway.upd_StatusCode := Some "200";
              apigateway.PatchOperations := [] |};
         apigateway.GetMethodResponse
           {| apigateway.HttpMethod := Some "GET";
              apigateway.ResourceId := Some "b";
              apigateway.RestApiId := Some "a";
              apigateway.StatusCode := Some "200" |}])
  /\
  (filter (schema.HasChange redescribedArtifact) servicecatalog.updatableFields
   = ["description"]
   /\ filter servicecatalog.isUpdate
        (calls (snd (servicecatalog.resourceProvisioningArtifactUpdate Stub.catalogMeta
                       redescribedArtifact (Stub.oneArtifact, []))))
      = [servicecatalog.UpdateProvisioningArtifact
           {| servicecatalog.AcceptLanguage := Some "en";
              servicecatalog.Active := Some true;
              servicecatalog.Description := Some "second version";
              servicecatalog.Guidance := Some "DEFAULT";
              servicecatalog.Name := Some "v1";
              servicecatalog.ProductId := Some "prod-1";
              servicecatalog.ProvisioningArtifactId := Some "pa-1" |}]).
Proof. repeat split; vm_compute; reflexivity. Qed.

(** The retry loop of the test double reaches the remote service only
    through the attempt. *)
Lemma stub_retry_invariant {S : Type} (P : S -> Prop) (f : M S (option resource.RetryError)) :
  (forall s, P s -> P (snd (f s))) ->
  forall (attempts : nat) (resultErr : option error) (s : S),
    P s -> P (snd (Stub.retry attempts f resultErr s)).
Proof.
  intros Hf attempts. induction attempts as [|n IH]; intros resultErr s Hs.
  - exact Hs.
  - cbn [Stub.retry]. unfold bind. specialize (Hf s Hs).
    destruct (f s) as [[r|] s1]; cbn [snd] in Hf |- *; [|exact Hf].
    destruct (resource.Retryable r); [apply IH; exact Hf | exact Hf].
Qed.

Lemma stub_retry_runs_only_attempt : retryRunsOnlyAttempt Stub.catalogMeta.
Proof.
  intros P timeout f Hf s Hs. apply (stub_retry_invariant P f Hf). exact Hs.
Qed.

Lemma update_sends_witness :
  filter servicecatalog.isUpdate
    (calls (snd (servicecatalog.resourceProvisioningArtifactUpdate Stub.catalogMeta
                   (Stub.data "pa-1:prod-1" (Stub.artifactAttrs "first version")
                      (Stub.artifactAttrs "first version") false 1)
                   (Stub.oneArtifact, []))))
  = filter servicecatalog.isUpdate []
  /\ exists n rest,
       calls (snd (servicecatalog.resourceProvisioningArtifactUpdate Stub.catalogMeta
                     redescribedArtifact (Stub.oneArtifact, [])))
       = [] ++ repeat (servicecatalog.UpdateProvisioningArtifact
                         (servicecatalog.updateInput redescribedArtifact "pa-1" "prod-1")) n
            ++ rest
       /\ filter servicecatalog.isUpdate rest = [].
Proof.
  split.
  - refine (proj1 (update_sends Stub.apigatewayMeta Stub.catalogMeta
                     (Stub.data "pa-1:prod-1" (Stub.artifactAttrs "first version")
                        (Stub.artifactAttrs "first version") false 1)
                     "pa-1" "prod-1" (tt, []) (Stub.oneArtifact, [])) _).
    reflexivity.
  - refine (proj2 (proj2
              (proj2 (proj2 (proj2 (proj2 (proj2 (proj2 (proj2
                 (update_sends Stub.apigatewayMeta Stub.catalogMeta redescribedArtifact
                    "pa-1" "prod-1" (tt, []) (Stub.oneArtifact, []))))))))
                 _ _))
              stub_retry_runs_only_attempt).
    + reflexivity.
    + reflexivity.
Defined.

(* ===================================================================== *)
(** * Further properties of the three resources *)
(* ===================================================================== *)

(** ** The association: what create and delete never do *)

Section AssociationOrder.
Context {W : Type} (meta : ec2.Provider W).

Abbreviation vpcEndpointID_of d := (schema.GetString d "vpc_endpoint_id").
Abbreviation securityGroupID_of d := (schema.GetString d "security_group_id").
Abbreviation replaceDefault_of d := (schema.GetBool d "replace_default_association").

(** The guarded block of create, or nothing when no replacement is
    requested: as create runs it. *)
Definition checkDefault (d : schema.ResourceData)
  : M (Remote W ec2.Call) (diag.Diagnostics + string) :=
  if replaceDefault_of d
  then ec2.findDefaultAssociation meta [] (vpcEndpointID_of d) (securityGroupID_of d)
  else ret (inr "").

Lemma checkDefault_reads (d : schema.ResourceData) (s : Remote W ec2.Call) :
  exists finders,
    calls (snd (checkDefault d s)) = calls s ++ finders
    /\ ec2.mutations finders = []
    /\ (replaceDefault_of d = false -> finders = [] /\ checkDefault d s = (inr "", s)).
Proof.
  unfold checkDefault. destruct (replaceDefault_of d).
  - destruct s as [w tr].
    destruct (findDefaultAssociation_reads meta [] (vpcEndpointID_of d) (securityGroupID_of d) w tr)
      as (finders & Hcalls & Hmut).
    exists finders. split; [exact Hcalls|]. split; [exact Hmut|]. discriminate.
  - exists []. split; [cbn; now rewrite app_nil_r|]. split; [reflexivity|].
    intros _. split; reflexivity.
Qed.

(** Create after its check, whatever was requested. *)
Lemma create_from_check (d : schema.ResourceData) (s : Remote W ec2.Call) :
  ec2.resourceVPCEndpointSecurityGroupAssociationCreate meta d s
  = (let (checked, s1) := checkDefault d s in
     match checked with
     | inl diags => ((d, diags), s1)
     | inr defaultSecurityGroupID =>
         let (added, s2) :=
           ec2.createVPCEndpointSecurityGroupAssociation meta
             (vpcEndpointID_of d) (securityGroupID_of d) s1 in
         match added with
         | Some _ => ((d, sdkdiag.AppendFromErr [] added), s2)
         | None =>
             let d' := schema.SetId d (ec2.VPCEndpointSecurityGroupAssociationCreateID meta
                                         (vpcEndpointID_of d) (securityGroupID_of d)) in
             let (removed, s3) :=
               (if replaceDefault_of d
                then ec2.deleteVPCEndpointSecurityGroupAssociation meta
                       (vpcEndpointID_of d) defaultSecurityGroupID
                else ret None) s2 in
             match removed with
             | Some _ => ((d', sdkdiag.AppendFromErr [] removed), s3)
             | None =>
                 let (r, s4) := ec2.resourceVPCEndpointSecurityGroupAssociationRead meta d' s3 in
                 ((fst r, snd r), s4)
             end
         end
     end).
Proof.
  unfold ec2.resourceVPCEndpointSecurityGroupAssociationCreate, checkDefault.
  destruct (replaceDefault_of d); unfold bind at 1.
  - destruct (ec2.findDefaultAssociation meta [] _ _ s) as [[diags|g] s1]; [reflexivity|].
    unfold bind at 1.
    destruct (ec2.createVPCEndpointSecurityGroupAssociation meta _ _ s1) as [[e|] s2];
      [reflexivity|].
    unfold bind at 1.
    destruct (ec2.deleteVPCEndpointSecurityGroupAssociation meta _ g s2) as [[e|] s3];
      [reflexivity|].
    unfold bind at 1.
    destruct (ec2.resourceVPCEndpointSecurityGroupAssociationRead meta _ s3) as [r s4].
    reflexivity.
  - rewrite ret_run. unfold bind at 1.
    destruct (ec2.createVPCEndpointSecurityGroupAssociation meta _ _ s) as [[e|] s2];
      [reflexivity|].
    unfold bind at 1. rewrite ret_run. unfold bind at 1.
    destruct (ec2.resourceVPCEndpointSecurityGroupAssociationRead meta _ s2) as [r s4].
    reflexivity.
Qed.

Lemma create_association_calls (vpcEndpointID securityGroupID : string)
    (s : Remote W ec2.Call) :
  calls (snd (ec2.createVPCEndpointSecurityGroupAssociation meta vpcEndpointID securityGroupID s))
  = calls s ++ [ec2.ModifyVpcEndpoint (addRequest vpcEndpointID securityGroupID)].
Proof.
  destruct s as [w tr].
  destruct (ec2.ModifyVpcEndpointWithContext meta
              (addRequest vpcEndpointID securityGroupID) w) as [err w'] eqn:H.
  rewrite (create_association_run meta _ _ _ _ _ _ H). reflexivity.
Qed.

Lemma delete_association_calls (vpcEndpointID securityGroupID : string)
    (s : Remote W ec2.Call) :
  calls (snd (ec2.deleteVPCEndpointSecurityGroupAssociation meta vpcEndpointID securityGroupID s))
  = calls s ++ [ec2.ModifyVpcEndpoint (removeRequest vpcEndpointID securityGroupID)].
Proof.
  destruct s as [w tr].
  destruct (ec2.ModifyVpcEndpointWithContext meta
              (removeRequest vpcEndpointID securityGroupID) w) as [err w'] eqn:H.
  rewrite (delete_association_run meta _ _ _ _ _ _ H). reflexivity.
Qed.

Lemma association_read_calls (d : schema.ResourceData) (s : Remote W ec2.Call) :
  calls (snd (ec2.resourceVPCEndpointSecurityGroupAssociationRead meta d s))
  = calls s ++ [ec2.FindAssociationExists (vpcEndpointID_of d) (securityGroupID_of d)].
Proof. destruct s as [w tr]. apply read_calls. Qed.

(** X1: whatever the remote answers, the mutations create issues are none,
    or the addition of the requested group alone, or that addition followed
    by one removal (and the latter only with the replacement requested):
    create never removes before it has added, and never mutates a third
    time.  Without the replacement it issues no lookup of the endpoint or of
    the default group. *)
Theorem create_mutations_add_first (d : schema.ResourceData) (s : Remote W ec2.Call) :
  exists new,
    calls (snd (ec2.resourceVPCEndpointSecurityGroupAssociationCreate meta d s)) = calls s ++ new
    /\ (ec2.mutations new = []
        \/ ec2.mutations new
           = [ec2.ModifyVpcEndpoint (addRequest (vpcEndpointID_of d) (securityGroupID_of d))]
        \/ (replaceDefault_of d = true
            /\ exists g,
                ec2.mutations new
                = [ec2.ModifyVpcEndpoint (addRequest (vpcEndpointID_of d) (securityGroupID_of d));
                   ec2.ModifyVpcEndpoint (removeRequest (vpcEndpointID_of d) g)]))
    /\ (replaceDefault_of d = false ->
        new = [ec2.ModifyVpcEndpoint (addRequest (vpcEndpointID_of d) (securityGroupID_of d))]
        \/ new = [ec2.ModifyVpcEndpoint (addRequest (vpcEndpointID_of d) (securityGroupID_of d));
                  ec2.FindAssociationExists (vpcEndpointID_of d) (securityGroupID_of d)]).
Proof.
  rewrite create_from_check.
  destruct (checkDefault_reads d s) as (finders & Hcheck & Hfinders & Hplain).
  destruct (checkDefault d s) as [[diags|g] s1] eqn:Hc; cbn [snd] in Hcheck.
  { exists finders. split; [exact Hcheck|]. split; [now left|].
    intros Hno. destruct (Hplain Hno) as [_ Habs]. discriminate Habs. }
  pose proof (create_association_calls (vpcEndpointID_of d) (securityGroupID_of d) s1) as Hadd.
  destruct (ec2.createVPCEndpointSecurityGroupAssociation meta _ _ s1) as [[e|] s2];
    cbn [snd] in Hadd.
  { exists (finders ++ [ec2.ModifyVpcEndpoint
                          (addRequest (vpcEndpointID_of d) (securityGroupID_of d))]).
    split; [cbn [snd]; rewrite Hadd, Hcheck; now rewrite app_assoc|].
    split.
    - right. left. rewrite mutations_app, Hfinders. reflexivity.
    - intros Hno. destruct (Hplain Hno) as [Hnil _]. subst finders. now left. }
  destruct (replaceDefault_of d) eqn:Hreplace; cbv zeta iota.
  - pose proof (delete_association_calls (vpcEndpointID_of d) g s2) as Hdel.
    destruct (ec2.deleteVPCEndpointSecurityGroupAssociation meta _ g s2) as [[e|] s3];
      cbn [snd] in Hdel.
    + exists (finders
              ++ [ec2.ModifyVpcEndpoint (addRequest (vpcEndpointID_of d) (securityGroupID_of d));
                  ec2.ModifyVpcEndpoint (removeRequest (vpcEndpointID_of d) g)]).
      split; [cbn [snd]; rewrite Hdel, Hadd, Hcheck; now rewrite <- !app_assoc|].
      split; [|discriminate].
      right. right. split; [reflexivity|]. exists g.
      rewrite mutations_app, Hfinders. reflexivity.
    + pose proof (association_read_calls
                    (schema.SetId d (ec2.VPCEndpointSecurityGroupAssociationCreateID meta
                                       (vpcEndpointID_of d) (securityGroupID_of d))) s3) as Hread.
      destruct (ec2.resourceVPCEndpointSecurityGroupAssociationRead meta _ s3) as [r s4].
      cbn [snd] in Hread |- *.
      exists (finders
              ++ [ec2.ModifyVpcEndpoint (addRequest (vpcEndpointID_of d) (securityGroupID_of d));
                  ec2.ModifyVpcEndpoint (removeRequest (vpcEndpointID_of d) g);
                  ec2.FindAssociationExists (vpcEndpointID_of d) (securityGroupID_of d)]).
      split; [rewrite Hread, Hdel, Hadd, Hcheck; now rewrite <- !app_assoc|].
      split; [|discriminate].
      right. right. split; [reflexivity|]. exists g.
      rewrite mutations_app, Hfinders. reflexivity.
  - destruct (Hplain eq_refl) as [Hnil _]. subst finders.
    rewrite app_nil_r in Hcheck. rewrite ret_run.
    pose proof (association_read_calls
                  (schema.SetId d (ec2.VPCEndpointSecurityGroupAssociationCreateID meta
                                     (vpcEndpointID_of d) (securityGroupID_of d))) s2) as Hread.
    destruct (ec2.resourceVPCEndpointSecurityGroupAssociationRead meta _ s2) as [r s4].
    cbn [snd] in Hread |- *.
    exists [ec2.ModifyVpcEndpoint (addRequest (vpcEndpointID_of d) (securityGroupID_of d));
            ec2.FindAssociationExists (vpcEndpointID_of d) (securityGroupID_of d)].
    split; [rewrite Hread, Hadd, Hcheck; now rewrite <- !app_assoc|].
    split; [right; left; reflexivity | intros _; now right].
Qed.

(** X2: when the guarded block lets create go on and the remote refuses
    the addition, create reports the wrapped error, sets no identifier and
    stops: no removal follows, so the default group stays associated. *)
Theorem create_failed_addition_stops (d : schema.ResourceData) (s s1 : Remote W ec2.Call)
    (g : string) (e : error) (w2 : W) :
  checkDefault d s = (inr g, s1) ->
  ec2.ModifyVpcEndpointWithContext meta
    (addRequest (vpcEndpointID_of d) (securityGroupID_of d)) (world s1) = (Some e, w2) ->
  ec2.resourceVPCEndpointSecurityGroupAssociationCreate meta d s
  = ((d, [diag.FromErr (creatingError (vpcEndpointID_of d) (securityGroupID_of d) e)]),
     (w2, calls s1
          ++ [ec2.ModifyVpcEndpoint (addRequest (vpcEndpointID_of d) (securityGroupID_of d))])).
Proof.
  intros Hcheck Hadd. rewrite create_from_check, Hcheck.
  destruct s1 as [w1 tr1]. cbn [world fst] in Hadd.
  rewrite (create_association_run meta _ _ _ _ _ _ Hadd). reflexivity.
Qed.

(** The diagnostics of the guarded block are never empty. *)
Lemma checkDefault_diagnostics (d : schema.ResourceData) (s s1 : Remote W ec2.Call)
    (diags : diag.Diagnostics) :
  checkDefault d s = (inl diags, s1) -> diags <> [].
Proof.
  unfold checkDefault. destruct (replaceDefault_of d); [|discriminate].
  destruct s as [w tr]. unfold ec2.findDefaultAssociation.
  destruct (ec2.FindVPCEndpointByID meta (vpcEndpointID_of d) w)
    as [[vpcEndpoint | err] w1] eqn:H1; run_call H1.
  2:{ intros H. inversion H. discriminate. }
  destruct (ec2.FindVPCDefaultSecurityGroup meta (aws.StringValue (ec2.VpcId vpcEndpoint)) w1)
    as [[defaultSecurityGroup | err] w2] eqn:H2; run_call H2.
  2:{ intros H. inversion H. discriminate. }
  destruct (String.eqb _ (securityGroupID_of d)).
  { intros H. inversion H. discriminate. }
  destruct (negb _); intros H; inversion H. discriminate.
Qed.

(** Read leaves a new resource as it is. *)
Lemma association_read_new (d : schema.ResourceData) (s : Remote W ec2.Call) :
  schema.IsNewResource d = true ->
  fst (fst (ec2.resourceVPCEndpointSecurityGroupAssociationRead meta d s)) = d.
Proof.
  intros Hnew. destruct s as [w tr].
  unfold ec2.resourceVPCEndpointSecurityGroupAssociationRead.
  destruct (ec2.FindVPCEndpointSecurityGroupAssociationExists meta
              (vpcEndpointID_of d) (securityGroupID_of d) w) as [err w'] eqn:H.
  run_call H. rewrite Hnew. cbn [negb andb].
  destruct err; reflexivity.
Qed.

(** X3: for a new resource, as create receives it, create either returns
    the data with the new identifier set, or returns the data untouched
    together with at least one diagnostic: it never ends without an
    identifier and without an error. *)
Theorem create_returns_identifier_or_fails (d : schema.ResourceData)
    (s : Remote W ec2.Call) :
  schema.IsNewResource d = true ->
  fst (fst (ec2.resourceVPCEndpointSecurityGroupAssociationCreate meta d s))
  = schema.SetId d (ec2.VPCEndpointSecurityGroupAssociationCreateID meta
                      (vpcEndpointID_of d) (securityGroupID_of d))
  \/ (fst (fst (ec2.resourceVPCEndpointSecurityGroupAssociationCreate meta d s)) = d
      /\ snd (fst (ec2.resourceVPCEndpointSecurityGroupAssociationCreate meta d s)) <> []).
Proof.
  intros Hnew. rewrite create_from_check.
  destruct (checkDefault d s) as [[diags|g] s1] eqn:Hc.
  { right. split; [reflexivity|]. cbn [fst snd].
    exact (checkDefault_diagnostics d s s1 diags Hc). }
  destruct (ec2.createVPCEndpointSecurityGroupAssociation meta _ _ s1) as [[e|] s2].
  { right. split; [reflexivity | discriminate]. }
  cbv zeta.
  destruct ((if replaceDefault_of d
             then ec2.deleteVPCEndpointSecurityGroupAssociation meta (vpcEndpointID_of d) g
             else ret None) s2) as [[e|] s3].
  { left. reflexivity. }
  pose proof (association_read_new
                (schema.SetId d (ec2.VPCEndpointSecurityGroupAssociationCreateID meta
                                   (vpcEndpointID_of d) (securityGroupID_of d))) s3 Hnew) as Hread.
  destruct (ec2.resourceVPCEndpointSecurityGroupAssociationRead meta _ s3) as [r s4].
  left. exact Hread.
Qed.

(** The guarded block of delete issues lookups and at most the one
    addition, and it passes only after that addition. *)
Lemma restoreDefaultAssociation_calls (vpcEndpointID : string) (s : Remote W ec2.Call) :
  exists new,
    calls (snd (ec2.restoreDefaultAssociation meta [] vpcEndpointID s)) = calls s ++ new
    /\ (ec2.mutations new = []
        /\ fst (ec2.restoreDefaultAssociation meta [] vpcEndpointID s) <> None
        \/ exists g, ec2.mutations new = [ec2.ModifyVpcEndpoint (addRequest vpcEndpointID g)]).
Proof.
  destruct s as [w tr]. unfold ec2.restoreDefaultAssociation.
  destruct (ec2.FindVPCEndpointByID meta vpcEndpointID w)
    as [[vpcEndpoint | err] w1] eqn:H1; run_call H1.
  2:{ exists [ec2.FindVPCEndpoint vpcEndpointID]. split; [reflexivity|].
      left. split; [reflexivity | discriminate]. }
  destruct (ec2.FindVPCDefaultSecurityGroup meta (aws.StringValue (ec2.VpcId vpcEndpoint)) w1)
    as [[defaultSecurityGroup | err] w2] eqn:H2; run_call H2.
  2:{ exists [ec2.FindVPCEndpoint vpcEndpointID;
              ec2.FindDefaultSecurityGroup (aws.StringValue (ec2.VpcId vpcEndpoint))].
      split; [cbn [snd calls ret]; now rewrite <- app_assoc|].
      left. split; [reflexivity | discriminate]. }
  destruct (ec2.ModifyVpcEndpointWithContext meta
              (addRequest vpcEndpointID (aws.StringValue (ec2.sg_GroupId defaultSecurityGroup)))
              w2) as [restore w3] eqn:H3.
  rewrite (bind_run _ (create_association_run meta _ _ _ _ _ _ H3)).
  exists [ec2.FindVPCEndpoint vpcEndpointID;
          ec2.FindDefaultSecurityGroup (aws.StringValue (ec2.VpcId vpcEndpoint));
          ec2.ModifyVpcEndpoint
            (addRequest vpcEndpointID (aws.StringValue (ec2.sg_GroupId defaultSecurityGroup)))].
  split.
  - destruct restore; cbn [option_map snd calls ret]; now rewrite <- !app_assoc.
  - right. exists (aws.StringValue (ec2.sg_GroupId defaultSecurityGroup)). reflexivity.
Qed.

(** X4: delete never changes the resource data.  Without the replacement it
    issues exactly one call, the removal of the managed group.  With the
    replacement its mutations are none, or the addition of a default group
    alone, or that addition followed by the removal of the managed group:
    it never removes the managed group before the default group is back. *)
Theorem delete_mutations_restore_first (d : schema.ResourceData) (s : Remote W ec2.Call) :
  fst (fst (ec2.resourceVPCEndpointSecurityGroupAssociationDelete meta d s)) = d
  /\ exists new,
       calls (snd (ec2.resourceVPCEndpointSecurityGroupAssociationDelete meta d s))
       = calls s ++ new
       /\ (replaceDefault_of d = false ->
           new = [ec2.ModifyVpcEndpoint
                    (removeRequest (vpcEndpointID_of d) (securityGroupID_of d))])
       /\ (replaceDefault_of d = true ->
           ec2.mutations new = []
           \/ exists g,
               ec2.mutations new = [ec2.ModifyVpcEndpoint (addRequest (vpcEndpointID_of d) g)]
               \/ ec2.mutations new
                  = [ec2.ModifyVpcEndpoint (addRequest (vpcEndpointID_of d) g);
                     ec2.ModifyVpcEndpoint
                       (removeRequest (vpcEndpointID_of d) (securityGroupID_of d))]).
Proof.
  unfold ec2.resourceVPCEndpointSecurityGroupAssociationDelete.
  destruct (replaceDefault_of d); unfold bind at 1; unfold bind at 2.
  - destruct (restoreDefaultAssociation_calls (vpcEndpointID_of d) s)
      as (restored & Hcalls & Hrestored).
    destruct (ec2.restoreDefaultAssociation meta [] (vpcEndpointID_of d) s)
      as [[diags|] s1]; cbn [fst snd] in Hcalls, Hrestored.
    + split; [reflexivity|]. exists restored. split; [exact Hcalls|].
      split; [discriminate|]. intros _.
      destruct Hrestored as [[Hnone _] | (g & Hadd)]; [now left|].
      right. exists g. now left.
    + pose proof (delete_association_calls (vpcEndpointID_of d) (securityGroupID_of d) s1)
        as Hdel.
      unfold bind.
      destruct (ec2.deleteVPCEndpointSecurityGroupAssociation meta _ _ s1) as [err s2].
      cbn [snd] in Hdel.
      assert (Hnew : calls s2
                     = calls s ++ restored
                       ++ [ec2.ModifyVpcEndpoint
                             (removeRequest (vpcEndpointID_of d) (securityGroupID_of d))]).
      { rewrite Hdel, Hcalls. now rewrite <- app_assoc. }
      destruct Hrestored as [[_ Habs] | (g & Hadd)]; [now contradiction Habs|].
      destruct err; (split; [reflexivity|]);
        exists (restored
                ++ [ec2.ModifyVpcEndpoint
                      (removeRequest (vpcEndpointID_of d) (securityGroupID_of d))]);
        (split; [exact Hnew|]); (split; [discriminate|]); intros _;
        right; exists g; right; rewrite mutations_app, Hadd; reflexivity.
  - rewrite ret_run.
    pose proof (delete_association_calls (vpcEndpointID_of d) (securityGroupID_of d) s) as Hdel.
    unfold bind.
    destruct (ec2.deleteVPCEndpointSecurityGroupAssociation meta _ _ s) as [err s2].
    cbn [snd] in Hdel.
    destruct err; (split; [reflexivity|]);
      exists [ec2.ModifyVpcEndpoint
                (removeRequest (vpcEndpointID_of d) (securityGroupID_of d))];
      (split; [exact Hdel|]); (split; [reflexivity | discriminate]).
Qed.

End AssociationOrder.

Lemma create_failed_addition_stops_witness :
  ec2.resourceVPCEndpointSecurityGroupAssociationCreate Stub.ec2Meta
    (Stub.association "sg-2" true)
    ({| Stub.associated := ["sg-default"];
        Stub.removalError := None;
        Stub.additionError := Some Stub.unauthorized |}, [])
  = ((Stub.association "sg-2" true,
      [diag.FromErr (creatingError "vpce-1" "sg-2" Stub.unauthorized)]),
     ({| Stub.associated := ["sg-default"];
         Stub.removalError := None;
         Stub.additionError := Some Stub.unauthorized |},
      [ec2.FindVPCEndpoint "vpce-1";
       ec2.FindDefaultSecurityGroup "vpc-1";
       ec2.ModifyVpcEndpoint (addRequest "vpce-1" "sg-2")])).
Proof.
  exact (create_failed_addition_stops Stub.ec2Meta (Stub.association "sg-2" true)
           ({| Stub.associated := ["sg-default"];
               Stub.removalError := None;
               Stub.additionError := Some Stub.unauthorized |}, [])
           ({| Stub.associated := ["sg-default"];
               Stub.removalError := None;
               Stub.additionError := Some Stub.unauthorized |},
            [ec2.FindVPCEndpoint "vpce-1"; ec2.FindDefaultSecurityGroup "vpc-1"])
           "sg-default" Stub.unauthorized
           {| Stub.associated := ["sg-default"];
              Stub.removalError := None;
              Stub.additionError := Some Stub.unauthorized |}
           eq_refl eq_refl).
Defined.

Lemma create_returns_identifier_or_fails_witness :
  fst (fst (ec2.resourceVPCEndpointSecurityGroupAssociationCreate Stub.ec2Meta
              (Stub.association "sg-2" true) (Stub.fresh, [])))
  = schema.SetId (Stub.association "sg-2" true) "vpce-1/sg-2"
  \/ (fst (fst (ec2.resourceVPCEndpointSecurityGroupAssociationCreate Stub.ec2Meta
                  (Stub.association "sg-2" true) (Stub.fresh, [])))
      = Stub.association "sg-2" true
      /\ snd (fst (ec2.resourceVPCEndpointSecurityGroupAssociationCreate Stub.ec2Meta
                     (Stub.association "sg-2" true) (Stub.fresh, []))) <> []).
Proof.
  exact (create_returns_identifier_or_fails Stub.ec2Meta (Stub.association "sg-2" true)
           (Stub.fresh, []) eq_refl).
Defined.

(** ** The three reads *)

(** [d'] is [d] but for the planned values of the attributes [keys] and for
    an identifier that may have been cleared. *)
Definition sameExcept (keys : list string) (d d' : schema.ResourceData) : Prop :=
  schema.old d' = schema.old d
  /\ schema.newResource d' = schema.newResource d
  /\ schema.timeouts d' = schema.timeouts d
  /\ (forall key, ~ In key keys -> schema.new d' key = schema.new d key)
  /\ (schema.Id d' = schema.Id d \/ schema.Id d' = "").

Lemma sameExcept_refl (keys : list string) (d : schema.ResourceData) : sameExcept keys d d.
Proof. repeat split. now left. Qed.

Lemma sameExcept_cleared (keys : list string) (d d' : schema.ResourceData) :
  sameExcept keys d d' -> sameExcept keys d (schema.SetId d' "").
Proof.
  intros (Hold & Hnew & Htime & Hattrs & _). repeat split; try assumption. now right.
Qed.

Lemma sameExcept_Set (keys : list string) (d d' : schema.ResourceData)
    (key : string) (v : option schema.value) :
  In key keys -> sameExcept keys d d' -> sameExcept keys d (schema.Set_ d' key v).
Proof.
  intros Hin (Hold & Hnew & Htime & Hattrs & Hid). repeat split; try assumption.
  intros k Hk. cbn [schema.Set_ schema.new].
  destruct (String.eqb_spec k key) as [->|_]; [contradiction | now apply Hattrs].
Qed.

Definition artifactAttributes : list string :=
  ["template_physical_id"; "template_url"; "active"; "created_time"; "description";
   "guidance"; "name"; "product_id"; "type"].

Section Reads.
Context {W : Type} (net : ec2.Provider W).
Context {V : Type} (gateway : apigateway.Provider V).
Context {U : Type} (catalog : servicecatalog.Provider U).

(** The read call of the provisioning artifact, when its identifier
    parses. *)
Definition artifactReadCalls (d : schema.ResourceData) : list servicecatalog.Call :=
  match servicecatalog.ProvisioningArtifactParseID catalog (schema.Id d) with
  | (_, _, Some _) => []
  | (artifactID, productID, None) =>
      [servicecatalog.WaitReady artifactID productID (schema.Timeout d schema.TimeoutRead)]
  end.

(** X5: each of the three reads issues its one read call and nothing else
    (the artifact's read none when the identifier does not parse): a read
    never creates, updates or deletes. *)
Theorem reads_only_read (d : schema.ResourceData)
    (s : Remote W ec2.Call) (t : Remote V apigateway.Call) (u : Remote U servicecatalog.Call) :
  calls (snd (ec2.resourceVPCEndpointSecurityGroupAssociationRead net d s))
  = calls s ++ [ec2.FindAssociationExists (schema.GetString d "vpc_endpoint_id")
                  (schema.GetString d "security_group_id")]
  /\ calls (snd (apigateway.resourceMethodResponseRead gateway d t))
     = calls t ++ [apigateway.GetMethodResponse (apigateway.methodResponseKey d)]
  /\ calls (snd (servicecatalog.resourceProvisioningArtifactRead catalog d u))
     = calls u ++ artifactReadCalls d.
Proof.
  split; [apply association_read_calls|]. split; [apply method_response_read_calls|].
  destruct u as [w tr]. unfold servicecatalog.resourceProvisioningArtifactRead, artifactReadCalls.
  destruct (servicecatalog.ProvisioningArtifactParseID catalog (schema.Id d))
    as [[artifactID productID] [e|]].
  { cbn. now rewrite app_nil_r. }
  destruct (servicecatalog.WaitProvisioningArtifactReady catalog artifactID productID
              (schema.Timeout d schema.TimeoutRead) w) as [r w'] eqn:H.
  run_call H.
  destruct (negb (schema.IsNewResource d) && _); [reflexivity|].
  destruct (snd r); [reflexivity|].
  destruct (servicecatalog.outputDetail (fst r)) as [[o pad]|]; reflexivity.
Qed.

(** X6: a read changes the resource data only where it is meant to: the
    association's read nothing but the identifier, the method response's
    read the two response attributes, the artifact's read its nine
    attributes; the prior state, the new-resource mark and the timeouts
    stay, and the identifier is kept or cleared. *)
Theorem reads_write_their_attributes_only (d : schema.ResourceData)
    (s : Remote W ec2.Call) (t : Remote V apigateway.Call) (u : Remote U servicecatalog.Call) :
  sameExcept [] d (fst (fst (ec2.resourceVPCEndpointSecurityGroupAssociationRead net d s)))
  /\ sameExcept ["response_models"; "response_parameters"] d
       (fst (fst (apigateway.resourceMethodResponseRead gateway d t)))
  /\ sameExcept artifactAttributes d
       (fst (fst (servicecatalog.resourceProvisioningArtifactRead catalog d u))).
Proof.
  split; [|split].
  - destruct s as [w tr]. unfold ec2.resourceVPCEndpointSecurityGroupAssociationRead.
    destruct (ec2.FindVPCEndpointSecurityGroupAssociationExists net
                (schema.GetString d "vpc_endpoint_id") (schema.GetString d "security_group_id") w)
      as [err w'] eqn:H.
    run_call H.
    destruct (negb (schema.IsNewResource d) && ec2.NotFound net err).
    + apply sameExcept_cleared, sameExcept_refl.
    + destruct err; apply sameExcept_refl.
  - destruct t as [w tr]. unfold apigateway.resourceMethodResponseRead.
    destruct (apigateway.GetMethodResponseWithContext (apigateway.APIGatewayConn gateway)
                (apigateway.methodResponseKey d) w) as [r w'] eqn:H.
    run_call H.
    destruct (snd r) as [err|].
    + destruct (negb (schema.IsNewResource d) && _).
      * apply sameExcept_cleared, sameExcept_refl.
      * apply sameExcept_refl.
    + cbn [fst ret].
      apply sameExcept_Set; [simpl; tauto|].
      apply sameExcept_Set; [simpl; tauto|].
      apply sameExcept_refl.
  - destruct u as [w tr]. unfold servicecatalog.resourceProvisioningArtifactRead.
    destruct (servicecatalog.ProvisioningArtifactParseID catalog (schema.Id d))
      as [[artifactID productID] [e|]].
    { apply sameExcept_refl. }
    destruct (servicecatalog.WaitProvisioningArtifactReady catalog artifactID productID
                (schema.Timeout d schema.TimeoutRead) w) as [r w'] eqn:H.
    run_call H.
    destruct (negb (schema.IsNewResource d) && _).
    { apply sameExcept_cleared, sameExcept_refl. }
    destruct (snd r); [apply sameExcept_refl|].
    destruct (servicecatalog.outputDetail (fst r)) as [[o pad]|]; [|apply sameExcept_refl].
    cbn [fst ret].
    repeat (apply sameExcept_Set; [unfold artifactAttributes; simpl; tauto|]).
    destruct (servicecatalog.CreatedTime pad);
      repeat (apply sameExcept_Set; [unfold artifactAttributes; simpl; tauto|]);
      destruct (servicecatalog.lookup (servicecatalog.Info o) "LoadTemplateFromURL");
      repeat (apply sameExcept_Set; [unfold artifactAttributes; simpl; tauto|]);
      destruct (servicecatalog.lookup (servicecatalog.Info o) "ImportFromPhysicalId");
      repeat (apply sameExcept_Set; [unfold artifactAttributes; simpl; tauto|]);
      apply sameExcept_refl.
Qed.

(** X7: a read never clears the identifier of a new resource, whatever the
    remote answers: a resource that was just created is not dropped from the
    state because it is not visible yet. *)
Theorem read_keeps_new_resource (d : schema.ResourceData)
    (s : Remote W ec2.Call) (t : Remote V apigateway.Call) (u : Remote U servicecatalog.Call) :
  schema.IsNewResource d = true ->
  schema.Id (fst (fst (ec2.resourceVPCEndpointSecurityGroupAssociationRead net d s)))
  = schema.Id d
  /\ schema.Id (fst (fst (apigateway.resourceMethodResponseRead gateway d t))) = schema.Id d
  /\ schema.Id (fst (fst (servicecatalog.resourceProvisioningArtifactRead catalog d u)))
     = schema.Id d.
Proof.
  intros Hnew. split; [|split].
  - now rewrite association_read_new.
  - destruct t as [w tr]. unfold apigateway.resourceMethodResponseRead.
    destruct (apigateway.GetMethodResponseWithContext (apigateway.APIGatewayConn gateway)
                (apigateway.methodResponseKey d) w) as [r w'] eqn:H.
    run_call H. rewrite Hnew. cbn [negb andb].
    destruct (snd r); reflexivity.
  - destruct u as [w tr]. unfold servicecatalog.resourceProvisioningArtifactRead.
    destruct (servicecatalog.ProvisioningArtifactParseID catalog (schema.Id d))
      as [[artifactID productID] [e|]]; [reflexivity|].
    destruct (servicecatalog.WaitProvisioningArtifactReady catalog artifactID productID
                (schema.Timeout d schema.TimeoutRead) w) as [r w'] eqn:H.
    run_call H. rewrite Hnew. cbn [negb andb].
    destruct (snd r); [reflexivity|].
    destruct (servicecatalog.outputDetail (fst r)) as [[o pad]|]; [|reflexivity].
    cbn [fst ret].
    destruct (servicecatalog.CreatedTime pad),
             (servicecatalog.lookup (servicecatalog.Info o) "LoadTemplateFromURL"),
             (servicecatalog.lookup (servicecatalog.Info o) "ImportFromPhysicalId");
      reflexivity.
Qed.

(** X8: for a resource that is not new, a read whose remote call answers
    not-found clears the identifier and reports nothing, so that the
    resource is dropped from the state instead of failing the refresh. *)
Theorem read_forgets_missing_resource (d : schema.ResourceData)
    (artifactID productID : string)
    (s : Remote W ec2.Call) (t : Remote V apigateway.Call) (u : Remote U servicecatalog.Call) :
  schema.IsNewResource d = false ->
  (ec2.NotFound net
     (fst (ec2.FindVPCEndpointSecurityGroupAssociationExists net
             (schema.GetString d "vpc_endpoint_id") (schema.GetString d "security_group_id")
             (world s))) = true ->
   fst (ec2.resourceVPCEndpointSecurityGroupAssociationRead net d s) = (schema.SetId d "", []))
  /\
  (tfawserr.ErrCodeEquals
     (snd (fst (apigateway.GetMethodResponseWithContext (apigateway.APIGatewayConn gateway)
                  (apigateway.methodResponseKey d) (world t))))
     [apigateway.ErrCodeNotFoundException] = true ->
   fst (apigateway.resourceMethodResponseRead gateway d t) = (schema.SetId d "", []))
  /\
  (servicecatalog.ProvisioningArtifactParseID catalog (schema.Id d)
   = (artifactID, productID, None) ->
   tfawserr.ErrCodeEquals
     (snd (fst (servicecatalog.WaitProvisioningArtifactReady catalog artifactID productID
                  (schema.Timeout d schema.TimeoutRead) (world u))))
     [servicecatalog.ErrCodeResourceNotFoundException] = true ->
   fst (servicecatalog.resourceProvisioningArtifactRead catalog d u) = (schema.SetId d "", [])).
Proof.
  intros Hold. split; [|split].
  - destruct s as [w tr]. cbn [world fst]. intros Hmissing.
    unfold ec2.resourceVPCEndpointSecurityGroupAssociationRead.
    destruct (ec2.FindVPCEndpointSecurityGroupAssociationExists net
                (schema.GetString d "vpc_endpoint_id") (schema.GetString d "security_group_id") w)
      as [err w'] eqn:H.
    run_call H. cbn [fst] in Hmissing. rewrite Hold, Hmissing. reflexivity.
  - destruct t as [w tr]. cbn [world fst]. intros Hmissing.
    unfold apigateway.resourceMethodResponseRead.
    destruct (apigateway.GetMethodResponseWithContext (apigateway.APIGatewayConn gateway)
                (apigateway.methodResponseKey d) w) as [r w'] eqn:H.
    run_call H. cbn [fst] in Hmissing.
    destruct (snd r) as [err|]; [|discriminate Hmissing].
    rewrite Hold, Hmissing. reflexivity.
  - destruct u as [w tr]. cbn [world fst]. intros Hparse Hmissing.
    unfold servicecatalog.resourceProvisioningArtifactRead. rewrite Hparse.
    destruct (servicecatalog.WaitProvisioningArtifactReady catalog artifactID productID
                (schema.Timeout d schema.TimeoutRead) w) as [r w'] eqn:H.
    run_call H. cbn [fst] in Hmissing. rewrite Hold, Hmissing. reflexivity.
Qed.

End Reads.

(** ** The provisioning artifact: identifiers that do not parse, and how
    the operations chain *)

Section ArtifactLifecycle.
Context {U : Type} (catalog : servicecatalog.Provider U).

(** The diagnostic for an identifier that does not parse. *)
Definition parsingError (d : schema.ResourceData) (e : error) : diag.Diagnostic :=
  diag.Errorf "parsing Service Catalog Provisioning Artifact ID (%s): %s"
    [diag.Str (schema.Id d); diag.Err e].

(** X9: with an identifier that does not parse, read, update and delete
    issue no remote call at all and return the parsing error with the
    resource data untouched. *)
Theorem unparsable_identifier_stops (d : schema.ResourceData) (artifactID productID : string)
    (e : error) (u : Remote U servicecatalog.Call) :
  servicecatalog.ProvisioningArtifactParseID catalog (schema.Id d)
  = (artifactID, productID, Some e) ->
  servicecatalog.resourceProvisioningArtifactRead catalog d u = ((d, [parsingError d e]), u)
  /\ servicecatalog.resourceProvisioningArtifactUpdate catalog d u = ((d, [parsingError d e]), u)
  /\ servicecatalog.resourceProvisioningArtifactDelete catalog d u = ((d, [parsingError d e]), u).
Proof.
  intros Hparse.
  assert (Hread : servicecatalog.resourceProvisioningArtifactRead catalog d u
                  = ((d, [parsingError d e]), u)).
  { unfold servicecatalog.resourceProvisioningArtifactRead. rewrite Hparse. reflexivity. }
  split; [exact Hread|]. split.
  - unfold servicecatalog.resourceProvisioningArtifactUpdate.
    destruct (schema.HasChanges d servicecatalog.updatableFields).
    + rewrite Hparse. reflexivity.
    + rewrite (bind_run _ Hread). reflexivity.
  - unfold servicecatalog.resourceProvisioningArtifactDelete. rewrite Hparse. reflexivity.
Qed.

(** X10: delete never changes the resource data.  It waits for the deletion
    only after the remote accepted the delete call; a not-found answer is a
    success without waiting, any other error is reported without waiting,
    and a failed wait is reported. *)
Theorem artifact_delete_waits_after_deletion (d : schema.ResourceData)
    (artifactID productID : string) (w w1 : U) (tr : list servicecatalog.Call)
    (err : option error) :
  servicecatalog.ProvisioningArtifactParseID catalog (schema.Id d)
  = (artifactID, productID, None) ->
  servicecatalog.DeleteProvisioningArtifactWithContext catalog
    (deleteRequest d artifactID productID) w = (err, w1) ->
  servicecatalog.resourceProvisioningArtifactDelete catalog d (w, tr)
  = match err with
    | Some e =>
        ((d, if tfawserr.ErrCodeEquals err [servicecatalog.ErrCodeResourceNotFoundException]
             then []
             else [diag.Errorf "deleting Service Catalog Provisioning Artifact (%s): %s"
                     [diag.Str (schema.Id d); diag.Err e]]),
         (w1, tr ++ [servicecatalog.DeleteProvisioningArtifact
                       (deleteRequest d artifactID productID)]))
    | None =>
        let (waited, w2) :=
          servicecatalog.WaitProvisioningArtifactDeleted catalog artifactID productID
            (schema.Timeout d schema.TimeoutDelete) w1 in
        ((d, match waited with
             | Some e =>
                 [diag.Errorf
                    "waiting for Service Catalog Provisioning Artifact (%s) to be deleted: %s"
                    [diag.Str (schema.Id d); diag.Err e]]
             | None => []
             end),
         (w2, tr ++ [servicecatalog.DeleteProvisioningArtifact
                       (deleteRequest d artifactID productID);
                     servicecatalog.WaitDeleted artifactID productID
                       (schema.Timeout d schema.TimeoutDelete)]))
    end.
Proof.
  intros Hparse Hdelete.
  unfold servicecatalog.resourceProvisioningArtifactDelete. rewrite Hparse.
  fold (deleteRequest d artifactID productID). run_call Hdelete.
  destruct err as [e|].
  - destruct (tfawserr.ErrCodeEquals (Some e) _); reflexivity.
  - cbn [tfawserr.ErrCodeEquals].
    destruct (servicecatalog.WaitProvisioningArtifactDeleted catalog artifactID productID
                (schema.Timeout d schema.TimeoutDelete) w1) as [waited w2] eqn:Hwait.
    run_call Hwait. rewrite <- app_assoc.
    destruct waited; reflexivity.
Qed.

(** X11: create and its remote outcome.  On an error create reports it and
    sets no identifier; on an output with an identifier it sets the
    identifier built from that artifact identifier and the planned product,
    and returns what update returns for the data carrying it. *)
Theorem artifact_create_outcomes (d : schema.ResourceData) (w w1 : U)
    (tr : list servicecatalog.Call) (token : string)
    (output : option servicecatalog.ProvisioningArtifactOutput) (err : option error)
    (s1 : Remote U servicecatalog.Call) :
  servicecatalog.UniqueId catalog w = (token, w1) ->
  servicecatalog.createWithRetry catalog
    (schema.Timeout d schema.TimeoutCreate) (servicecatalog.createInput catalog d token) (w1, tr)
  = ((output, err), s1) ->
  servicecatalog.resourceProvisioningArtifactCreate catalog d (w, tr)
  = match err, servicecatalog.outputId output with
    | Some e, _ =>
        ((d, [diag.Errorf "creating Service Catalog Provisioning Artifact: %s" [diag.Err e]]),
         s1)
    | None, None =>
        ((d, [diag.Errorf "creating Service Catalog Provisioning Artifact: empty response" []]),
         s1)
    | None, Some artifactID =>
        let (r, s2) :=
          servicecatalog.resourceProvisioningArtifactUpdate catalog
            (schema.SetId d (servicecatalog.ProvisioningArtifactID catalog artifactID
                               (schema.GetString d "product_id"))) s1 in
        ((fst r, snd r), s2)
    end.
Proof.
  intros Htoken Hcreate.
  unfold servicecatalog.resourceProvisioningArtifactCreate.
  unfold bind at 1. cbn [fst snd]. rewrite Htoken.
  rewrite (bind_run _ Hcreate). cbn [fst snd].
  destruct err as [e|]; [reflexivity|].
  destruct (servicecatalog.outputId output) as [artifactID|]; [|reflexivity].
  unfold bind. cbn [aws.StringValue].
  destruct (servicecatalog.resourceProvisioningArtifactUpdate catalog _ s1) as [r s2].
  reflexivity.
Qed.

(** X12: update and read.  Without a change update is read; with one, a
    failed remote update is reported without reading, and after a
    successful one update returns what read returns. *)
Theorem artifact_update_then_read (d : schema.ResourceData) (artifactID productID : string)
    (err : option error) (u u1 : Remote U servicecatalog.Call) :
  (schema.HasChanges d servicecatalog.updatableFields = false ->
   servicecatalog.resourceProvisioningArtifactUpdate catalog d u
   = (let (r, u2) := servicecatalog.resourceProvisioningArtifactRead catalog d u in
      ((fst r, snd r), u2)))
  /\
  (schema.HasChanges d servicecatalog.updatableFields = true ->
   servicecatalog.ProvisioningArtifactParseID catalog (schema.Id d)
   = (artifactID, productID, None) ->
   servicecatalog.updateWithRetry catalog (schema.Timeout d schema.TimeoutUpdate)
     (servicecatalog.updateInput d artifactID productID) u = (err, u1) ->
   servicecatalog.resourceProvisioningArtifactUpdate catalog d u
   = match err with
     | Some e =>
         ((d, [diag.Errorf "updating Service Catalog Provisioning Artifact (%s): %s"
                 [diag.Str (schema.Id d); diag.Err e]]), u1)
     | None =>
         let (r, u2) := servicecatalog.resourceProvisioningArtifactRead catalog d u1 in
         ((fst r, snd r), u2)
     end).
Proof.
  split.
  - intros Hsame. unfold servicecatalog.resourceProvisioningArtifactUpdate.
    rewrite Hsame. unfold bind.
    destruct (servicecatalog.resourceProvisioningArtifactRead catalog d u) as [r u2].
    reflexivity.
  - intros Hchanged Hparse Hupdate. unfold servicecatalog.resourceProvisioningArtifactUpdate.
    rewrite Hchanged, Hparse. rewrite (bind_run _ Hupdate).
    destruct err as [e|]; [reflexivity|]. unfold bind.
    destruct (servicecatalog.resourceProvisioningArtifactRead catalog d u1) as [r u2].
    reflexivity.
Qed.

End ArtifactLifecycle.

(** ** The method response: create, update and delete *)

Section MethodResponse.
Context {V : Type} (gateway : apigateway.Provider V).

(** The request of create. *)
Definition putRequest (d : schema.ResourceData) : apigateway.PutMethodResponseInput :=
  {| apigateway.put_HttpMethod := Some (schema.GetString d "http_method");
     apigateway.put_ResourceId := Some (schema.GetString d "resource_id");
     apigateway.put_RestApiId := Some (schema.GetString d "rest_api_id");
     apigateway.put_StatusCode := Some (schema.GetString d "status_code");
     apigateway.put_ResponseModels :=
       map (fun kv => (fst kv, Some (apigateway.elemString (snd kv))))
         (schema.GetMap d "response_models");
     apigateway.put_ResponseParameters :=
       map (fun kv => (fst kv, Some (apigateway.elemBool (snd kv))))
         (schema.GetMap d "response_parameters") |}.

(** The spellings [strconv.ParseBool] reads as true. *)
Definition trueSpellings : list string := ["1"; "t"; "T"; "TRUE"; "true"; "True"].

Lemma elemBool_string (v : string) :
  apigateway.elemBool (schema.EString v) = existsb (String.eqb v) trueSpellings.
Proof.
  unfold apigateway.elemBool, strconv.ParseBool. fold trueSpellings.
  destruct (existsb (String.eqb v) trueSpellings); [reflexivity|].
  destruct (existsb _ _); reflexivity.
Qed.

Lemma putRequest_built (d : schema.ResourceData) :
  {| apigateway.put_HttpMethod := aws.String (schema.GetString d "http_method");
     apigateway.put_ResourceId := aws.String (schema.GetString d "resource_id");
     apigateway.put_RestApiId := aws.String (schema.GetString d "rest_api_id");
     apigateway.put_StatusCode := aws.String (schema.GetString d "status_code");
     apigateway.put_ResponseModels :=
       aws.StringMap (map (fun kv => (fst kv, apigateway.elemString (snd kv)))
                        (schema.GetMap d "response_models"));
     apigateway.put_ResponseParameters :=
       aws.BoolMap match schema.GetOkMap d "response_parameters" with
                   | Some kv => map (fun kv => (fst kv, apigateway.elemBool (snd kv))) kv
                   | None => []
                   end |}
  = putRequest d.
Proof.
  unfold putRequest, aws.StringMap, aws.BoolMap, aws.String, schema.GetOkMap.
  f_equal.
  - rewrite map_map. reflexivity.
  - destruct (schema.GetMap d "response_parameters") as [|kv rest]; [reflexivity|].
    rewrite map_map. reflexivity.
Qed.

(** X13: create hands to the retry helper the one put call, whose request
    carries every planned response model and response parameter under its
    key, a parameter given as a string being true exactly for the spellings
    [strconv.ParseBool] reads as true and false otherwise; create sets the
    identifier, in the [agmr-] form, exactly when the helper returns no
    error. *)
Theorem method_response_create (d : schema.ResourceData) (t : Remote V apigateway.Call) :
  apigateway.resourceMethodResponseCreate gateway d t
  = (let (r, t') :=
       apigateway.RetryWhenAWSErrCodeEquals gateway (2 * time.Minute)%Z
         (call (apigateway.PutMethodResponse (putRequest d))
            (apigateway.PutMethodResponseWithContext (apigateway.APIGatewayConn gateway)
               (putRequest d)))
         [apigateway.ErrCodeConflictException] t in
     (match snd r with
      | Some e => (d, [diag.Errorf "creating API Gateway Method Response: %s" [diag.Err e]])
      | None =>
          (schema.SetId d
             (methodResponseID (schema.GetString d "rest_api_id")
                (schema.GetString d "resource_id") (schema.GetString d "http_method")
                (schema.GetString d "status_code")), [])
      end, t'))
  /\ map fst (apigateway.put_ResponseModels (putRequest d))
     = map fst (schema.GetMap d "response_models")
  /\ map fst (apigateway.put_ResponseParameters (putRequest d))
     = map fst (schema.GetMap d "response_parameters")
  /\ (forall key b,
         In (key, schema.EBool b) (schema.GetMap d "response_parameters") ->
         In (key, Some b) (apigateway.put_ResponseParameters (putRequest d)))
  /\ (forall key v,
         In (key, schema.EString v) (schema.GetMap d "response_parameters") ->
         In (key, Some (existsb (String.eqb v) trueSpellings))
           (apigateway.put_ResponseParameters (putRequest d))).
Proof.
  split; [|split; [|split; [|split]]].
  - unfold apigateway.resourceMethodResponseCreate. cbv zeta.
    rewrite putRequest_built. unfold bind.
    destruct (apigateway.RetryWhenAWSErrCodeEquals gateway _ _ _ t) as [r t'].
    destruct (snd r); reflexivity.
  - unfold putRequest. cbn [apigateway.put_ResponseModels].
    rewrite map_map. reflexivity.
  - unfold putRequest. cbn [apigateway.put_ResponseParameters].
    rewrite map_map. reflexivity.
  - intros key b Hin. unfold putRequest. cbn [apigateway.put_ResponseParameters].
    apply in_map_iff. exists (key, schema.EBool b). split; [reflexivity | exact Hin].
  - intros key v Hin. unfold putRequest. cbn [apigateway.put_ResponseParameters].
    apply in_map_iff. exists (key, schema.EString v).
    split; [cbn [fst snd]; now rewrite elemBool_string | exact Hin].
Qed.

(** X14: update and read.  A failed remote update is reported without
    reading and leaves the data untouched; after a successful one update
    returns what read returns. *)
Theorem method_response_update_then_read (d : schema.ResourceData) (w w1 : V)
    (tr : list apigateway.Call) (r : apigateway.MethodResponse) (err : option error) :
  apigateway.UpdateMethodResponseWithContext (apigateway.APIGatewayConn gateway)
    (methodResponseUpdate gateway d) w = ((r, err), w1) ->
  apigateway.resourceMethodResponseUpdate gateway d (w, tr)
  = match err with
    | Some e =>
        ((d, [diag.Errorf "updating API Gateway Method Response (%s): %s"
                [diag.Str (schema.Id d); diag.Err e]]),
         (w1, tr ++ [apigateway.UpdateMethodResponse (methodResponseUpdate gateway d)]))
    | None =>
        let (r', t2) :=
          apigateway.resourceMethodResponseRead gateway d
            (w1, tr ++ [apigateway.UpdateMethodResponse (methodResponseUpdate gateway d)]) in
        ((fst r', snd r'), t2)
    end.
Proof.
  intros Hupdate. unfold apigateway.resourceMethodResponseUpdate. cbv zeta.
  assert (Hops :
      (if schema.HasChange d "response_parameters"
       then (if schema.HasChange d "response_models"
             then [] ++ apigateway.expandRequestResponseModelOperations gateway d
                          "response_models" "responseModels"
             else [])
            ++ apigateway.expandMethodParametersOperations gateway d
                 "response_parameters" "responseParameters"
       else (if schema.HasChange d "response_models"
             then [] ++ apigateway.expandRequestResponseModelOperations gateway d
                          "response_models" "responseModels"
             else []))
      = patchOperations gateway d).
  { unfold patchOperations.
    destruct (schema.HasChange d "response_parameters"),
             (schema.HasChange d "response_models");
      cbn [app]; try reflexivity; now rewrite app_nil_r. }
  rewrite Hops. fold (methodResponseUpdate gateway d).
  run_call Hupdate. cbn [snd].
  destruct err as [e|]; [reflexivity|]. unfold bind.
  destruct (apigateway.resourceMethodResponseRead gateway d _) as [r' t2]. reflexivity.
Qed.

(** The method response is gone in the worlds that satisfy [gone]: there
    the remote answers its deletion with the not-found code, and the world
    stays one of them. *)
Definition methodResponseAbsent (gone : V -> Prop) (d : schema.ResourceData) : Prop :=
  forall v : V,
    gone v ->
    tfawserr.ErrCodeEquals
      (fst (apigateway.DeleteMethodResponseWithContext (apigateway.APIGatewayConn gateway)
              (apigateway.methodResponseKey d) v))
      [apigateway.ErrCodeNotFoundException] = true
    /\ gone (snd (apigateway.DeleteMethodResponseWithContext (apigateway.APIGatewayConn gateway)
                    (apigateway.methodResponseKey d) v)).

(** X15: delete issues the one delete call and never changes the resource
    data; it reports every error of the call but not-found; and for a
    method response that is already gone it succeeds, twice in a row as
    well. *)
Theorem method_response_delete (d : schema.ResourceData) (t : Remote V apigateway.Call) :
  fst (fst (apigateway.resourceMethodResponseDelete gateway d t)) = d
  /\ calls (snd (apigateway.resourceMethodResponseDelete gateway d t))
     = calls t ++ [apigateway.DeleteMethodResponse (apigateway.methodResponseKey d)]
  /\ (forall e,
         fst (apigateway.DeleteMethodResponseWithContext (apigateway.APIGatewayConn gateway)
                (apigateway.methodResponseKey d) (world t)) = Some e ->
         tfawserr.ErrCodeEquals (Some e) [apigateway.ErrCodeNotFoundException] = false ->
         snd (fst (apigateway.resourceMethodResponseDelete gateway d t))
         = [diag.Errorf "deleting API Gateway Method Response (%s): %s"
              [diag.Str (schema.Id d); diag.Err e]])
  /\ (forall gone : V -> Prop,
         methodResponseAbsent gone d ->
         gone (world t) ->
         fst (twice (apigateway.resourceMethodResponseDelete gateway d) t)
         = ((d, []), (d, []))).
Proof.
  assert (Hrun : forall t0 : Remote V apigateway.Call,
             apigateway.resourceMethodResponseDelete gateway d t0
             = (let (err, v') :=
                  apigateway.DeleteMethodResponseWithContext (apigateway.APIGatewayConn gateway)
                    (apigateway.methodResponseKey d) (world t0) in
                ((d, if tfawserr.ErrCodeEquals err [apigateway.ErrCodeNotFoundException]
                     then []
                     else match err with
                          | Some e =>
                              [diag.Errorf "deleting API Gateway Method Response (%s): %s"
                                 [diag.Str (schema.Id d); diag.Err e]]
                          | None => []
                          end),
                 (v', calls t0
                      ++ [apigateway.DeleteMethodResponse (apigateway.methodResponseKey d)])))).
  { intros [w tr]. unfold apigateway.resourceMethodResponseDelete. cbn [world fst calls snd].
    destruct (apigateway.DeleteMethodResponseWithContext (apigateway.APIGatewayConn gateway)
                (apigateway.methodResponseKey d) w) as [err v'] eqn:H.
    run_call H.
    destruct (tfawserr.ErrCodeEquals err _); [reflexivity|].
    destruct err; reflexivity. }
  split; [|split; [|split]].
  - rewrite Hrun. destruct (apigateway.DeleteMethodResponseWithContext _ _ _). reflexivity.
  - rewrite Hrun. destruct (apigateway.DeleteMethodResponseWithContext _ _ _). reflexivity.
  - intros e He Hcode. rewrite Hrun.
    destruct (apigateway.DeleteMethodResponseWithContext _ _ _) as [err v'].
    cbn [fst] in He. subst err. cbn [fst snd]. rewrite Hcode. reflexivity.
  - intros gone Habsent Hgone.
    apply twice_both with (inv := fun t0 => gone (world t0)); [|exact Hgone].
    intros t0 H0. rewrite Hrun. specialize (Habsent (world t0) H0).
    destruct (apigateway.DeleteMethodResponseWithContext _ _ _) as [err v'].
    cbn [fst snd] in Habsent |- *. destruct Habsent as [Hcode Hgone'].
    rewrite Hcode. split; [reflexivity | exact Hgone'].
Qed.

End MethodResponse.

(** ** Instances on the test doubles *)

(** The association of [sg-2] as stored, and the artifact [pa-1] as
    stored. *)
Definition storedAssociation : schema.ResourceData :=
  Stub.data "vpce-1/sg-2"
    [("vpc_endpoint_id", schema.VString "vpce-1");
     ("security_group_id", schema.VString "sg-2");
     ("replace_default_association", schema.VBool false)]
    [("vpc_endpoint_id", schema.VString "vpce-1");
     ("security_group_id", schema.VString "sg-2");
     ("replace_default_association", schema.VBool false)]
    false 0.

Definition storedArtifact : schema.ResourceData :=
  Stub.data "pa-1:prod-1"
    (Stub.artifactAttrs "first version") (Stub.artifactAttrs "first version") false 1.

(** The new association is not visible yet: read reports it and keeps the
    identifier. *)
Lemma read_keeps_new_resource_witness :
  schema.Id (fst (fst (ec2.resourceVPCEndpointSecurityGroupAssociationRead Stub.ec2Meta
                         (schema.SetId (Stub.association "sg-2" false) "vpce-1/sg-2")
                         (Stub.fresh, []))))
  = "vpce-1/sg-2".
Proof.
  exact (proj1 (read_keeps_new_resource Stub.ec2Meta Stub.apigatewayMeta Stub.catalogMeta
                  (schema.SetId (Stub.association "sg-2" false) "vpce-1/sg-2")
                  (Stub.fresh, []) (tt, []) (Stub.emptyCatalog, []) eq_refl)).
Defined.

(** The stored association and the stored artifact are gone from the
    remote. *)
Lemma read_forgets_missing_resource_witness :
  fst (ec2.resourceVPCEndpointSecurityGroupAssociationRead Stub.ec2Meta storedAssociation
         (Stub.fresh, []))
  = (schema.SetId storedAssociation "", [])
  /\ fst (servicecatalog.resourceProvisioningArtifactRead Stub.catalogMeta storedArtifact
            (Stub.emptyCatalog, []))
     = (schema.SetId storedArtifact "", []).
Proof.
  split.
  - exact (proj1 (read_forgets_missing_resource Stub.ec2Meta Stub.apigatewayMeta
                    Stub.catalogMeta storedAssociation "" ""
                    (Stub.fresh, []) (tt, []) (Stub.emptyCatalog, []) eq_refl) eq_refl).
  - exact (proj2 (proj2 (read_forgets_missing_resource Stub.ec2Meta Stub.apigatewayMeta
                           Stub.catalogMeta storedArtifact "pa-1" "prod-1"
                           (Stub.fresh, []) (tt, []) (Stub.emptyCatalog, []) eq_refl))
             eq_refl eq_refl).
Defined.

(** An identifier without the separator. *)
Lemma unparsable_identifier_stops_witness :
  servicecatalog.resourceProvisioningArtifactDelete Stub.catalogMeta
    (Stub.data "pa-1" [] (Stub.artifactAttrs "first version") false 1) (Stub.oneArtifact, [])
  = ((Stub.data "pa-1" [] (Stub.artifactAttrs "first version") false 1,
      [parsingError (Stub.data "pa-1" [] (Stub.artifactAttrs "first version") false 1)
         (FmtError "unexpected format of ID (%s), expected artifactID:productID" ["pa-1"] None)]),
     (Stub.oneArtifact, [])).
Proof.
  exact (proj2 (proj2 (unparsable_identifier_stops Stub.catalogMeta
                         (Stub.data "pa-1" [] (Stub.artifactAttrs "first version") false 1)
                         "" ""
                         (FmtError "unexpected format of ID (%s), expected artifactID:productID"
                            ["pa-1"] None)
                         (Stub.oneArtifact, []) eq_refl))).
Defined.

Lemma artifact_delete_waits_after_deletion_witness :
  servicecatalog.resourceProvisioningArtifactDelete Stub.catalogMeta storedArtifact
    (Stub.oneArtifact, [])
  = ((storedArtifact, []),
     (Stub.emptyCatalog,
      [servicecatalog.DeleteProvisioningArtifact (deleteRequest storedArtifact "pa-1" "prod-1");
       servicecatalog.WaitDeleted "pa-1" "prod-1" (1 * time.Minute)%Z])).
Proof.
  exact (artifact_delete_waits_after_deletion Stub.catalogMeta storedArtifact "pa-1" "prod-1"
           Stub.oneArtifact Stub.emptyCatalog [] None eq_refl eq_refl).
Defined.

(** The remote refuses the create call for good: no identifier. *)
Lemma artifact_create_outcomes_witness :
  servicecatalog.resourceProvisioningArtifactCreate Stub.catalogMeta
    (Stub.data "" [] (Stub.artifactAttrs "first version") true 1)
    ({| Stub.artifacts := []; Stub.pendingProfile := 1; Stub.withoutDetail := false |}, [])
  = ((Stub.data "" [] (Stub.artifactAttrs "first version") true 1,
      [diag.Errorf "creating Service Catalog Provisioning Artifact: %s"
         [diag.Err Stub.profileMissing]]),
     (Stub.emptyCatalog,
      [servicecatalog.CreateProvisioningArtifact
         (servicecatalog.createInput Stub.catalogMeta
            (Stub.data "" [] (Stub.artifactAttrs "first version") true 1)
            "terraform-20230101000000000000000001")])).
Proof.
  exact (artifact_create_outcomes Stub.catalogMeta
           (Stub.data "" [] (Stub.artifactAttrs "first version") true 1)
           {| Stub.artifacts := []; Stub.pendingProfile := 1; Stub.withoutDetail := false |}
           {| Stub.artifacts := []; Stub.pendingProfile := 1; Stub.withoutDetail := false |}
           [] "terraform-20230101000000000000000001" None (Some Stub.profileMissing)
           (Stub.emptyCatalog,
            [servicecatalog.CreateProvisioningArtifact
               (servicecatalog.createInput Stub.catalogMeta
                  (Stub.data "" [] (Stub.artifactAttrs "first version") true 1)
                  "terraform-20230101000000000000000001")])
           eq_refl eq_refl).
Defined.

(** The remote update of the redescribed artifact [pa-1] fails: the catalog
    does not hold it. *)
Lemma artifact_update_then_read_witness :
  servicecatalog.resourceProvisioningArtifactUpdate Stub.catalogMeta redescribedArtifact
    (Stub.emptyCatalog, [])
  = ((redescribedArtifact,
      [diag.Errorf "updating Service Catalog Provisioning Artifact (%s): %s"
         [diag.Str "pa-1:prod-1";
          diag.Err (AWSError "ResourceNotFoundException" "no such provisioning artifact")]]),
     (Stub.emptyCatalog,
      [servicecatalog.UpdateProvisioningArtifact
         (servicecatalog.updateInput redescribedArtifact "pa-1" "prod-1")])).
Proof.
  exact (proj2 (artifact_update_then_read Stub.catalogMeta redescribedArtifact "pa-1" "prod-1"
                  (Some (AWSError "ResourceNotFoundException" "no such provisioning artifact"))
                  (Stub.emptyCatalog, [])
                  (Stub.emptyCatalog,
                   [servicecatalog.UpdateProvisioningArtifact
                      (servicecatalog.updateInput redescribedArtifact "pa-1" "prod-1")]))
           eq_refl eq_refl eq_refl).
Defined.

Lemma method_response_update_then_read_witness :
  apigateway.resourceMethodResponseUpdate Stub.apigatewayMeta unchangedMethodResponse (tt, [])
  = (let (r', t2) :=
       apigateway.resourceMethodResponseRead Stub.apigatewayMeta unchangedMethodResponse
         (tt, [] ++ [apigateway.UpdateMethodResponse
                       (methodResponseUpdate Stub.apigatewayMeta unchangedMethodResponse)]) in
     ((fst r', snd r'), t2)).
Proof.
  exact (method_response_update_then_read Stub.apigatewayMeta unchangedMethodResponse
           tt tt [] Stub.noResponse None eq_refl).
Defined.

(** Parameters given as strings: [TRUE] is true, [yes] is not a spelling
    [strconv.ParseBool] knows and becomes false. *)
Example create_parses_string_parameters :
  apigateway.put_ResponseParameters
    (putRequest
       (Stub.data "" []
          [("response_parameters",
            schema.VMap [("method.response.header.A", schema.EString "TRUE");
                         ("method.response.header.B", schema.EString "yes");
                         ("method.response.header.C", schema.EBool true)])]
          true 2))
  = [("method.response.header.A", Some true);
     ("method.response.header.B", Some false);
     ("method.response.header.C", Some true)].
Proof. vm_compute. reflexivity. Qed.

(* ===================================================================== *)
(** * The template of the tag-listing functions *)
(* ===================================================================== *)

(** The template emits, for one service package, the function that lists
    the tags of a resource.  What it emits depends on the template's data;
    the model is the emitted function as a function of that data. *)
Set Implicit Arguments.

Module listtags.

(** The data of the template that shape the function.  A template
    condition holds of a string when the string is not empty. *)
Record TemplateData : Type := {
  ContextOnly : bool;
  ListTagsInFiltIDName : string;
  ListTagsInIDElem : string;
  ListTagsInIDNeedSlice : string;
  ListTagsOp : string;
  ListTagsOutTagsElem : string;
  ParentNotFoundErrCode : string;
  ParentNotFoundErrMsg : string;
  TagResTypeElem : string;
  TagTypeIDElem : string
}.

Definition truth (s : string) : bool := negb (String.eqb s "").

(** The service's input: a struct literal whose field names come from the
    template's data. *)
Record Filter : Type := {
  Name : option string;
  Values : list (option string)
}.

Inductive Field : Type :=
| FiltersField (filters : list Filter)
| StringField (v : option string)
| StringSliceField (vs : list (option string)).

Definition Input : Type := list (string * Field).

(** The remote call: the operation's name and its input. *)
Inductive Call : Type :=
| ListTagsCall (op : string) (input : Input).

(** The error the function returns: a [*resource.NotFoundError] with its
    two fields, or the remote error as it is. *)
Inductive Failure : Type :=
| NotFound (LastError : option error) (LastRequest : Input)
| Other (err : error).

(** What the emitted function uses of its package: the connection's method
    of the given name (it returns its output, non-nil when the error is
    nil), the output's field of the given name, the package's
    [KeyValueTags] with its extra arguments, and [tftags.New(nil)]. *)
Record Package (W Output Raw Tags : Type) : Type := {
  WithContext : string -> Input -> W -> (Output * option error) * W;
  field : Output -> string -> Raw;
  KeyValueTags : Raw -> list string -> Tags;
  New : Tags
}.

Section Emitted.
Context {W Output Raw Tags : Type} (t : TemplateData) (conn : Package W Output Raw Tags).

(** The [input] literal. *)
Definition listTagsInput (identifier resourceType : string) : Input :=
  if truth (ListTagsInFiltIDName t)
  then
    [("Filters",
      FiltersField [{| Name := aws.String (ListTagsInFiltIDName t);
                       Values := [aws.String identifier] |}])]
  else
    (ListTagsInIDElem t,
     if truth (ListTagsInIDNeedSlice t)
     then StringSliceField (aws.StringSlice [identifier])
     else StringField (aws.String identifier))
    :: (if truth (TagResTypeElem t)
        then [(TagResTypeElem t, StringField (aws.String resourceType))]
        else []).

(** The function with the context argument: the tags ([None] for nil) and
    the error.  [resourceType] is a parameter of the emitted function only
    when [TagResTypeElem] is set. *)
Definition ListTagsWithContext (identifier resourceType : string)
  : M (Remote W Call) (option Tags * option Failure) :=
  let input := listTagsInput identifier resourceType in
  r <- call (ListTagsCall (ListTagsOp t) input) (WithContext conn (ListTagsOp t) input) ;;
  let output := fst r in
  let err := snd r in
  if (if truth (ParentNotFoundErrCode t) && truth (ParentNotFoundErrMsg t)
      then tfawserr.ErrMessageContains err (ParentNotFoundErrCode t) (ParentNotFoundErrMsg t)
      else if truth (ParentNotFoundErrCode t)
           then tfawserr.ErrCodeEquals err [ParentNotFoundErrCode t]
           else false)
  then ret (None, Some (NotFound err input))
  else
    match err with
    | Some e => ret (Some (New conn), Some (Other e))
    | None =>
        ret (Some (KeyValueTags conn (field conn output (ListTagsOutTagsElem t))
                     (if truth (TagTypeIDElem t)
                      then identifier :: (if truth (TagResTypeElem t) then [resourceType] else [])
                      else [])),
             None)
    end.

(** The function without the context argument, emitted unless
    [ContextOnly]: it calls the other one with the background context. *)
Definition ListTags (identifier resourceType : string)
  : M (Remote W Call) (option Tags * option Failure) :=
  ListTagsWithContext identifier resourceType.

End Emitted.

End listtags.

Unset Implicit Arguments.

(** A package whose tags are a list of pairs and whose remote is a fixed
    answer. *)
Definition fixedAnswer (answer : list (string * string) * option error)
  : listtags.Package unit (list (string * string)) (list (string * string))
      (list (string * string)) :=
  {| listtags.WithContext := fun _ _ w => (answer, w);
     listtags.field := fun output _ => output;
     listtags.KeyValueTags := fun raw _ => raw;
     listtags.New := [] |}.

(** Data as for a service whose parent's absence shows as the code
    [ResourceNotFoundException] with the words [does not exist]. *)
Definition parentChecked : listtags.TemplateData :=
  {| listtags.ContextOnly := true;
     listtags.ListTagsInFiltIDName := "";
     listtags.ListTagsInIDElem := "ResourceArn";
     listtags.ListTagsInIDNeedSlice := "";
     listtags.ListTagsOp := "ListTagsForResource";
     listtags.ListTagsOutTagsElem := "Tags";
     listtags.ParentNotFoundErrCode := "ResourceNotFoundException";
     listtags.ParentNotFoundErrMsg := "does not exist";
     listtags.TagResTypeElem := "";
     listtags.TagTypeIDElem := "" |}.

Section TagListing.
Context {W Output Raw Tags : Type}.
Context (t : listtags.TemplateData) (conn : listtags.Package W Output Raw Tags).

Lemma Contains_empty (s : string) : strings.Contains s "" = true.
Proof. destruct s; reflexivity. Qed.

(** Testing the code alone is testing the code with the empty message. *)
Lemma ErrCodeEquals_as_message (err : option error) (code : string) :
  tfawserr.ErrCodeEquals err [code] = tfawserr.ErrMessageContains err code "".
Proof.
  unfold tfawserr.ErrCodeEquals, tfawserr.ErrMessageContains.
  destruct err as [e|]; [|reflexivity].
  destruct (tfawserr.asAWSError e) as [[c m]|]; [|reflexivity].
  cbn [existsb]. rewrite Contains_empty, orb_false_r, andb_true_r. reflexivity.
Qed.

(** X16: the emitted function issues the one call of the configured
    operation.  It answers not-found, with nil tags, the remote error and
    the request, exactly when a parent-not-found code is configured and the
    remote error is an AWS error of that code whose message contains the
    configured message (any message when none is configured); every other
    remote error is returned as it is with empty tags, and only a call
    without error returns the tags of the output. *)
Theorem ListTags_parent_not_found (identifier resourceType : string)
    (s : Remote W listtags.Call) :
  let input := listtags.listTagsInput t identifier resourceType in
  let answer := fst (listtags.WithContext conn (listtags.ListTagsOp t) input (world s)) in
  let parentNotFound :=
    listtags.truth (listtags.ParentNotFoundErrCode t)
    && tfawserr.ErrMessageContains (snd answer)
         (listtags.ParentNotFoundErrCode t) (listtags.ParentNotFoundErrMsg t) in
  calls (snd (listtags.ListTagsWithContext t conn identifier resourceType s))
  = calls s ++ [listtags.ListTagsCall (listtags.ListTagsOp t) input]
  /\ fst (listtags.ListTagsWithContext t conn identifier resourceType s)
     = if parentNotFound
       then (None, Some (listtags.NotFound (snd answer) input))
       else match snd answer with
            | Some e => (Some (listtags.New conn), Some (listtags.Other e))
            | None =>
                (Some (listtags.KeyValueTags conn
                         (listtags.field conn (fst answer) (listtags.ListTagsOutTagsElem t))
                         (if listtags.truth (listtags.TagTypeIDElem t)
                          then identifier
                               :: (if listtags.truth (listtags.TagResTypeElem t)
                                   then [resourceType] else [])
                          else [])),
                 None)
            end.
Proof.
  cbv zeta. destruct s as [w tr]. cbn [world fst].
  unfold listtags.ListTagsWithContext.
  destruct (listtags.WithContext conn (listtags.ListTagsOp t)
              (listtags.listTagsInput t identifier resourceType) w) as [r w'] eqn:H.
  run_call H. cbn [fst snd].
  destruct (listtags.truth (listtags.ParentNotFoundErrCode t)) eqn:Hcode; cbn [andb].
  - destruct (listtags.truth (listtags.ParentNotFoundErrMsg t)) eqn:Hmsg.
    + destruct (tfawserr.ErrMessageContains (snd r) _ _).
      * split; reflexivity.
      * destruct (snd r); split; reflexivity.
    + unfold listtags.truth in Hmsg. apply negb_false_iff, String.eqb_eq in Hmsg.
      rewrite Hmsg, <- ErrCodeEquals_as_message.
      destruct (tfawserr.ErrCodeEquals (snd r) _).
      * split; reflexivity.
      * destruct (snd r); split; reflexivity.
  - destruct (snd r); split; reflexivity.
Qed.

End TagListing.

(** The code with other words is no parent-not-found: the error passes. *)
Example ListTags_other_message :
  fst (listtags.ListTagsWithContext parentChecked
         (fixedAnswer ([], Some (AWSError "ResourceNotFoundException" "no such tag")))
         "arn:aws:example" "" (tt, []))
  = (Some [], Some (listtags.Other (AWSError "ResourceNotFoundException" "no such tag")))
  /\ fst (listtags.ListTagsWithContext parentChecked
            (fixedAnswer ([], Some (AWSError "ResourceNotFoundException"
                                      "the cluster does not exist")))
            "arn:aws:example" "" (tt, []))
     = (None,
        Some (listtags.NotFound
                (Some (AWSError "ResourceNotFoundException" "the cluster does not exist"))
                [("ResourceArn", listtags.StringField (Some "arn:aws:example"))]))
  /\ fst (listtags.ListTagsWithContext parentChecked
            (fixedAnswer ([("env", "prod")], None)) "arn:aws:example" "" (tt, []))
     = (Some [("env", "prod")], None).
Proof. repeat split; vm_compute; reflexivity. Qed.

(** ** The retried calls without a timeout *)

Section RetryPhase.
Context {U : Type} (catalog : servicecatalog.Provider U).

(** X17: in create and in update alike, when the bounded-retry phase ends
    in anything but a timeout (a success, a permanent error, the last
    retryable error), no direct call follows: the calls are those of the
    phase, and the retried operation returns the error, and in create the
    output, that the phase left. *)
Theorem retry_result_is_final_without_timeout (timeout : Duration)
    (creation : servicecatalog.CreateProvisioningArtifactInput)
    (change : servicecatalog.UpdateProvisioningArtifactInput)
    (s : Remote U servicecatalog.Call) :
  (servicecatalog.TimedOut catalog (fst (fst (createRetryPhase catalog timeout creation s)))
   = false ->
   fst (servicecatalog.createWithRetry catalog timeout creation s)
   = (snd (fst (createRetryPhase catalog timeout creation s)),
      fst (fst (createRetryPhase catalog timeout creation s)))
   /\ calls (snd (servicecatalog.createWithRetry catalog timeout creation s))
      = calls (snd (createRetryPhase catalog timeout creation s)))
  /\
  (servicecatalog.TimedOut catalog (fst (updateRetryPhase catalog timeout change s)) = false ->
   fst (servicecatalog.updateWithRetry catalog timeout change s)
   = fst (updateRetryPhase catalog timeout change s)
   /\ calls (snd (servicecatalog.updateWithRetry catalog timeout change s))
      = calls (snd (updateRetryPhase catalog timeout change s))).
Proof.
  destruct (no_timeout_no_direct_call catalog timeout creation change s) as [Hcreate Hupdate].
  split; intros Htimeout.
  - rewrite (Hcreate Htimeout). split; reflexivity.
  - rewrite (Hupdate Htimeout). split; reflexivity.
Qed.

End RetryPhase.

(** One attempt in the budget and a missing profile: the phase ends with
    the retryable error, which is returned after the single call. *)
Lemma retry_result_is_final_without_timeout_witness :
  fst (servicecatalog.updateWithRetry Stub.catalogMeta (1 * time.Minute)%Z
         (servicecatalog.updateInput redescribedArtifact "pa-1" "prod-1")
         ({| Stub.artifacts := ["pa-1"]; Stub.pendingProfile := 3;
             Stub.withoutDetail := false |}, []))
  = Some Stub.profileMissing
  /\ calls (snd (servicecatalog.updateWithRetry Stub.catalogMeta (1 * time.Minute)%Z
                   (servicecatalog.updateInput redescribedArtifact "pa-1" "prod-1")
                   ({| Stub.artifacts := ["pa-1"]; Stub.pendingProfile := 3;
                       Stub.withoutDetail := false |}, [])))
     = [servicecatalog.UpdateProvisioningArtifact
          (servicecatalog.updateInput redescribedArtifact "pa-1" "prod-1")].
Proof.
  exact (proj2 (retry_result_is_final_without_timeout Stub.catalogMeta (1 * time.Minute)%Z
                  (servicecatalog.createInput Stub.catalogMeta redescribedArtifact "token")
                  (servicecatalog.updateInput redescribedArtifact "pa-1" "prod-1")
                  ({| Stub.artifacts := ["pa-1"]; Stub.pendingProfile := 3;
                      Stub.withoutDetail := false |}, []))
           eq_refl).
Defined.
